(** * mt32-pi: the MIDI level monitor and the LCD overlay state machine

    A shallow embedding of [src/midimonitor.cpp] (class [CMIDIMonitor]) and
    of [src/lcd/ui.cpp] (class [CUserInterface]), with the properties of the
    design document stated and proved over it.

    Conventions.
    - [unsigned int] and [u32] values are integers in [Z]; the wrap-around of
      an unsigned subtraction is written out with [u32].
    - [float] values are modelled by exact rationals ([Q]): the order and the
      branch structure of the code are kept, rounding is not modelled.
      Numeric equalities are therefore stated with [==].
    - The fixed-size C++ arrays are lists, read with [!!!] and written with
      [alter]; [wf] records their sizes.
    - The tick counter read through [CTimer::GetClockTicks()] is an explicit
      argument [nTicks] of the operation that reads it. *)

From Stdlib Require Import ZArith QArith Qround Lia Lqa Ascii String.
From stdpp Require Import base list.

Local Open Scope Z_scope.

(** [unsigned int] arithmetic is modulo 2^32. *)
Definition u32 (z : Z) : Z := z mod 2 ^ 32.

(** The single-precision type of the sources. *)
Definition float : Type := Q.
Bind Scope Q_scope with float.

#[global] Instance float_inhabited : Inhabited Q := populate 0%Q.
#[global] Instance char_inhabited : Inhabited ascii := populate zero.

(** ** utility.h *)

Module Utility.

(** Modelled from the spec: [Utility::Max] of utility.h, which is not among
    the sources; the larger of its two arguments. *)
Definition Max (a b : float) : float := if Qlt_le_dec a b then b else a.

(** Modelled from the spec: [Utility::Min] of utility.h, which is not among
    the sources; the smaller of its two arguments. *)
Definition Min (a b : float) : float := if Qlt_le_dec b a then b else a.

(** Modelled from the spec: [Utility::Clamp] of utility.h, which is not among
    the sources; the value limited to the interval [[lo, hi]]. *)
Definition Clamp (x lo hi : float) : float :=
  if Qlt_le_dec x lo then lo else if Qlt_le_dec hi x then hi else x.

End Utility.

(** ** midimonitor.cpp *)

Module MIDIMonitor.

Definition ChannelCount : nat := 16.
Definition NoteCount : nat := 128.

Record TNoteState := mkNoteState {
  nNoteOnTime : Z;
  nNoteOffTime : Z;
  nVelocity : Z
}.

Record TChannelState := mkChannelState {
  Notes : list TNoteState;
  nVolume : Z;
  nExpression : Z;
  nPan : Z
}.

Record CMIDIMonitor := mkMonitor {
  m_State : list TChannelState;
  m_PeakLevels : list float;
  m_PeakTimes : list Z
}.

#[global] Instance TNoteState_inhabited : Inhabited TNoteState :=
  populate (mkNoteState 0 0 0).
#[global] Instance TChannelState_inhabited : Inhabited TChannelState :=
  populate (mkChannelState [] 0 0 0).

(** Field assignments. *)
Definition set_nNoteOnTime (v : Z) (n : TNoteState) : TNoteState :=
  mkNoteState v (nNoteOffTime n) (nVelocity n).
Definition set_nNoteOffTime (v : Z) (n : TNoteState) : TNoteState :=
  mkNoteState (nNoteOnTime n) v (nVelocity n).
Definition set_nVelocity (v : Z) (n : TNoteState) : TNoteState :=
  mkNoteState (nNoteOnTime n) (nNoteOffTime n) v.

Definition set_Notes (l : list TNoteState) (c : TChannelState) : TChannelState :=
  mkChannelState l (nVolume c) (nExpression c) (nPan c).
Definition set_nVolume (v : Z) (c : TChannelState) : TChannelState :=
  mkChannelState (Notes c) v (nExpression c) (nPan c).
Definition set_nExpression (v : Z) (c : TChannelState) : TChannelState :=
  mkChannelState (Notes c) (nVolume c) v (nPan c).
Definition set_nPan (v : Z) (c : TChannelState) : TChannelState :=
  mkChannelState (Notes c) (nVolume c) (nExpression c) v.

Definition set_m_State (l : list TChannelState) (s : CMIDIMonitor) : CMIDIMonitor :=
  mkMonitor l (m_PeakLevels s) (m_PeakTimes s).

(** [m_State[nChannel].Notes[nNote]] updated in place by [f].  An index past
    the end of an array is outside the object in the source; the model
    leaves the state as it is there. *)
Definition alter_note (f : TNoteState → TNoteState) (nChannel nNote : Z)
    (s : CMIDIMonitor) : CMIDIMonitor :=
  set_m_State
    (alter (λ c, set_Notes (alter f (Z.to_nat nNote) (Notes c)) c)
           (Z.to_nat nChannel) (m_State s)) s.

(** [m_State[nChannel]] updated in place by [f]. *)
Definition alter_channel (f : TChannelState → TChannelState) (nChannel : Z)
    (s : CMIDIMonitor) : CMIDIMonitor :=
  set_m_State (alter f (Z.to_nat nChannel) (m_State s)) s.

(** [CMIDIMonitor::AllNotesOff]: both range-[for] loops. *)
Definition AllNotesOff (s : CMIDIMonitor) : CMIDIMonitor :=
  set_m_State
    ((λ Channel,
        set_Notes
          ((λ Note, set_nVelocity 0 (set_nNoteOffTime 0 (set_nNoteOnTime 0 Note)))
             <$> Notes Channel)
          Channel)
       <$> m_State s) s.

(** [CMIDIMonitor::ResetControllers]. *)
Definition ResetControllers (bIsResetAllControllers : bool) (s : CMIDIMonitor)
    : CMIDIMonitor :=
  set_m_State
    ((λ Channel,
        let Channel := set_nExpression 127 Channel in
        if negb bIsResetAllControllers
        then set_nPan 64 (set_nVolume 100 Channel)
        else Channel)
       <$> m_State s) s.

(** [CMIDIMonitor::ProcessCC]. *)
Definition ProcessCC (nChannel nCC nValue : Z) (s : CMIDIMonitor) : CMIDIMonitor :=
  if nCC =? 0x07 then alter_channel (set_nVolume nValue) nChannel s
  else if nCC =? 0x0A then alter_channel (set_nPan nValue) nChannel s
  else if nCC =? 0x0B then alter_channel (set_nExpression nValue) nChannel s
  else if (nCC =? 0x78) || (nCC =? 0x7B) || (nCC =? 0x7C)
          || (nCC =? 0x7D) || (nCC =? 0x7E) || (nCC =? 0x7F)
  then AllNotesOff s
  else if nCC =? 0x79 then ResetControllers true s
  else s.

(** [CMIDIMonitor::OnShortMessage]; [nTicks] is the value that
    [CTimer::GetClockTicks()] returns during the call. *)
Definition OnShortMessage (nMessage : Z) (nTicks : Z) (s : CMIDIMonitor)
    : CMIDIMonitor :=
  let nStatus := Z.land nMessage 0xF0 in
  let nChannel := Z.land nMessage 0x0F in
  let nData1 := Z.land (Z.shiftr nMessage 8) 0xFF in
  let nData2 := Z.land (Z.shiftr nMessage 16) 0xFF in
  if nStatus =? 0x80 then
    alter_note (set_nNoteOffTime nTicks) nChannel nData1 s
  else if nStatus =? 0x90 then
    if negb (nData2 =? 0) then
      alter_note
        (λ Note, set_nVelocity nData2 (set_nNoteOffTime 0 (set_nNoteOnTime nTicks Note)))
        nChannel nData1 s
    else
      alter_note (set_nNoteOffTime nTicks) nChannel nData1 s
  else if nStatus =? 0xB0 then
    ProcessCC nChannel nData1 nData2 s
  else if nStatus =? 0xFF then
    ResetControllers false (AllNotesOff s)
  else s.

(** The constructor: zero-initialised peak arrays, then [AllNotesOff()] and
    [ResetControllers(false)], which assign every field of [m_State]. *)
Definition CMIDIMonitor_new : CMIDIMonitor :=
  ResetControllers false
    (AllNotesOff
       (mkMonitor
          (replicate ChannelCount
             (mkChannelState (replicate NoteCount (mkNoteState 0 0 0)) 0 0 0))
          (replicate ChannelCount 0%Q)
          (replicate ChannelCount 0))).

(** [EaseFunction]. *)
Definition EaseFunction (nInput : float) : float :=
  (- ((nInput - 1) * (nInput - 1)) + 1)%Q.

(** The fields of a packed short message, as [OnShortMessage] decodes
    them. *)
Definition Status (nMessage : Z) : Z := Z.land nMessage 0xF0.
Definition Channel (nMessage : Z) : Z := Z.land nMessage 0x0F.
Definition Data1 (nMessage : Z) : Z := Z.land (Z.shiftr nMessage 8) 0xFF.
Definition Data2 (nMessage : Z) : Z := Z.land (Z.shiftr nMessage 16) 0xFF.

(** A short message packed as [status | data1 << 8 | data2 << 16]. *)
Definition ShortMessage (nStatus nData1 nData2 : Z) : Z :=
  Z.lor nStatus (Z.lor (Z.shiftl nData1 8) (Z.shiftl nData2 16)).

(** [m_State[nChannel].Notes[nNote]]. *)
Definition Note (s : CMIDIMonitor) (nChannel nNote : nat) : TNoteState :=
  Notes (m_State s !!! nChannel) !!! nNote.

(** The sizes of the arrays of a monitor object. *)
Definition wf (s : CMIDIMonitor) : Prop :=
  length (m_State s) = ChannelCount
  ∧ Forall (λ c, length (Notes c) = NoteCount) (m_State s)
  ∧ length (m_PeakLevels s) = ChannelCount
  ∧ length (m_PeakTimes s) = ChannelCount.

#[global] Instance wf_dec (s : CMIDIMonitor) : Decision (wf s).
Proof. unfold wf. apply _. Defined.

(** Every stored peak is a level. *)
Definition peaks_ok (s : CMIDIMonitor) : Prop :=
  Forall (λ p, 0 <= p ∧ p <= 1)%Q (m_PeakLevels s).

Section Engine.

(** The tunable constants of midimonitor.h and the tick conversion of
    utility.h are not among the sources: the engine is parameterised by
    them.  [TicksToMillis] stands for [Utility::TicksToMillis] together with
    the conversion of its result to [float], made by a [static_cast] or by
    the initialisation of a [float]. *)
Variable DecayReleaseTimeMillis : float.
Variable PeakHoldTimeMillis : float.
Variable PeakFalloffTimeMillis : float.
Variable TicksToMillis : Z → float.

(** [CMIDIMonitor::ComputeEnvelope]; [Utility::Max] on two [unsigned int]
    is [Z.max]. *)
Definition ComputeEnvelope (nTicks : Z) (NoteState : TNoteState) : float :=
  if nNoteOnTime NoteState =? 0 then 0%Q
  else
    let nTicks := Z.max nTicks (nNoteOnTime NoteState) in
    if nNoteOffTime NoteState =? 0 then 1%Q
    else
      let nNoteOffDurationMillis :=
        Utility.Min
          (TicksToMillis (u32 (nTicks - nNoteOffTime NoteState)))
          DecayReleaseTimeMillis in
      EaseFunction
        (Utility.Max (1 - nNoteOffDurationMillis / DecayReleaseTimeMillis)%Q 0%Q).

(** [CMIDIMonitor::ComputePercussionEnvelope]. *)
Definition ComputePercussionEnvelope (nTicks : Z) (NoteState : TNoteState) : float :=
  if nNoteOnTime NoteState =? 0 then 0%Q
  else
    let nTicks := Z.max nTicks (nNoteOnTime NoteState) in
    let nNoteOnDurationMillis :=
      Utility.Min
        (TicksToMillis (u32 (nTicks - nNoteOnTime NoteState)))
        DecayReleaseTimeMillis in
    EaseFunction
      (Utility.Max (1 - nNoteOnDurationMillis / DecayReleaseTimeMillis)%Q 0%Q).

(** The envelope chosen for a note of channel [nChannel]
    ([GetChannelLevels], the definition of [nEnvelope]). *)
Definition NoteEnvelope (nTicks : Z) (nChannel : nat) (NoteState : TNoteState)
    : float :=
  let bIsPercussionChannel := Nat.eqb nChannel 9 in
  if bIsPercussionChannel then ComputePercussionEnvelope nTicks NoteState
  else ComputeEnvelope nTicks NoteState.

(** [nNoteVolume] of [GetChannelLevels]. *)
Definition NoteVolume (nTicks : Z) (nChannel : nat) (Channel : TChannelState)
    (NoteState : TNoteState) : float :=
  (NoteEnvelope nTicks nChannel NoteState
   * (inject_Z (nVelocity NoteState) / 127)
   * (inject_Z (nVolume Channel) / 127)
   * (inject_Z (nExpression Channel) / 127))%Q.

(** The inner loop of [GetChannelLevels] followed by the clamp: the
    loudness of one channel. *)
Definition ChannelVolume (nTicks : Z) (nChannel : nat) (Channel : TChannelState)
    : float :=
  let nChannelVolume :=
    fold_left
      (λ nChannelVolume nNote,
         Utility.Max nChannelVolume
           (NoteVolume nTicks nChannel Channel (Notes Channel !!! nNote)))
      (seq 0 NoteCount) 0%Q in
  Utility.Clamp nChannelVolume 0%Q 1%Q.

(** Milliseconds since the peak of a channel was last updated
    ([nPeakUpdatedMillis]). *)
Definition PeakUpdatedMillis (nTicks nPeakTime : Z) : float :=
  TicksToMillis (u32 (nTicks - nPeakTime)).

(** The stored peak after the hold/fall-off step ([nPeakLevel] before it is
    compared with the channel volume). *)
Definition DecayedPeak (nTicks : Z) (nPeakLevel : float) (nPeakTime : Z) : float :=
  let nPeakUpdatedMillis := PeakUpdatedMillis nTicks nPeakTime in
  if Qle_bool PeakHoldTimeMillis nPeakUpdatedMillis then
    let nPeakFallMillis :=
      Utility.Max (nPeakUpdatedMillis - PeakHoldTimeMillis)%Q 0%Q in
    Utility.Clamp (nPeakLevel - nPeakFallMillis / PeakFalloffTimeMillis)%Q 0%Q 1%Q
  else nPeakLevel.

(** What [GetChannelLevels] leaves behind: the monitor and the two output
    arrays. *)
Record TLevels := mkLevels {
  Monitor : CMIDIMonitor;
  pOutLevels : list float;
  pOutPeaks : list float
}.

(** One iteration of the channel loop of [GetChannelLevels]. *)
Definition ChannelStep (nTicks : Z) (acc : TLevels) (nChannel : nat) : TLevels :=
  let s := Monitor acc in
  let nChannelVolume := ChannelVolume nTicks nChannel (m_State s !!! nChannel) in
  let nPeakLevel :=
    DecayedPeak nTicks (m_PeakLevels s !!! nChannel) (m_PeakTimes s !!! nChannel) in
  if Qle_bool nPeakLevel nChannelVolume then
    mkLevels
      (mkMonitor (m_State s)
         (<[nChannel := nChannelVolume]> (m_PeakLevels s))
         (<[nChannel := nTicks]> (m_PeakTimes s)))
      (<[nChannel := nChannelVolume]> (pOutLevels acc))
      (<[nChannel := nChannelVolume]> (pOutPeaks acc))
  else
    mkLevels s
      (<[nChannel := nChannelVolume]> (pOutLevels acc))
      (<[nChannel := nPeakLevel]> (pOutPeaks acc)).

(** [CMIDIMonitor::GetChannelLevels]; the two output arrays have
    [ChannelCount] cells. *)
Definition GetChannelLevels (nTicks : Z) (s : CMIDIMonitor) : TLevels :=
  fold_left (ChannelStep nTicks) (seq 0 ChannelCount)
    (mkLevels s (replicate ChannelCount 0%Q) (replicate ChannelCount 0%Q)).

(** The level and the peak written for a channel. *)
Definition Level (r : TLevels) (nChannel : nat) : float := pOutLevels r !!! nChannel.
Definition Peak (r : TLevels) (nChannel : nat) : float := pOutPeaks r !!! nChannel.

(** All that [GetChannelLevels] leaves behind for one channel: the level
    and the peak written out, the stored peak and the tick of the stored
    peak. *)
Definition ChannelView (r : TLevels) (nChannel : nat) : float * float * float * Z :=
  (Level r nChannel, Peak r nChannel,
   m_PeakLevels (Monitor r) !!! nChannel, m_PeakTimes (Monitor r) !!! nChannel).

(** The same four values as the body of the channel loop computes them
    from the monitor [s] it starts in. *)
Definition ChannelResult (nTicks : Z) (s : CMIDIMonitor) (nChannel : nat)
    : float * float * float * Z :=
  let nChannelVolume := ChannelVolume nTicks nChannel (m_State s !!! nChannel) in
  let nPeakLevel :=
    DecayedPeak nTicks (m_PeakLevels s !!! nChannel) (m_PeakTimes s !!! nChannel) in
  if Qle_bool nPeakLevel nChannelVolume
  then (nChannelVolume, nChannelVolume, nChannelVolume, nTicks)
  else (nChannelVolume, nPeakLevel,
        m_PeakLevels s !!! nChannel, m_PeakTimes s !!! nChannel).

(** The sizes of the arrays that the channel loop writes. *)
Definition acc_ok (acc : TLevels) : Prop :=
  length (m_PeakLevels (Monitor acc)) = ChannelCount
  ∧ length (m_PeakTimes (Monitor acc)) = ChannelCount
  ∧ length (pOutLevels acc) = ChannelCount
  ∧ length (pOutPeaks acc) = ChannelCount.

(** The monitor states that the public operations produce from a newly
    constructed monitor.  The first data byte of a message is below 128, as
    the data bytes of MIDI are: a Note-On or a Note-Off with a note number
    from 128 on would write past the end of [Notes] in the source. *)
Inductive Reachable : CMIDIMonitor → Prop :=
  | Reachable_new : Reachable CMIDIMonitor_new
  | Reachable_OnShortMessage nMessage nTicks s :
      Data1 nMessage < 128 →
      Reachable s → Reachable (OnShortMessage nMessage nTicks s)
  | Reachable_GetChannelLevels nTicks s :
      Reachable s → Reachable (Monitor (GetChannelLevels nTicks s)).

End Engine.

End MIDIMonitor.

(** ** lcd/ui.h, lcd/ui.cpp *)

Module TState.

(** [CUserInterface::TState]. *)
Inductive TState :=
  | None
  | DisplayingMessage
  | DisplayingSpinnerMessage
  | DisplayingImage
  | EnteringPowerSavingMode
  | InPowerSavingMode.

#[global] Instance TState_eq_dec : EqDecision TState.
Proof. solve_decision. Defined.

End TState.

Module LCD.

(** Modelled from the spec: the kind of a display surface,
    [CLCD::TType] of lcd/lcd.h, which is not among the sources. *)
Inductive TType := Character | Graphical.

#[global] Instance TType_eq_dec : EqDecision TType.
Proof. solve_decision. Defined.

(** Modelled from the spec: an image is named by the value of its [TImage]
    enumerator (the enumeration is not among the sources). *)
Definition TImage : Type := Z.

(** Modelled from the spec: [TImage::None], taken to be the enumerator 0. *)
Definition TImage_None : TImage := 0.

(** Modelled from the spec: the drawing calls of the display surface that
    the overlay makes, [Print(text, column, row, clearRestOfLine)] and
    [DrawImage(imageId)]. *)
Inductive TCall :=
  | Print (pText : list ascii) (nCursorX nCursorY : Z) (bClearLine : bool)
  | DrawImage (Image : TImage).

(** Modelled from the spec: the display surface, [CLCD] of lcd/lcd.h, which
    is not among the sources.  It has a kind, dimensions and a backlight,
    and it receives drawing calls, kept here in the order they arrive. *)
Record CLCD := mkLCD {
  GetType : TType;
  nWidth : Z;
  nHeight : Z;
  bBacklightEnabled : bool;
  Calls : list TCall
}.

(** Modelled from the spec: [CLCD::SetBacklightEnabled]. *)
Definition SetBacklightEnabled (b : bool) (l : CLCD) : CLCD :=
  mkLCD (GetType l) (nWidth l) (nHeight l) b (Calls l).

(** A drawing call received by the display. *)
Definition Call (c : TCall) (l : CLCD) : CLCD :=
  mkLCD (GetType l) (nWidth l) (nHeight l) (bBacklightEnabled l) (Calls l ++ [c]).

End LCD.

Module UserInterface.

Import LCD.

Definition SystemMessageTextBufferSize : nat := 20 + 1.
Definition SystemMessageDisplayTimeMillis : Z := 3000.
Definition SystemMessageSpinnerTimeMillis : Z := 32.

Definition SpinnerChars : list ascii :=
  ["_"; "_"; "_"; "-"; "'"; "'"; "^"; "^"; "`"; "`"; "-"; "_"; "_"; "_"]%char.

Record CUserInterface := mkUI {
  m_State : TState.TState;
  m_nStateTime : Z;
  m_nCurrentSpinnerChar : Z;
  m_CurrentImage : TImage;
  m_SystemMessageTextBuffer : list ascii
}.

(** The constructor. *)
Definition CUserInterface_new : CUserInterface :=
  mkUI TState.None 0 0 TImage_None (replicate SystemMessageTextBufferSize zero).

(** The C string held by a character array: the characters before the
    first NUL. *)
Fixpoint c_str (buf : list ascii) : list ascii :=
  match buf with
  | [] => []
  | c :: rest => if Ascii.eqb c zero then [] else c :: c_str rest
  end.

(** [snprintf(buf, size, ...)] once the text to print is known: at most
    [size - 1] characters and a terminating NUL are written, the cells after
    them keep their content. *)
Definition snprintf (buf : list ascii) (size : nat) (text : list ascii)
    : list ascii :=
  let written := take (size - 1) text ++ [zero] in
  written ++ drop (length written) buf.

(** The text produced by the format ["%-*.*s %c"] with width and precision
    [nMaxMessageLen]: the message cut to that length, padded with spaces on
    the right to that length, a space and the character. *)
Definition format_spinner (nMaxMessageLen : nat) (pMessage : list ascii)
    (c : ascii) : list ascii :=
  let cut := take nMaxMessageLen pMessage in
  cut ++ replicate (nMaxMessageLen - length cut) " "%char ++ [" "%char; c].

(** [CUserInterface::ShowSystemMessage]; [nTicks] is the value that
    [CTimer::GetClockTicks()] returns during the call.  Without a spinner
    the message is itself the format string: it is taken to hold no
    conversion specification. *)
Definition ShowSystemMessage (pMessage : string) (bSpinner : bool) (nTicks : Z)
    (ui : CUserInterface) : CUserInterface :=
  if bSpinner then
    let nMaxMessageLen := (SystemMessageTextBufferSize - 3)%nat in
    mkUI TState.DisplayingSpinnerMessage nTicks 0 (m_CurrentImage ui)
      (snprintf (m_SystemMessageTextBuffer ui) SystemMessageTextBufferSize
         (format_spinner nMaxMessageLen (list_ascii_of_string pMessage)
            (SpinnerChars !!! 0%nat)))
  else
    mkUI TState.DisplayingMessage nTicks (m_nCurrentSpinnerChar ui)
      (m_CurrentImage ui)
      (snprintf (m_SystemMessageTextBuffer ui) SystemMessageTextBufferSize
         (list_ascii_of_string pMessage)).

(** [CUserInterface::DisplayImage]. *)
Definition DisplayImage (Image : TImage) (nTicks : Z) (ui : CUserInterface)
    : CUserInterface :=
  mkUI TState.DisplayingImage nTicks (m_nCurrentSpinnerChar ui) Image
    (m_SystemMessageTextBuffer ui).

(** [CUserInterface::DrawSystemState]. *)
Definition DrawSystemState (ui : CUserInterface) (lcd : CLCD) : CLCD :=
  let text := c_str (m_SystemMessageTextBuffer ui) in
  if bool_decide (GetType lcd = Graphical) then
    if bool_decide (m_State ui = TState.DisplayingImage) then
      Call (DrawImage (m_CurrentImage ui)) lcd
    else
      let nMessageRow := if nHeight lcd =? 32 then 0 else 1 in
      Call (Print text 0 nMessageRow true) lcd
  else
    if bool_decide (m_State ui ≠ TState.DisplayingImage) then
      if nHeight lcd =? 2 then
        Call (Print [] 0 1 true) (Call (Print text 0 0 true) lcd)
      else if nHeight lcd =? 4 then
        Call (Print [] 0 3 true)
          (Call (Print [] 0 2 true)
             (Call (Print text 0 1 true) (Call (Print [] 0 0 true) lcd)))
      else lcd
    else lcd.

Section Overlay.

(** [Utility::MillisToTicks] of utility.h is not among the sources: the
    state machine is parameterised by it. *)
Variable MillisToTicks : Z → Z.

(** The chain of time-outs of [CUserInterface::Update]. *)
Definition UpdateState (lcd : CLCD) (nTicks : Z) (ui : CUserInterface)
    : CUserInterface * CLCD :=
  let nDeltaTicks := u32 (nTicks - m_nStateTime ui) in
  if bool_decide (m_State ui = TState.DisplayingMessage)
     && (MillisToTicks SystemMessageDisplayTimeMillis <=? nDeltaTicks) then
    (mkUI TState.None nTicks (m_nCurrentSpinnerChar ui) (m_CurrentImage ui)
       (m_SystemMessageTextBuffer ui), lcd)
  else if bool_decide (m_State ui = TState.DisplayingSpinnerMessage)
     && (MillisToTicks SystemMessageSpinnerTimeMillis <=? nDeltaTicks) then
    let nCurrentSpinnerChar :=
      (m_nCurrentSpinnerChar ui + 1) mod Z.of_nat (length SpinnerChars) in
    (mkUI (m_State ui) nTicks nCurrentSpinnerChar (m_CurrentImage ui)
       (<[(SystemMessageTextBufferSize - 2)%nat :=
            SpinnerChars !!! Z.to_nat nCurrentSpinnerChar]>
          (m_SystemMessageTextBuffer ui)), lcd)
  else if bool_decide (m_State ui = TState.DisplayingImage)
     && (MillisToTicks SystemMessageDisplayTimeMillis <=? nDeltaTicks) then
    (mkUI TState.None nTicks (m_nCurrentSpinnerChar ui) (m_CurrentImage ui)
       (m_SystemMessageTextBuffer ui), lcd)
  else if bool_decide (m_State ui = TState.EnteringPowerSavingMode)
     && (MillisToTicks SystemMessageDisplayTimeMillis <=? nDeltaTicks) then
    (mkUI TState.InPowerSavingMode nTicks (m_nCurrentSpinnerChar ui)
       (m_CurrentImage ui) (m_SystemMessageTextBuffer ui),
     SetBacklightEnabled false lcd)
  else (ui, lcd).

(** [CUserInterface::Update]. *)
Definition Update (lcd : CLCD) (nTicks : Z) (ui : CUserInterface)
    : CUserInterface * CLCD :=
  let '(ui, lcd) := UpdateState lcd nTicks ui in
  if bool_decide (m_State ui ≠ TState.None) then (ui, DrawSystemState ui lcd)
  else (ui, lcd).

End Overlay.

(** What a caller of the user interface holds: the interface object and the
    display that is passed to [Update]. *)
Record TDevice := mkDevice {
  UI : CUserInterface;
  Display : CLCD
}.

(** The two triggers as a caller sees them: methods of the interface
    object, which holds no reference to the display. *)
Definition Device_ShowSystemMessage (pMessage : string) (bSpinner : bool)
    (nTicks : Z) (d : TDevice) : TDevice :=
  mkDevice (ShowSystemMessage pMessage bSpinner nTicks (UI d)) (Display d).

Definition Device_DisplayImage (Image : TImage) (nTicks : Z) (d : TDevice)
    : TDevice :=
  mkDevice (DisplayImage Image nTicks (UI d)) (Display d).

Definition Device_Update (MillisToTicks : Z → Z) (nTicks : Z) (d : TDevice)
    : TDevice :=
  let '(ui, lcd) := Update MillisToTicks (Display d) nTicks (UI d) in
  mkDevice ui lcd.

End UserInterface.

(** Values for the parameters, used where a statement is evaluated: a tick
    counter that runs at 1 MHz and time constants of one second. *)
Module Sample.

Definition TicksToMillis (nTicks : Z) : float := inject_Z (nTicks / 1000).
Definition MillisToTicks (nMillis : Z) : Z := nMillis * 1000.
Definition DecayReleaseTimeMillis : float := 1000%Q.
Definition PeakHoldTimeMillis : float := 1000%Q.
Definition PeakFalloffTimeMillis : float := 1000%Q.

(** A graphical 128x32 display with its backlight on. *)
Definition SampleLCD : LCD.CLCD := LCD.mkLCD LCD.Graphical 128 32 true [].

End Sample.

(** ** lcd/ui.cpp: the level meter *)

(** [u8] arithmetic is modulo 2^8. *)
Definition u8 (z : Z) : Z := z mod 256.

(** The conversion of a [float] to [u8]: the fraction is discarded.  A value
    outside of the range of [u8] has no defined result in the source; the
    model reduces it modulo 2^8. *)
Definition float_to_u8 (x : float) : Z :=
  u8 (if Qlt_le_dec x 0 then Qceiling x else Qfloor x).

Module LevelMeter.

Import MIDIMonitor LCD.

Definition BarSpacing : Z := 2.

(** A call [LCD.DrawFilledRect(nX1, nY1, nX2, nY2)]. *)
Record TRect := mkRect {
  nX1 : Z;
  nY1 : Z;
  nX2 : Z;
  nY2 : Z
}.

(** The body of the channel loop of
    [CUserInterface::DrawChannelLevelsGraphical]: the rectangles drawn for
    [nChannel], in the order of the calls.  [pPeakLevels] may be null.  A
    channel past the end of the level arrays is outside of them in the
    source; the model reads 0 there. *)
Definition DrawChannel (nBarXOffset nBarYOffset nBarWidth nBarMaxY : Z)
    (pChannelLevels : list float) (pPeakLevels : option (list float))
    (bDrawBarBases : bool) (nChannel : Z) : list TRect :=
  let nLevelPixels :=
    float_to_u8 (pChannelLevels !!! Z.to_nat nChannel * inject_Z nBarMaxY)%Q in
  let nX1 := u8 (nBarXOffset + nChannel * (nBarWidth + BarSpacing)) in
  let nX2 := u8 (nX1 + nBarWidth - 1) in
  (if (0 <? nLevelPixels) || bDrawBarBases then
     let nY1 := u8 (nBarYOffset + (nBarMaxY - nLevelPixels)) in
     let nY2 := u8 (nY1 + nLevelPixels) in
     [mkRect nX1 nY1 nX2 nY2]
   else [])
  ++ match pPeakLevels with
     | Some pPeakLevels =>
         let nPeakLevelPixels :=
           float_to_u8 (pPeakLevels !!! Z.to_nat nChannel * inject_Z nBarMaxY)%Q in
         if negb (nPeakLevelPixels =? 0) then
           let nY := u8 (nBarYOffset + (nBarMaxY - nPeakLevelPixels)) in
           [mkRect nX1 nY nX2 nY]
         else []
     | None => []
     end.

(** [CUserInterface::DrawChannelLevelsGraphical]: the rectangles drawn, in
    the order of the calls.  The arguments of type [u8] are integers from 0
    to 255. *)
Definition DrawChannelLevelsGraphical
    (nBarXOffset nBarYOffset nBarWidth nBarHeight : Z)
    (pChannelLevels : list float) (pPeakLevels : option (list float))
    (nChannels : Z) (bDrawBarBases : bool) : list TRect :=
  let nBarMaxY := u8 (nBarHeight - 1) in
  (Z.of_nat <$> seq 0 (Z.to_nat nChannels))
    ≫= DrawChannel nBarXOffset nBarYOffset nBarWidth nBarMaxY
          pChannelLevels pPeakLevels bDrawBarBases.

Section Meter.

Variable DecayReleaseTimeMillis : float.
Variable PeakHoldTimeMillis : float.
Variable PeakFalloffTimeMillis : float.
Variable TicksToMillis : Z → float.

(** [CUserInterface::DrawChannelLevels]: the monitor after the query and
    the rectangles drawn.  The division is the one of [int], which rounds
    towards zero; for [nChannels = 0] it has no defined result in the
    source. *)
Definition DrawChannelLevels (lcd : CLCD) (MIDIMonitor : CMIDIMonitor)
    (nBarHeight nTicks nChannels : Z) : CMIDIMonitor * list TRect :=
  let r :=
    GetChannelLevels DecayReleaseTimeMillis PeakHoldTimeMillis
      PeakFalloffTimeMillis TicksToMillis nTicks MIDIMonitor in
  if bool_decide (GetType lcd = Graphical) then
    let nBarWidth :=
      u8 (Z.quot (nWidth lcd - nChannels * BarSpacing) nChannels) in
    (Monitor r,
     DrawChannelLevelsGraphical 2 0 nBarWidth nBarHeight
       (pOutLevels r) (Some (pOutPeaks r)) nChannels true)
  else (Monitor r, []).

End Meter.

End LevelMeter.

(** ** Runs of the overlay state machine *)

#[global] Instance char_eq_dec : EqDecision ascii := Ascii.ascii_dec.

Module OverlayRun.

Import LCD UserInterface.

Section Runs.

Variable MillisToTicks : Z → Z.

(** The interface objects that the public operations produce from a newly
    constructed one.  A message shown without a spinner is the format string
    of [snprintf]: it holds no conversion specification. *)
Inductive Reachable : CUserInterface → Prop :=
  | Reachable_new : Reachable CUserInterface_new
  | Reachable_ShowSystemMessage pMessage bSpinner nTicks ui :
      (bSpinner = false → "%"%char ∉ list_ascii_of_string pMessage) →
      Reachable ui → Reachable (ShowSystemMessage pMessage bSpinner nTicks ui)
  | Reachable_DisplayImage Image nTicks ui :
      Reachable ui → Reachable (DisplayImage Image nTicks ui)
  | Reachable_Update lcd nTicks ui :
      Reachable ui → Reachable (Update MillisToTicks lcd nTicks ui).1.

(** Successive calls of [Update], one for each tick of the list. *)
Definition Updates (ticks : list Z) (start : CUserInterface * CLCD)
    : CUserInterface * CLCD :=
  fold_left (λ p nTicks, Update MillisToTicks p.2 nTicks p.1) ticks start.

(** Every tick of the list is at least a spinner frame time after the one
    before it, the first one after [nStateTime]. *)
Fixpoint FramesDue (nStateTime : Z) (ticks : list Z) : Prop :=
  match ticks with
  | [] => True
  | nTicks :: ticks =>
      MillisToTicks SystemMessageSpinnerTimeMillis ≤ u32 (nTicks - nStateTime)
      ∧ FramesDue nTicks ticks
  end.

End Runs.

End OverlayRun.

(** * Properties of the message handler *)

Module MonitorMessages.

Import MIDIMonitor.

Create HintDb monitor discriminated.

(** Reading a cell of an array that was rewritten cell by cell. *)
Lemma lookup_total_fmap_same {A : Type} `{Inhabited A} (f : A → A)
    (l : list A) (i : nat) :
  (i < length l)%nat → (f <$> l) !!! i = f (l !!! i).
Proof. apply list_lookup_total_fmap. Qed.

Lemma wf_new : wf CMIDIMonitor_new.
Proof. apply (bool_decide_unpack _). vm_compute. reflexivity. Qed.

Lemma wf_alter_note f c n s : wf s → wf (alter_note f c n s).
Proof.
  intros (Hlen & Hnotes & Hp & Ht). repeat split; simpl; auto.
  - by rewrite length_alter.
  - apply Forall_alter; [done|]. intros ch Hch. simpl. by rewrite length_alter.
Qed.

Lemma wf_alter_channel f c s :
  (∀ ch, length (Notes (f ch)) = length (Notes ch)) →
  wf s → wf (alter_channel f c s).
Proof.
  intros Hf (Hlen & Hnotes & Hp & Ht). repeat split; simpl; auto.
  - by rewrite length_alter.
  - apply Forall_alter; [done|]. intros ch Hch. by rewrite Hf.
Qed.

Lemma wf_AllNotesOff s : wf s → wf (AllNotesOff s).
Proof.
  intros (Hlen & Hnotes & Hp & Ht). repeat split; simpl; auto.
  - by rewrite length_fmap.
  - apply Forall_fmap. eapply Forall_impl; [exact Hnotes|].
    intros ch Hch. simpl. by rewrite length_fmap.
Qed.

Lemma wf_ResetControllers b s : wf s → wf (ResetControllers b s).
Proof.
  intros (Hlen & Hnotes & Hp & Ht). repeat split; simpl; auto.
  - by rewrite length_fmap.
  - apply Forall_fmap. eapply Forall_impl; [exact Hnotes|].
    intros ch Hch. simpl. by destruct b.
Qed.

Lemma wf_ProcessCC c cc v s : wf s → wf (ProcessCC c cc v s).
Proof.
  intros Hwf. unfold ProcessCC.
  repeat case_match; auto using wf_alter_channel, wf_AllNotesOff, wf_ResetControllers.
Qed.

Lemma wf_OnShortMessage m t s : wf s → wf (OnShortMessage m t s).
Proof.
  intros Hwf. unfold OnShortMessage.
  repeat case_match;
    auto using wf_alter_note, wf_ProcessCC, wf_AllNotesOff, wf_ResetControllers.
Qed.

#[export] Hint Resolve wf_new wf_alter_note wf_AllNotesOff wf_ResetControllers
  wf_ProcessCC wf_OnShortMessage : monitor.

(** The message handler never touches the peak arrays. *)
Lemma OnShortMessage_peaks m t s :
  m_PeakLevels (OnShortMessage m t s) = m_PeakLevels s
  ∧ m_PeakTimes (OnShortMessage m t s) = m_PeakTimes s.
Proof.
  unfold OnShortMessage, ProcessCC. repeat case_match; done.
Qed.

(** The status that [OnShortMessage] switches on has its low nibble
    cleared, so it is never [0xFF]. *)
Lemma Status_not_FF m : Z.land m 0xF0 ≠ 0xFF.
Proof.
  intros H. apply (f_equal (λ z, Z.testbit z 0)) in H.
  rewrite Z.land_spec in H. simpl in H. by rewrite andb_false_r in H.
Qed.

(** Whatever the low nibble of the status byte is, a message of status
    [0xF0] is ignored: the branch of [case 0xFF] is never taken. *)
Lemma OnShortMessage_system_ignored m t s :
  Z.land m 0xF0 = 0xF0 → OnShortMessage m t s = s.
Proof.
  intros H. unfold OnShortMessage. rewrite H. reflexivity.
Qed.

(** The channels and notes after [AllNotesOff]. *)
Lemma AllNotesOff_channel s (c : nat) :
  (c < length (m_State s))%nat →
  m_State (AllNotesOff s) !!! c =
    set_Notes
      ((λ Note, set_nVelocity 0 (set_nNoteOffTime 0 (set_nNoteOnTime 0 Note)))
         <$> Notes (m_State s !!! c))
      (m_State s !!! c).
Proof. intros Hc. simpl. by rewrite lookup_total_fmap_same. Qed.

Lemma AllNotesOff_note s (c n : nat) :
  wf s → (c < ChannelCount)%nat → (n < NoteCount)%nat →
  Note (AllNotesOff s) c n = mkNoteState 0 0 0.
Proof.
  intros (Hlen & Hnotes & _) Hc Hn. unfold Note.
  rewrite AllNotesOff_channel by lia. simpl.
  rewrite lookup_total_fmap_same; [done|].
  rewrite Forall_lookup in Hnotes.
  rewrite (Hnotes c (m_State s !!! c)); [done|].
  apply list_lookup_lookup_total_lt. lia.
Qed.

Lemma ResetControllers_channel b s (c : nat) :
  (c < length (m_State s))%nat →
  m_State (ResetControllers b s) !!! c =
    let Channel := set_nExpression 127 (m_State s !!! c) in
    if negb b then set_nPan 64 (set_nVolume 100 Channel) else Channel.
Proof. intros Hc. simpl. by rewrite lookup_total_fmap_same. Qed.

(** C1, evaluated on the code.  A note is sounding on channel 0 of a new
    monitor and the volume of the channel has been set to 50; the System
    Reset message [0xFF] then leaves the monitor exactly as it was: the note
    is not cleared and the volume is not reset to 100. *)
Theorem SystemReset_leaves_state :
  let s0 :=
    OnShortMessage (ShortMessage 0xB0 7 50) 6
      (OnShortMessage (ShortMessage 0x90 60 100) 5 CMIDIMonitor_new) in
  OnShortMessage 0xFF 9 s0 = s0
  ∧ Note s0 0 60 = mkNoteState 5 0 100
  ∧ Note (OnShortMessage 0xFF 9 s0) 0 60 = mkNoteState 5 0 100
  ∧ nVolume (m_State (OnShortMessage 0xFF 9 s0) !!! 0%nat) = 50.
Proof.
  cbv zeta. rewrite OnShortMessage_system_ignored by reflexivity.
  repeat split; vm_compute; reflexivity.
Qed.

(** C2, counterexample.  A note sounds on channel 1; an All Notes Off
    controller (123) sent on channel 0 clears it. *)
Lemma AllNotesOff_CC_other_channel_changed :
  let s0 := OnShortMessage (ShortMessage 0x91 60 100) 5 CMIDIMonitor_new in
  let s1 := OnShortMessage (ShortMessage 0xB0 123 0) 6 s0 in
  Note s0 1 60 = mkNoteState 5 0 100
  ∧ Note s1 1 60 = mkNoteState 0 0 0
  ∧ Note s1 1 60 ≠ Note s0 1 60.
Proof. repeat split; vm_compute; congruence. Qed.

(** The controller numbers that act as All Notes Off. *)
Lemma ProcessCC_AllNotesOff c cc v s :
  cc ∈ [120; 123; 124; 125; 126; 127] → ProcessCC c cc v s = AllNotesOff s.
Proof.
  intros Hcc. repeat (apply elem_of_cons in Hcc as [->|Hcc]; [reflexivity|]).
  by apply elem_of_nil in Hcc.
Qed.

(** C2, as the code has it.  A Control Change message with controller
    number 120, 123, 124, 125, 126 or 127, on whatever channel, clears the
    on-time, the off-time and the velocity of all 128 notes of every one of
    the 16 channels; the volume, pan and expression of every channel and the
    peak arrays are unchanged. *)
Theorem AllNotesOff_CC_clears_every_channel (nMessage nTicks : Z) (s : CMIDIMonitor) :
  wf s →
  Status nMessage = 0xB0 →
  Data1 nMessage ∈ [120; 123; 124; 125; 126; 127] →
  let s' := OnShortMessage nMessage nTicks s in
  (∀ c n : nat, (c < ChannelCount)%nat → (n < NoteCount)%nat →
     Note s' c n = mkNoteState 0 0 0)
  ∧ (∀ c : nat, (c < ChannelCount)%nat →
       nVolume (m_State s' !!! c) = nVolume (m_State s !!! c)
       ∧ nPan (m_State s' !!! c) = nPan (m_State s !!! c)
       ∧ nExpression (m_State s' !!! c) = nExpression (m_State s !!! c))
  ∧ m_PeakLevels s' = m_PeakLevels s
  ∧ m_PeakTimes s' = m_PeakTimes s.
Proof.
  intros Hwf Hst Hcc s'.
  assert (Hs' : s' = AllNotesOff s).
  { unfold s', OnShortMessage. unfold Status in Hst. rewrite Hst. simpl.
    by apply ProcessCC_AllNotesOff. }
  rewrite Hs'. split; [|split; [|done]].
  - intros c n Hc Hn. by apply AllNotesOff_note.
  - intros c Hc. destruct Hwf as (Hlen & _).
    rewrite AllNotesOff_channel by lia. done.
Qed.

Lemma AllNotesOff_CC_clears_every_channel_witness :
  Note (OnShortMessage (ShortMessage 0xB3 123 0) 7
          (OnShortMessage (ShortMessage 0x91 60 100) 5 CMIDIMonitor_new)) 1 60
  = mkNoteState 0 0 0.
Proof.
  refine (proj1 (AllNotesOff_CC_clears_every_channel (ShortMessage 0xB3 123 0) 7
            (OnShortMessage (ShortMessage 0x91 60 100) 5 CMIDIMonitor_new)
            _ _ _) 1%nat 60%nat _ _).
  - apply (bool_decide_unpack _). vm_compute. reflexivity.
  - reflexivity.
  - apply (bool_decide_unpack _). vm_compute. reflexivity.
  - vm_compute. lia.
  - vm_compute. lia.
Defined.

(** C3, counterexample.  The expression of channel 1 has been set to 50; a
    Reset All Controllers (121) sent on channel 0 sets it to 127. *)
Lemma ResetAllControllers_CC_other_channel_changed :
  let s0 := OnShortMessage (ShortMessage 0xB1 11 50) 5 CMIDIMonitor_new in
  let s1 := OnShortMessage (ShortMessage 0xB0 121 0) 6 s0 in
  nExpression (m_State s0 !!! 1%nat) = 50
  ∧ nExpression (m_State s1 !!! 1%nat) = 127
  ∧ nExpression (m_State s1 !!! 1%nat) ≠ nExpression (m_State s0 !!! 1%nat).
Proof. repeat split; vm_compute; congruence. Qed.

(** C3, as the code has it.  A Control Change message with controller 121,
    on whatever channel, sets the expression of every one of the 16 channels
    to 127 and leaves the volume, the pan and the notes of every channel
    unchanged. *)
Theorem ResetAllControllers_CC_every_channel (nMessage nTicks : Z) (s : CMIDIMonitor) :
  wf s →
  Status nMessage = 0xB0 →
  Data1 nMessage = 121 →
  let s' := OnShortMessage nMessage nTicks s in
  ∀ c : nat, (c < ChannelCount)%nat →
    nExpression (m_State s' !!! c) = 127
    ∧ nVolume (m_State s' !!! c) = nVolume (m_State s !!! c)
    ∧ nPan (m_State s' !!! c) = nPan (m_State s !!! c)
    ∧ Notes (m_State s' !!! c) = Notes (m_State s !!! c).
Proof.
  intros (Hlen & _) Hst Hcc s' c Hc.
  assert (Hs' : s' = ResetControllers true s).
  { unfold s', OnShortMessage. unfold Status in Hst. unfold Data1 in Hcc.
    rewrite Hst, Hcc. reflexivity. }
  rewrite Hs', ResetControllers_channel by lia. done.
Qed.

Lemma ResetAllControllers_CC_every_channel_witness :
  let s0 :=
    OnShortMessage (ShortMessage 0xB1 7 30) 6
      (OnShortMessage (ShortMessage 0xB1 11 50) 5 CMIDIMonitor_new) in
  let s1 := OnShortMessage (ShortMessage 0xB1 121 0) 7 s0 in
  nExpression (m_State s1 !!! 1%nat) = 127
  ∧ nVolume (m_State s1 !!! 1%nat) = nVolume (m_State s0 !!! 1%nat)
  ∧ nPan (m_State s1 !!! 1%nat) = nPan (m_State s0 !!! 1%nat)
  ∧ Notes (m_State s1 !!! 1%nat) = Notes (m_State s0 !!! 1%nat).
Proof.
  cbv zeta.
  refine (ResetAllControllers_CC_every_channel (ShortMessage 0xB1 121 0) 7
            (OnShortMessage (ShortMessage 0xB1 7 30) 6
               (OnShortMessage (ShortMessage 0xB1 11 50) 5 CMIDIMonitor_new))
            _ _ _ 1%nat _).
  - apply (bool_decide_unpack _). vm_compute. reflexivity.
  - reflexivity.
  - reflexivity.
  - vm_compute. lia.
Defined.

(** A note read back after [alter_note]. *)
Lemma Note_alter_note f (c n : Z) s (c' n' : nat) :
  Note (alter_note f c n s) c' n' =
    if decide (Z.to_nat c = c' ∧ (Z.to_nat c < length (m_State s))%nat) then
      if decide (Z.to_nat n = n'
                 ∧ (Z.to_nat n < length (Notes (m_State s !!! c')))%nat)
      then f (Note s c' n') else Note s c' n'
    else Note s c' n'.
Proof.
  unfold Note, alter_note. cbn [m_State set_m_State].
  rewrite list_lookup_total_alter.
  destruct (decide (Z.to_nat c = c' ∧ _)) as [[<- Hc]|Hc]; [|done].
  cbn [Notes set_Notes]. rewrite list_lookup_total_alter.
  destruct (decide (Z.to_nat n = n' ∧ _)) as [[<- Hn]|Hn]; done.
Qed.

(** A field that [f] keeps is kept by [alter_note f] in every note. *)
Lemma Note_alter_note_field {B : Type} (g : TNoteState → B) f c n s c' n' :
  (∀ x, g (f x) = g x) →
  g (Note (alter_note f c n s) c' n') = g (Note s c' n').
Proof.
  intros Hg. rewrite Note_alter_note. repeat case_decide; by rewrite ?Hg.
Qed.

Lemma Note_alter_note_eq f (c n : Z) s :
  wf s → 0 ≤ c < 16 → 0 ≤ n < 128 →
  Note (alter_note f c n s) (Z.to_nat c) (Z.to_nat n)
  = f (Note s (Z.to_nat c) (Z.to_nat n)).
Proof.
  intros (Hlen & Hnotes & _) Hc Hn. rewrite Note_alter_note.
  assert (Hc' : (Z.to_nat c < length (m_State s))%nat)
    by (rewrite Hlen; unfold ChannelCount; lia).
  rewrite decide_True by done.
  rewrite decide_True; [done|]. split; [done|].
  rewrite Forall_lookup in Hnotes.
  rewrite (Hnotes (Z.to_nat c) (m_State s !!! Z.to_nat c)).
  - unfold NoteCount. lia.
  - by apply list_lookup_lookup_total_lt.
Qed.

(** The decoded channel is a channel index. *)
Lemma Channel_range m : 0 ≤ Channel m < 16.
Proof.
  unfold Channel. change 0x0F with (Z.ones 4).
  rewrite Z.land_ones by lia. apply Z.mod_pos_bound. lia.
Qed.

Lemma Data_range m k : 0 ≤ Z.land (Z.shiftr m k) 0xFF < 256.
Proof.
  change 0xFF with (Z.ones 8).
  rewrite Z.land_ones by lia. apply Z.mod_pos_bound. lia.
Qed.

(** What a Note-Off does, and a Note-On of velocity 0 with it. *)
Lemma OnShortMessage_NoteOff m t s :
  Status m = 0x80 →
  OnShortMessage m t s = alter_note (set_nNoteOffTime t) (Channel m) (Data1 m) s.
Proof.
  unfold Status. intros H. unfold OnShortMessage. rewrite H. reflexivity.
Qed.

Lemma OnShortMessage_NoteOn0 m t s :
  Status m = 0x90 → Data2 m = 0 →
  OnShortMessage m t s = alter_note (set_nNoteOffTime t) (Channel m) (Data1 m) s.
Proof.
  unfold Status, Data2. intros H H2. unfold OnShortMessage.
  rewrite H, H2. reflexivity.
Qed.

Lemma OnShortMessage_NoteOn m t s :
  Status m = 0x90 → Data2 m ≠ 0 →
  OnShortMessage m t s =
    alter_note
      (λ Note, set_nVelocity (Data2 m) (set_nNoteOffTime 0 (set_nNoteOnTime t Note)))
      (Channel m) (Data1 m) s.
Proof.
  unfold Status, Data2. intros H H2. unfold OnShortMessage. rewrite H.
  apply Z.eqb_neq in H2. rewrite H2. reflexivity.
Qed.

(** C7.  A Note-On message of velocity 0 leaves the monitor in the very
    state that a Note-Off message for the same channel and note at the same
    tick leaves it in, so that every envelope and every level queried
    afterwards is the same; this holds at every tick.  It is not handled as
    a Note-On: the on-time and the velocity of the note are kept and its
    off-time becomes the tick; a note that has not sounded stays at envelope
    0.  For a tick other than 0 the envelope of a sounding note of a melodic
    channel leaves the plateau of a held note and follows the release curve
    that starts at the tick.  (At tick 0 the off-time stored is 0, the value
    that marks a held note: see the counterexample below.) *)
Theorem NoteOn_velocity0_is_NoteOff
    (DecayReleaseTimeMillis PeakHoldTimeMillis PeakFalloffTimeMillis : float)
    (TicksToMillis : Z → float) (mOn mOff nTicks : Z) (s : CMIDIMonitor) :
  Status mOn = 0x90 → Data2 mOn = 0 →
  Status mOff = 0x80 →
  Channel mOff = Channel mOn → Data1 mOff = Data1 mOn →
  let c := Z.to_nat (Channel mOn) in
  let n := Z.to_nat (Data1 mOn) in
  let sOn := OnShortMessage mOn nTicks s in
  let sOff := OnShortMessage mOff nTicks s in
  sOn = sOff
  ∧ (∀ q c' n',
       NoteEnvelope DecayReleaseTimeMillis TicksToMillis q c' (Note sOn c' n')
       = NoteEnvelope DecayReleaseTimeMillis TicksToMillis q c' (Note sOff c' n'))
  ∧ (∀ q,
       GetChannelLevels DecayReleaseTimeMillis PeakHoldTimeMillis
         PeakFalloffTimeMillis TicksToMillis q sOn
       = GetChannelLevels DecayReleaseTimeMillis PeakHoldTimeMillis
           PeakFalloffTimeMillis TicksToMillis q sOff)
  ∧ nNoteOnTime (Note sOn c n) = nNoteOnTime (Note s c n)
  ∧ nVelocity (Note sOn c n) = nVelocity (Note s c n)
  ∧ (wf s → (n < NoteCount)%nat → nNoteOffTime (Note sOn c n) = nTicks)
  ∧ (nNoteOnTime (Note s c n) = 0 →
     ∀ q, NoteEnvelope DecayReleaseTimeMillis TicksToMillis q c (Note sOn c n) = 0%Q)
  ∧ (wf s → (n < NoteCount)%nat → c ≠ 9%nat →
     nNoteOnTime (Note s c n) ≠ 0 → nTicks ≠ 0 →
     ∀ q, NoteEnvelope DecayReleaseTimeMillis TicksToMillis q c (Note sOn c n)
          = EaseFunction
              (Utility.Max
                 (1 - Utility.Min
                        (TicksToMillis
                           (u32 (Z.max q (nNoteOnTime (Note s c n)) - nTicks)))
                        DecayReleaseTimeMillis
                      / DecayReleaseTimeMillis)%Q 0%Q)).
Proof.
  intros HsOn Hv HsOff Hch Hd1 c n sOn sOff.
  assert (HOn : sOn = alter_note (set_nNoteOffTime nTicks) (Channel mOn) (Data1 mOn) s)
    by (by apply OnShortMessage_NoteOn0).
  assert (Heq : sOn = sOff).
  { rewrite HOn. unfold sOff. rewrite OnShortMessage_NoteOff by done.
    by rewrite Hch, Hd1. }
  assert (Hon : nNoteOnTime (Note sOn c n) = nNoteOnTime (Note s c n)).
  { rewrite HOn. by apply Note_alter_note_field. }
  assert (Hoff : wf s → (n < NoteCount)%nat → Note sOn c n = set_nNoteOffTime nTicks (Note s c n)).
  { intros Hwf Hn. rewrite HOn. apply Note_alter_note_eq; [done|apply Channel_range|].
    pose proof (Data_range mOn 8). unfold n, NoteCount, Data1 in *. lia. }
  split; [done|]. split; [by rewrite Heq|]. split; [by rewrite Heq|].
  split; [done|]. split; [rewrite HOn; by apply Note_alter_note_field|].
  split; [intros Hwf Hn; by rewrite Hoff|]. split.
  - intros H0 q. unfold NoteEnvelope, ComputePercussionEnvelope, ComputeEnvelope.
    rewrite Hon, H0. simpl. by destruct (Nat.eqb c 9).
  - intros Hwf Hn Hc Hne Ht q.
    unfold NoteEnvelope, ComputeEnvelope.
    apply Nat.eqb_neq in Hc. rewrite Hc, Hoff by done. cbn [nNoteOnTime nNoteOffTime set_nNoteOffTime].
    apply Z.eqb_neq in Hne, Ht. by rewrite Hne, Ht.
Qed.

Lemma NoteOn_velocity0_is_NoteOff_witness :
  let s0 := OnShortMessage (ShortMessage 0x92 60 100) 5 CMIDIMonitor_new in
  let sOn := OnShortMessage (ShortMessage 0x92 60 0) 9 s0 in
  sOn = OnShortMessage (ShortMessage 0x82 60 64) 9 s0
  ∧ Note sOn 2 60 = mkNoteState 5 9 100
  ∧ (NoteEnvelope Sample.DecayReleaseTimeMillis Sample.TicksToMillis 500009 2
       (Note sOn 2 60) == 3 # 4)%Q.
Proof.
  cbv zeta.
  pose proof (NoteOn_velocity0_is_NoteOff Sample.DecayReleaseTimeMillis
                Sample.PeakHoldTimeMillis Sample.PeakFalloffTimeMillis
                Sample.TicksToMillis (ShortMessage 0x92 60 0)
                (ShortMessage 0x82 60 64) 9
                (OnShortMessage (ShortMessage 0x92 60 100) 5 CMIDIMonitor_new)
                eq_refl eq_refl eq_refl eq_refl eq_refl) as H.
  cbv zeta in H. destruct H as (Heq & _ & _ & _ & _ & _ & _ & Hrel).
  split; [exact Heq|]. split; [vm_compute; reflexivity|].
  assert (Hwf : wf (OnShortMessage (ShortMessage 0x92 60 100) 5 CMIDIMonitor_new))
    by (apply (bool_decide_unpack _); vm_compute; reflexivity).
  refine (eq_ind_r (λ x : float, (x == 3 # 4)%Q) _
            (Hrel Hwf _ _ _ _ 500009)).
  - vm_compute. reflexivity.
  - vm_compute. lia.
  - vm_compute. lia.
  - vm_compute. discriminate.
  - discriminate.
Defined.

(** C7, counterexample.  A Note-On of velocity 0 at tick 0 for a held
    note: the off-time it stores is 0, the value that marks a held note, so
    the note is left as it was and its envelope is 1, the plateau of a held
    note, at every query tick that follows.  A Note-Off at tick 0 does the
    same. *)
Lemma NoteOn_velocity0_at_tick_0_keeps_plateau :
  let s0 := OnShortMessage (ShortMessage 0x92 60 100) 5 CMIDIMonitor_new in
  let sOn := OnShortMessage (ShortMessage 0x92 60 0) 0 s0 in
  let sOff := OnShortMessage (ShortMessage 0x82 60 64) 0 s0 in
  Note s0 2 60 = mkNoteState 5 0 100
  ∧ Note sOn 2 60 = mkNoteState 5 0 100
  ∧ sOn = sOff
  ∧ ∀ q : Z,
      NoteEnvelope Sample.DecayReleaseTimeMillis Sample.TicksToMillis q 2
        (Note sOn 2 60) = 1%Q.
Proof.
  cbv zeta.
  assert (H : Note (OnShortMessage (ShortMessage 0x92 60 0) 0
                      (OnShortMessage (ShortMessage 0x92 60 100) 5 CMIDIMonitor_new))
                2 60 = mkNoteState 5 0 100) by (vm_compute; reflexivity).
  split; [vm_compute; reflexivity|]. split; [exact H|].
  split; [vm_compute; reflexivity|].
  intros q. rewrite H. reflexivity.
Qed.

End MonitorMessages.

(** * Properties of the level query *)

Module MonitorLevels.

Import MIDIMonitor MonitorMessages.

Lemma Clamp_range (x : float) :
  (0 <= Utility.Clamp x 0 1)%Q ∧ (Utility.Clamp x 0 1 <= 1)%Q.
Proof.
  unfold Utility.Clamp. repeat destruct (Qlt_le_dec _ _); split; lra.
Qed.

Lemma Clamp_id (x : float) :
  (0 <= x)%Q → (x <= 1)%Q → Utility.Clamp x 0 1 = x.
Proof.
  intros H0 H1. unfold Utility.Clamp. repeat destruct (Qlt_le_dec _ _); [lra..|done].
Qed.

Lemma Qle_bool_false (x y : Q) : Qle_bool x y = false → (y < x)%Q.
Proof.
  intros H. apply Qnot_le_lt. intros Hle. apply Qle_bool_iff in Hle. congruence.
Qed.

Section Levels.

Variable DecayReleaseTimeMillis : float.
Variable PeakHoldTimeMillis : float.
Variable PeakFalloffTimeMillis : float.
Variable TicksToMillis : Z → float.

Local Abbreviation ChannelVolume :=
  (MIDIMonitor.ChannelVolume DecayReleaseTimeMillis TicksToMillis).
Local Abbreviation DecayedPeak :=
  (MIDIMonitor.DecayedPeak PeakHoldTimeMillis PeakFalloffTimeMillis TicksToMillis).
Local Abbreviation ChannelStep :=
  (MIDIMonitor.ChannelStep DecayReleaseTimeMillis PeakHoldTimeMillis
     PeakFalloffTimeMillis TicksToMillis).
Local Abbreviation ChannelResult :=
  (MIDIMonitor.ChannelResult DecayReleaseTimeMillis PeakHoldTimeMillis
     PeakFalloffTimeMillis TicksToMillis).
Local Abbreviation GetChannelLevels :=
  (MIDIMonitor.GetChannelLevels DecayReleaseTimeMillis PeakHoldTimeMillis
     PeakFalloffTimeMillis TicksToMillis).
Local Abbreviation Reachable :=
  (MIDIMonitor.Reachable DecayReleaseTimeMillis PeakHoldTimeMillis
     PeakFalloffTimeMillis TicksToMillis).

Lemma ChannelVolume_range q c ch :
  (0 <= ChannelVolume q c ch)%Q ∧ (ChannelVolume q c ch <= 1)%Q.
Proof. apply Clamp_range. Qed.

(** One iteration of the channel loop: its own channel. *)
Lemma ChannelStep_own q acc (c : nat) :
  acc_ok acc → (c < ChannelCount)%nat →
  ChannelView (ChannelStep q acc c) c = ChannelResult q (Monitor acc) c.
Proof.
  intros (Hp & Ht & Hl & Hk) Hc.
  unfold MIDIMonitor.ChannelStep, MIDIMonitor.ChannelResult, ChannelView, Level, Peak.
  destruct (Qle_bool _ _); cbn [Monitor pOutLevels pOutPeaks m_PeakLevels m_PeakTimes];
    rewrite !list_lookup_total_insert_eq by lia; reflexivity.
Qed.

(** One iteration of the channel loop: the other channels. *)
Lemma ChannelStep_other q acc (c c' : nat) :
  c' ≠ c → ChannelView (ChannelStep q acc c) c' = ChannelView acc c'.
Proof.
  intros Hne.
  unfold MIDIMonitor.ChannelStep, ChannelView, Level, Peak.
  destruct (Qle_bool _ _); cbn [Monitor pOutLevels pOutPeaks m_PeakLevels m_PeakTimes];
    rewrite !list_lookup_total_insert_ne by done; reflexivity.
Qed.

Lemma ChannelStep_frame q acc (c : nat) :
  acc_ok acc →
  acc_ok (ChannelStep q acc c)
  ∧ m_State (Monitor (ChannelStep q acc c)) = m_State (Monitor acc).
Proof.
  intros (Hp & Ht & Hl & Hk).
  unfold MIDIMonitor.ChannelStep, acc_ok.
  destruct (Qle_bool _ _); cbn [Monitor pOutLevels pOutPeaks m_PeakLevels m_PeakTimes m_State];
    rewrite ?length_insert; done.
Qed.

Lemma ChannelStep_peaks_ok q acc (c : nat) :
  peaks_ok (Monitor acc) → peaks_ok (Monitor (ChannelStep q acc c)).
Proof.
  intros Hok. unfold MIDIMonitor.ChannelStep, peaks_ok.
  destruct (Qle_bool _ _); cbn [Monitor m_PeakLevels]; [|done].
  apply Forall_insert; [done|]. apply ChannelVolume_range.
Qed.

(** [ChannelResult] reads the monitor at its channel only. *)
Lemma ChannelResult_ext q s s' (c : nat) :
  m_State s' = m_State s →
  m_PeakLevels s' !!! c = m_PeakLevels s !!! c →
  m_PeakTimes s' !!! c = m_PeakTimes s !!! c →
  ChannelResult q s' c = ChannelResult q s c.
Proof.
  intros Hs Hp Ht. unfold MIDIMonitor.ChannelResult. by rewrite Hs, Hp, Ht.
Qed.

(** The channel loop over a list of distinct channels. *)
Lemma fold_ChannelStep q (l : list nat) :
  NoDup l → Forall (λ c, (c < ChannelCount)%nat) l →
  ∀ acc, acc_ok acc →
    let r := fold_left (ChannelStep q) l acc in
    acc_ok r
    ∧ m_State (Monitor r) = m_State (Monitor acc)
    ∧ (peaks_ok (Monitor acc) → peaks_ok (Monitor r))
    ∧ ∀ c : nat,
        ChannelView r c =
          if decide (c ∈ l) then ChannelResult q (Monitor acc) c
          else ChannelView acc c.
Proof.
  induction l as [|a l IH]; intros Hnd Hlt acc Hacc; cbn [fold_left].
  - split; [done|]. split; [done|]. split; [done|]. intros c.
    rewrite decide_False; [done|]. apply not_elem_of_nil.
  - apply NoDup_cons in Hnd as [Ha Hnd]. apply Forall_cons in Hlt as [Hlta Hlt].
    destruct (ChannelStep_frame q acc a Hacc) as [Hacc' Hst'].
    destruct (IH Hnd Hlt _ Hacc') as (Hok & Hst & Hpk & Hview).
    split; [done|]. split; [by rewrite Hst|].
    split; [intros H; by apply Hpk, ChannelStep_peaks_ok|].
    intros c. rewrite Hview.
    destruct (decide (c = a)) as [->|Hne].
    + rewrite decide_False by done.
      rewrite decide_True by apply list_elem_of_here.
      by apply ChannelStep_own.
    + pose proof (ChannelStep_other q acc a c Hne) as Hother.
      destruct (decide (c ∈ l)) as [Hin|Hin].
      * rewrite decide_True by (by apply list_elem_of_further).
        unfold ChannelView in Hother.
        apply ChannelResult_ext; [done|congruence..].
      * rewrite decide_False; [done|].
        intros Hin'. apply elem_of_cons in Hin' as [?|?]; done.
Qed.

Lemma acc_ok_init s :
  wf s →
  acc_ok (mkLevels s (replicate ChannelCount 0%Q) (replicate ChannelCount 0%Q)).
Proof.
  intros (_ & _ & Hp & Ht). unfold acc_ok. cbn [Monitor pOutLevels pOutPeaks].
  by rewrite !length_replicate.
Qed.

(** [GetChannelLevels], channel by channel. *)
Lemma GetChannelLevels_channel q s (c : nat) :
  wf s → (c < ChannelCount)%nat →
  ChannelView (GetChannelLevels q s) c = ChannelResult q s c.
Proof.
  intros Hwf Hc. unfold MIDIMonitor.GetChannelLevels.
  destruct (fold_ChannelStep q (seq 0 ChannelCount)) with
    (acc := mkLevels s (replicate ChannelCount 0%Q) (replicate ChannelCount 0%Q))
    as (_ & _ & _ & Hview).
  - apply NoDup_seq.
  - apply Forall_forall. intros x Hx. apply elem_of_seq in Hx. lia.
  - by apply acc_ok_init.
  - rewrite Hview. rewrite decide_True; [done|]. apply elem_of_seq. lia.
Qed.

Lemma GetChannelLevels_frame q s :
  wf s →
  acc_ok (GetChannelLevels q s)
  ∧ m_State (Monitor (GetChannelLevels q s)) = m_State s
  ∧ (peaks_ok s → peaks_ok (Monitor (GetChannelLevels q s))).
Proof.
  intros Hwf. unfold MIDIMonitor.GetChannelLevels.
  destruct (fold_ChannelStep q (seq 0 ChannelCount)) with
    (acc := mkLevels s (replicate ChannelCount 0%Q) (replicate ChannelCount 0%Q))
    as (Hok & Hst & Hpk & _).
  - apply NoDup_seq.
  - apply Forall_forall. intros x Hx. apply elem_of_seq in Hx. lia.
  - by apply acc_ok_init.
  - done.
Qed.

Lemma wf_GetChannelLevels q s : wf s → wf (Monitor (GetChannelLevels q s)).
Proof.
  intros Hwf. destruct (GetChannelLevels_frame q s Hwf) as ((Hp & Ht & _) & Hst & _).
  destruct Hwf as (Hlen & Hnotes & _). unfold wf. by rewrite Hst.
Qed.

Lemma peaks_ok_new : peaks_ok CMIDIMonitor_new.
Proof.
  unfold peaks_ok. apply Forall_forall. intros p Hp.
  apply elem_of_replicate in Hp as [-> _]. split; lra.
Qed.

(** The invariant of the monitor: array sizes, and stored peaks that are
    levels. *)
Lemma Reachable_inv s : Reachable s → wf s ∧ peaks_ok s.
Proof.
  induction 1 as [|m t s _ _ [Hwf Hpk]|q s _ [Hwf Hpk]].
  - split; [apply wf_new|apply peaks_ok_new].
  - split; [by apply wf_OnShortMessage|].
    unfold peaks_ok. by rewrite (proj1 (OnShortMessage_peaks m t s)).
  - split; [by apply wf_GetChannelLevels|].
    by apply GetChannelLevels_frame.
Qed.

Local Abbreviation PeakUpdatedMillis := (MIDIMonitor.PeakUpdatedMillis TicksToMillis).

(** The four values of a channel after a query, one by one. *)
Lemma GetChannelLevels_values q s (c : nat) :
  wf s → (c < ChannelCount)%nat →
  let r := GetChannelLevels q s in
  let v := ChannelVolume q c (m_State s !!! c) in
  let p := DecayedPeak q (m_PeakLevels s !!! c) (m_PeakTimes s !!! c) in
  Level r c = v
  ∧ Peak r c = (if Qle_bool p v then v else p)
  ∧ m_PeakLevels (Monitor r) !!! c = (if Qle_bool p v then v else m_PeakLevels s !!! c)
  ∧ m_PeakTimes (Monitor r) !!! c = (if Qle_bool p v then q else m_PeakTimes s !!! c).
Proof.
  intros Hwf Hc r v p.
  pose proof (GetChannelLevels_channel q s c Hwf Hc) as H.
  unfold ChannelView, MIDIMonitor.ChannelResult in H. fold r v p in H.
  destruct (Qle_bool p v); injection H as -> -> -> ->; done.
Qed.

Lemma peaks_ok_lookup s (c : nat) :
  wf s → peaks_ok s → (c < ChannelCount)%nat →
  (0 <= m_PeakLevels s !!! c)%Q ∧ (m_PeakLevels s !!! c <= 1)%Q.
Proof.
  intros (_ & _ & Hlen & _) Hok Hc. unfold peaks_ok in Hok.
  rewrite Forall_lookup in Hok. apply (Hok c).
  apply list_lookup_lookup_total_lt. unfold float in *. lia.
Qed.

Lemma DecayedPeak_range q (P : float) T :
  (0 <= P)%Q → (P <= 1)%Q →
  (0 <= DecayedPeak q P T)%Q ∧ (DecayedPeak q P T <= 1)%Q.
Proof.
  intros H0 H1. unfold MIDIMonitor.DecayedPeak.
  destruct (Qle_bool _ _); [apply Clamp_range|done].
Qed.

(** The quotient of a time by a positive time constant. *)
Lemma Qdiv_nonneg (a b : Q) : (0 <= a)%Q → (0 < b)%Q → (0 <= a / b)%Q.
Proof.
  intros Ha Hb. unfold Qdiv. apply Qmult_le_0_compat; [done|].
  apply Qlt_le_weak. by apply Qinv_lt_0_compat.
Qed.

(** While the peak is held it is the stored peak. *)
Lemma DecayedPeak_hold q (P : float) T :
  (PeakUpdatedMillis q T < PeakHoldTimeMillis)%Q → DecayedPeak q P T = P.
Proof.
  intros Hlt. unfold MIDIMonitor.DecayedPeak.
  destruct (Qle_bool _ _) eqn:E; [|done].
  apply Qle_bool_iff in E. unfold MIDIMonitor.PeakUpdatedMillis in *. lra.
Qed.

(** After the hold time it has fallen linearly, and not below 0. *)
Lemma DecayedPeak_fall q (P : float) T :
  (0 < PeakFalloffTimeMillis)%Q → (P <= 1)%Q →
  (PeakHoldTimeMillis <= PeakUpdatedMillis q T)%Q →
  (DecayedPeak q P T ==
     Utility.Max
       (P - (PeakUpdatedMillis q T - PeakHoldTimeMillis) / PeakFalloffTimeMillis) 0)%Q.
Proof.
  intros HF H1 Hge. unfold MIDIMonitor.DecayedPeak.
  fold (PeakUpdatedMillis q T).
  apply Qle_bool_iff in Hge as E. rewrite E.
  assert (HM : Utility.Max (PeakUpdatedMillis q T - PeakHoldTimeMillis) 0
               = (PeakUpdatedMillis q T - PeakHoldTimeMillis)%Q).
  { unfold Utility.Max. destruct (Qlt_le_dec _ _); [lra|done]. }
  rewrite HM.
  pose proof (Qdiv_nonneg (PeakUpdatedMillis q T - PeakHoldTimeMillis)
                PeakFalloffTimeMillis ltac:(lra) HF) as Hd.
  revert Hd. generalize ((PeakUpdatedMillis q T - PeakHoldTimeMillis) / PeakFalloffTimeMillis)%Q.
  intros d Hd. unfold Utility.Clamp, Utility.Max.
  repeat destruct (Qlt_le_dec _ _); lra.
Qed.

(** The step never raises the stored peak. *)
Lemma DecayedPeak_le q (P : float) T :
  (0 < PeakFalloffTimeMillis)%Q → (0 <= P)%Q → (P <= 1)%Q →
  (DecayedPeak q P T <= P)%Q.
Proof.
  intros HF H0 H1.
  destruct (Qlt_le_dec (PeakUpdatedMillis q T) PeakHoldTimeMillis) as [Hlt|Hge].
  - rewrite DecayedPeak_hold by done. lra.
  - rewrite DecayedPeak_fall by done.
    pose proof (Qdiv_nonneg (PeakUpdatedMillis q T - PeakHoldTimeMillis)
                  PeakFalloffTimeMillis ltac:(lra) HF) as Hd.
    revert Hd. generalize ((PeakUpdatedMillis q T - PeakHoldTimeMillis) / PeakFalloffTimeMillis)%Q.
    intros d Hd. unfold Utility.Max. destruct (Qlt_le_dec _ _); lra.
Qed.

(** The reported peak is the larger of the level and the stepped peak. *)
Lemma reported_peak_Max (p v : float) :
  ((if Qle_bool p v then v else p) == Utility.Max p v)%Q.
Proof.
  unfold Utility.Max. destruct (Qle_bool p v) eqn:E.
  - apply Qle_bool_iff in E. destruct (Qlt_le_dec _ _); lra.
  - apply Qle_bool_false in E. destruct (Qlt_le_dec _ _); lra.
Qed.

Lemma Max_compat (a a' b : float) :
  (a == a')%Q → (Utility.Max a b == Utility.Max a' b)%Q.
Proof.
  intros H. unfold Utility.Max. repeat destruct (Qlt_le_dec _ _); lra.
Qed.

Lemma Max_le_l (a b : float) : (a <= Utility.Max a b)%Q.
Proof. unfold Utility.Max. destruct (Qlt_le_dec _ _); lra. Qed.

Lemma Max_le_r (a b : float) : (b <= Utility.Max a b)%Q.
Proof. unfold Utility.Max. destruct (Qlt_le_dec _ _); lra. Qed.

(** C6.  In every state that the monitor reaches from its construction by
    messages (whose first data byte is below 128, so that a note message
    addresses one of the 128 notes) and by queries, and at every query tick,
    [GetChannelLevels] writes for each of the 16 channels a level and a peak
    that both lie in [[0, 1]], and the peak is at least the level. *)
Theorem GetChannelLevels_bounds (s : CMIDIMonitor) (nTicks : Z) (nChannel : nat) :
  Reachable s → (nChannel < ChannelCount)%nat →
  let r := GetChannelLevels nTicks s in
  ∃ level peak : float,
    pOutLevels r !! nChannel = Some level
    ∧ pOutPeaks r !! nChannel = Some peak
    ∧ (0 <= level)%Q ∧ (level <= 1)%Q
    ∧ (0 <= peak)%Q ∧ (peak <= 1)%Q
    ∧ (level <= peak)%Q.
Proof.
  intros Hreach Hc r.
  destruct (Reachable_inv s Hreach) as [Hwf Hpk].
  destruct (GetChannelLevels_frame nTicks s Hwf) as ((_ & _ & Hl & Hp) & _).
  destruct (GetChannelLevels_values nTicks s nChannel Hwf Hc) as (Hlev & Hpeak & _).
  exists (Level r nChannel), (Peak r nChannel).
  split; [apply list_lookup_lookup_total_lt; fold r in Hl; lia|].
  split; [apply list_lookup_lookup_total_lt; fold r in Hp; lia|].
  fold r in Hlev, Hpeak. rewrite Hlev, Hpeak.
  destruct (ChannelVolume_range nTicks nChannel (m_State s !!! nChannel)) as [Hv0 Hv1].
  destruct (peaks_ok_lookup s nChannel Hwf Hpk Hc) as [HP0 HP1].
  destruct (DecayedPeak_range nTicks _ (m_PeakTimes s !!! nChannel) HP0 HP1) as [Hd0 Hd1].
  destruct (Qle_bool _ _) eqn:E.
  - repeat split; try done. lra.
  - apply Qle_bool_false in E. repeat split; try done. lra.
Qed.

(** Messages leave the peak arrays alone. *)
Lemma Messages_frame (messages : list (Z * Z)) :
  ∀ s : CMIDIMonitor,
    Forall (λ m, Data1 m.1 < 128) messages → Reachable s →
    let s' := fold_left (λ s m, OnShortMessage m.1 m.2 s) messages s in
    Reachable s'
    ∧ m_PeakLevels s' = m_PeakLevels s
    ∧ m_PeakTimes s' = m_PeakTimes s.
Proof.
  induction messages as [|m messages IH]; intros s Hm Hreach; cbn [fold_left].
  - done.
  - apply Forall_cons in Hm as [Hm1 Hm].
    destruct (IH (OnShortMessage m.1 m.2 s) Hm) as (H1 & H2 & H3).
    + by apply Reachable_OnShortMessage.
    + destruct (OnShortMessage_peaks m.1 m.2 s) as [HL HT].
      split; [done|]. split; congruence.
Qed.

(** The reported peak of a query, from the stored peak and its tick. *)
Lemma Peak_step (s : CMIDIMonitor) (nTicks : Z) (nChannel : nat) :
  (0 < PeakFalloffTimeMillis)%Q →
  Reachable s → (nChannel < ChannelCount)%nat →
  let nPeakLevel := m_PeakLevels s !!! nChannel in
  let heldMs := PeakUpdatedMillis nTicks (m_PeakTimes s !!! nChannel) in
  let r := GetChannelLevels nTicks s in
  ((heldMs < PeakHoldTimeMillis)%Q →
     (Peak r nChannel == Utility.Max nPeakLevel (Level r nChannel))%Q
     ∧ (nPeakLevel <= Peak r nChannel)%Q)
  ∧ ((PeakHoldTimeMillis <= heldMs)%Q →
     (Peak r nChannel ==
        Utility.Max
          (Utility.Max
             (nPeakLevel - (heldMs - PeakHoldTimeMillis) / PeakFalloffTimeMillis) 0)
          (Level r nChannel))%Q).
Proof.
  intros HF Hreach Hc P heldMs r.
  destruct (Reachable_inv s Hreach) as [Hwf Hpk].
  destruct (GetChannelLevels_values nTicks s nChannel Hwf Hc) as (Hlev & Hpeak & _).
  fold r P in Hlev, Hpeak.
  destruct (peaks_ok_lookup s nChannel Hwf Hpk Hc) as [HP0 HP1]. fold P in HP0, HP1.
  split.
  - intros Hlt. rewrite Hpeak, Hlev.
    rewrite (DecayedPeak_hold nTicks P _ Hlt).
    split; [apply reported_peak_Max|].
    rewrite reported_peak_Max. apply Max_le_l.
  - intros Hge. rewrite Hpeak, Hlev. rewrite reported_peak_Max.
    apply Max_compat. by apply DecayedPeak_fall.
Qed.

(** What a query stores: the level and the tick of the query when the level
    has reached the peak, and nothing otherwise. *)
Lemma Peak_update (s : CMIDIMonitor) (nTicks : Z) (nChannel : nat) :
  wf s → (nChannel < ChannelCount)%nat →
  let r := GetChannelLevels nTicks s in
  ((Peak r nChannel <= Level r nChannel)%Q →
     Peak r nChannel = Level r nChannel
     ∧ m_PeakLevels (Monitor r) !!! nChannel = Level r nChannel
     ∧ m_PeakTimes (Monitor r) !!! nChannel = nTicks)
  ∧ ((Level r nChannel < Peak r nChannel)%Q →
     m_PeakLevels (Monitor r) !!! nChannel = m_PeakLevels s !!! nChannel
     ∧ m_PeakTimes (Monitor r) !!! nChannel = m_PeakTimes s !!! nChannel).
Proof.
  intros Hwf Hc r.
  destruct (GetChannelLevels_values nTicks s nChannel Hwf Hc)
    as (Hlev & Hpeak & Hst & Htm).
  fold r in Hlev, Hpeak, Hst, Htm.
  rewrite Hpeak, Hst, Htm, Hlev.
  destruct (Qle_bool _ _) eqn:E.
  - split; [done|]. intros Hlt. lra.
  - apply Qle_bool_false in E. split; [|done]. intros Hle. lra.
Qed.

(** C8.  The peak reported for a channel is the larger of the channel's
    level and of the stored peak after the hold and fall-off step.  While
    the milliseconds since the last peak update are below
    [PeakHoldTimeMillis] the step keeps the stored peak, so the reported
    peak is not below it, nor below the peak reported by the query before
    (whatever messages arrived in between: they leave the peak arrays
    alone); from the hold time on the stored peak has fallen by
    [1/PeakFalloffTimeMillis] per millisecond of excess, and not below 0.
    The last peak update is the last query at which the level reached the
    peak: such a query stores the level and its own tick, a query at which
    the level stays below the peak stores nothing.  So, after a query that
    updates the peak at [nTicks] and whatever messages follow it, the next
    query, at [nTicks'], reports at least that peak while the milliseconds
    of [nTicks' - nTicks] are below the hold time, and the larger of the
    level and of that peak fallen linearly, not below 0, from then on. *)
Theorem Peak_hold_and_falloff (s : CMIDIMonitor) (nTicks : Z) (nChannel : nat) :
  (0 < PeakFalloffTimeMillis)%Q →
  Reachable s → (nChannel < ChannelCount)%nat →
  let nPeakLevel := m_PeakLevels s !!! nChannel in
  let heldMs := PeakUpdatedMillis nTicks (m_PeakTimes s !!! nChannel) in
  let r := GetChannelLevels nTicks s in
  ((heldMs < PeakHoldTimeMillis)%Q →
     (Peak r nChannel == Utility.Max nPeakLevel (Level r nChannel))%Q
     ∧ (nPeakLevel <= Peak r nChannel)%Q)
  ∧ ((PeakHoldTimeMillis <= heldMs)%Q →
     (Peak r nChannel ==
        Utility.Max
          (Utility.Max
             (nPeakLevel - (heldMs - PeakHoldTimeMillis) / PeakFalloffTimeMillis) 0)
          (Level r nChannel))%Q)
  ∧ (∀ (s' : CMIDIMonitor) (nTicks' : Z),
       Reachable s' →
       m_PeakLevels s' !!! nChannel = m_PeakLevels (Monitor r) !!! nChannel →
       m_PeakTimes s' !!! nChannel = m_PeakTimes (Monitor r) !!! nChannel →
       (PeakUpdatedMillis nTicks' (m_PeakTimes s' !!! nChannel)
        < PeakHoldTimeMillis)%Q →
       (Peak r nChannel <= Peak (GetChannelLevels nTicks' s') nChannel)%Q)
  ∧ ((Peak r nChannel <= Level r nChannel)%Q →
     m_PeakLevels (Monitor r) !!! nChannel = Level r nChannel
     ∧ m_PeakTimes (Monitor r) !!! nChannel = nTicks)
  ∧ ((Level r nChannel < Peak r nChannel)%Q →
     m_PeakLevels (Monitor r) !!! nChannel = nPeakLevel
     ∧ m_PeakTimes (Monitor r) !!! nChannel = m_PeakTimes s !!! nChannel)
  ∧ (∀ (messages : list (Z * Z)) (nTicks' : Z),
       Forall (λ m, Data1 m.1 < 128) messages →
       (Peak r nChannel <= Level r nChannel)%Q →
       let s' :=
         fold_left (λ s m, OnShortMessage m.1 m.2 s) messages (Monitor r) in
       let r' := GetChannelLevels nTicks' s' in
       let heldMs' := PeakUpdatedMillis nTicks' nTicks in
       ((heldMs' < PeakHoldTimeMillis)%Q →
          (Peak r' nChannel
           == Utility.Max (Peak r nChannel) (Level r' nChannel))%Q
          ∧ (Peak r nChannel <= Peak r' nChannel)%Q)
       ∧ ((PeakHoldTimeMillis <= heldMs')%Q →
          (Peak r' nChannel ==
             Utility.Max
               (Utility.Max
                  (Peak r nChannel
                   - (heldMs' - PeakHoldTimeMillis) / PeakFalloffTimeMillis) 0)
               (Level r' nChannel))%Q)).
Proof.
  intros HF Hreach Hc P heldMs r.
  destruct (Reachable_inv s Hreach) as [Hwf Hpk].
  destruct (GetChannelLevels_values nTicks s nChannel Hwf Hc) as (Hlev & Hpeak & Hst & Htm).
  fold r P in Hlev, Hpeak, Hst, Htm.
  destruct (peaks_ok_lookup s nChannel Hwf Hpk Hc) as [HP0 HP1]. fold P in HP0, HP1.
  destruct (Peak_step s nTicks nChannel HF Hreach Hc) as [Hhold Hfall].
  destruct (Peak_update s nTicks nChannel Hwf Hc) as [Hupd Hkeep].
  fold r in Hupd, Hkeep.
  split; [exact Hhold|]. split; [exact Hfall|]. split; [|split; [|split]].
  - intros s' q' Hreach' HP' HT' Hlt'.
    destruct (Reachable_inv s' Hreach') as [Hwf' _].
    destruct (GetChannelLevels_values q' s' nChannel Hwf' Hc) as (_ & Hpeak' & _).
    rewrite Hpeak'. rewrite (DecayedPeak_hold q' _ _ Hlt').
    rewrite (reported_peak_Max (m_PeakLevels s' !!! nChannel)).
    eapply Qle_trans; [|apply Max_le_l].
    rewrite HP', Hpeak, Hst.
    pose proof (DecayedPeak_le nTicks P (m_PeakTimes s !!! nChannel) HF HP0 HP1) as Hle.
    destruct (Qle_bool _ _); lra.
  - intros Hle. destruct (Hupd Hle) as (_ & H1 & H2). by split.
  - exact Hkeep.
  - intros messages q' Hmsgs Hle s' r' heldMs'.
    destruct (Hupd Hle) as (HPeq & HL & HT).
    assert (Hreach1 : Reachable (Monitor r))
      by (by apply Reachable_GetChannelLevels).
    destruct (Messages_frame messages (Monitor r) Hmsgs Hreach1) as (Hreach' & HL' & HT').
    fold s' in Hreach', HL', HT'.
    destruct (Peak_step s' q' nChannel HF Hreach' Hc) as [Hhold' Hfall'].
    fold r' in Hhold', Hfall'.
    rewrite HL', HT', HL, HT, <- HPeq in Hhold', Hfall'.
    split; [exact Hhold'|exact Hfall'].
Qed.

Local Abbreviation NoteEnvelope :=
  (MIDIMonitor.NoteEnvelope DecayReleaseTimeMillis TicksToMillis).
Local Abbreviation NoteVolume :=
  (MIDIMonitor.NoteVolume DecayReleaseTimeMillis TicksToMillis).

(** The running maximum of the note loop. *)
Lemma fold_Max_le (g : nat → float) (l : list nat) (a b : float) :
  (a <= b)%Q → (∀ i, i ∈ l → (g i <= b)%Q) →
  (fold_left (λ v i, Utility.Max v (g i)) l a <= b)%Q.
Proof.
  revert a. induction l as [|j l IH]; intros a Ha Hl; [done|].
  cbn [fold_left]. apply IH.
  - pose proof (Hl j (list_elem_of_here _ _)).
    unfold Utility.Max. destruct (Qlt_le_dec _ _); lra.
  - intros i Hi. apply Hl. by apply list_elem_of_further.
Qed.

Lemma fold_Max_ge_init (g : nat → float) (l : list nat) (a : float) :
  (a <= fold_left (λ v i, Utility.Max v (g i)) l a)%Q.
Proof.
  revert a. induction l as [|j l IH]; intros a; cbn [fold_left]; [lra|].
  eapply Qle_trans; [apply (Max_le_l a (g j))|apply IH].
Qed.

Lemma fold_Max_ge (g : nat → float) (l : list nat) (a : float) (i : nat) :
  i ∈ l → (g i <= fold_left (λ v i, Utility.Max v (g i)) l a)%Q.
Proof.
  revert a. induction l as [|j l IH]; intros a Hi; [by apply elem_of_nil in Hi|].
  cbn [fold_left]. apply elem_of_cons in Hi as [->|Hi].
  - eapply Qle_trans; [apply (Max_le_r a (g j))|apply fold_Max_ge_init].
  - by apply IH.
Qed.

(** A note that has never sounded contributes nothing. *)
Lemma NoteVolume_silent q c ch ns :
  nNoteOnTime ns = 0 → (NoteVolume q c ch ns == 0)%Q.
Proof.
  intros H. unfold MIDIMonitor.NoteVolume, MIDIMonitor.NoteEnvelope,
    ComputePercussionEnvelope, ComputeEnvelope.
  rewrite H. cbn [Z.eqb]. destruct (Nat.eqb c 9); ring.
Qed.

(** The loudness of a channel in which one note at most has sounded. *)
Lemma ChannelVolume_single q c ch (n : nat) (x : float) :
  (n < NoteCount)%nat →
  (∀ i : nat, (i < NoteCount)%nat → i ≠ n → nNoteOnTime (Notes ch !!! i) = 0) →
  (NoteVolume q c ch (Notes ch !!! n) == x)%Q →
  (0 <= x)%Q → (x <= 1)%Q →
  (ChannelVolume q c ch == x)%Q.
Proof.
  intros Hn Hsilent Hx H0 H1. unfold MIDIMonitor.ChannelVolume. cbv zeta.
  set (g := λ i : nat, NoteVolume q c ch (Notes ch !!! i)).
  change (Utility.Clamp
            (fold_left (λ v i, Utility.Max v (g i)) (seq 0 NoteCount) 0) 0 1 == x)%Q.
  assert (Hub : (fold_left (λ v i, Utility.Max v (g i)) (seq 0 NoteCount) 0 <= x)%Q).
  { apply fold_Max_le; [done|]. intros i Hi. apply elem_of_seq in Hi.
    destruct (decide (i = n)) as [->|Hne]; [unfold g; lra|].
    unfold g. rewrite NoteVolume_silent; [done|]. apply Hsilent; [lia|done]. }
  assert (Hlb : (x <= fold_left (λ v i, Utility.Max v (g i)) (seq 0 NoteCount) 0)%Q).
  { rewrite <- Hx. apply (fold_Max_ge g). apply elem_of_seq. lia. }
  rewrite Clamp_id by lra. lra.
Qed.

Lemma new_State :
  m_State CMIDIMonitor_new =
    replicate ChannelCount
      (mkChannelState (replicate NoteCount (mkNoteState 0 0 0)) 100 127 64).
Proof. reflexivity. Qed.

Lemma new_channel (c : nat) :
  (c < ChannelCount)%nat →
  m_State CMIDIMonitor_new !!! c =
    mkChannelState (replicate NoteCount (mkNoteState 0 0 0)) 100 127 64.
Proof. intros Hc. rewrite new_State. by apply lookup_total_replicate_2. Qed.

Lemma new_Note (c n : nat) :
  (c < ChannelCount)%nat → (n < NoteCount)%nat →
  Note CMIDIMonitor_new c n = mkNoteState 0 0 0.
Proof.
  intros Hc Hn. unfold Note. rewrite new_channel by done.
  by apply lookup_total_replicate_2.
Qed.

(** [alter_note] keeps the controllers of every channel. *)
Lemma alter_note_controllers f c n s (c' : nat) :
  nVolume (m_State (alter_note f c n s) !!! c') = nVolume (m_State s !!! c')
  ∧ nExpression (m_State (alter_note f c n s) !!! c') = nExpression (m_State s !!! c')
  ∧ nPan (m_State (alter_note f c n s) !!! c') = nPan (m_State s !!! c').
Proof.
  unfold alter_note. cbn [m_State set_m_State].
  rewrite list_lookup_total_alter. case_decide as H; [|done].
  destruct H as [<- _]. done.
Qed.

Lemma Note_State s s' (c n : nat) :
  m_State s' = m_State s → Note s' c n = Note s c n.
Proof. unfold Note. by intros ->. Qed.

(** The release curve half-way through the release time. *)
Lemma Ease_half_release (x : float) :
  (0 < DecayReleaseTimeMillis)%Q → (x == DecayReleaseTimeMillis / 2)%Q →
  (EaseFunction
     (Utility.Max
        (1 - Utility.Min x DecayReleaseTimeMillis / DecayReleaseTimeMillis) 0)
   == 3 / 4)%Q.
Proof.
  intros HD Hx.
  assert (HD' : (DecayReleaseTimeMillis / 2 == DecayReleaseTimeMillis * (1 # 2))%Q)
    by (field; lra).
  assert (Hmin : Utility.Min x DecayReleaseTimeMillis = x).
  { unfold Utility.Min. destruct (Qlt_le_dec _ _); [lra|done]. }
  rewrite Hmin.
  assert (Hq : (x / DecayReleaseTimeMillis == 1 # 2)%Q).
  { rewrite Hx. field. lra. }
  assert (Hmax : (Utility.Max (1 - x / DecayReleaseTimeMillis) 0 == 1 # 2)%Q).
  { unfold Utility.Max. destruct (Qlt_le_dec _ _); lra. }
  unfold EaseFunction. rewrite Hmax. reflexivity.
Qed.

(** The release curve once the release time has passed. *)
Lemma Ease_released (x : float) :
  (0 < DecayReleaseTimeMillis)%Q → (DecayReleaseTimeMillis <= x)%Q →
  (EaseFunction
     (Utility.Max
        (1 - Utility.Min x DecayReleaseTimeMillis / DecayReleaseTimeMillis) 0)
   == 0)%Q.
Proof.
  intros HD Hx.
  assert (Hmin : (Utility.Min x DecayReleaseTimeMillis == DecayReleaseTimeMillis)%Q).
  { unfold Utility.Min. destruct (Qlt_le_dec _ _); lra. }
  assert (Hq : (Utility.Min x DecayReleaseTimeMillis / DecayReleaseTimeMillis == 1)%Q).
  { rewrite Hmin. field. lra. }
  assert (Hmax : (Utility.Max
                    (1 - Utility.Min x DecayReleaseTimeMillis / DecayReleaseTimeMillis) 0
                  == 0)%Q).
  { unfold Utility.Max. destruct (Qlt_le_dec _ _); lra. }
  unfold EaseFunction. rewrite Hmax. reflexivity.
Qed.

(** C5, as the code has it.  On a new monitor (volume 100, expression 127)
    a Note-On of velocity 127 arrives on channel 0 at a tick other than 0,
    the value that marks a note that has not sounded.  Queried at that tick,
    the level of channel 0 is 100/127, the share of the channel volume; after
    a Note-Off at the same tick, a query half the release time later gives
    ease(1/2) = 3/4 of that. *)
Theorem Scenario_levels (mOn mOff nTicks nQuery : Z) :
  (0 < DecayReleaseTimeMillis)%Q →
  Status mOn = 0x90 → Channel mOn = 0 → Data1 mOn < 128 → Data2 mOn = 127 →
  Status mOff = 0x80 → Channel mOff = 0 → Data1 mOff = Data1 mOn →
  nTicks ≠ 0 →
  0 ≤ nQuery - nTicks < 2 ^ 32 →
  (TicksToMillis (nQuery - nTicks) == DecayReleaseTimeMillis / 2)%Q →
  let s1 := OnShortMessage mOn nTicks CMIDIMonitor_new in
  let r1 := GetChannelLevels nTicks s1 in
  let s2 := OnShortMessage mOff nTicks (Monitor r1) in
  let r2 := GetChannelLevels nQuery s2 in
  (Level r1 0 == 100 / 127)%Q ∧ (Level r2 0 == (3 / 4) * (100 / 127))%Q.
Proof.
  intros HD HsOn HcOn HnOn HvOn HsOff HcOff HnOff Ht Hq Hms s1 r1 s2 r2.
  pose proof (Data_range mOn 8) as Hd1. fold (Data1 mOn) in Hd1.
  set (n := Z.to_nat (Data1 mOn)).
  assert (Hn : (n < NoteCount)%nat) by (unfold n, NoteCount; lia).
  assert (Hc0 : (0 < ChannelCount)%nat) by (unfold ChannelCount; lia).
  set (f := λ Note, set_nVelocity (Data2 mOn) (set_nNoteOffTime 0 (set_nNoteOnTime nTicks Note))).
  assert (Hs1 : s1 = alter_note f 0 (Data1 mOn) CMIDIMonitor_new).
  { unfold s1. rewrite OnShortMessage_NoteOn by (try done; lia). by rewrite HcOn. }
  assert (Hwf1 : wf s1) by (unfold s1; auto with monitor).
  assert (Hst1 : m_State (Monitor r1) = m_State s1) by (by apply GetChannelLevels_frame).
  assert (Hwfr1 : wf (Monitor r1)) by (by apply wf_GetChannelLevels).
  assert (Hs2 : s2 = alter_note (set_nNoteOffTime nTicks) 0 (Data1 mOn) (Monitor r1)).
  { unfold s2. rewrite OnShortMessage_NoteOff by done. by rewrite HcOff, HnOff. }
  assert (Hwf2 : wf s2) by (unfold s2; auto with monitor).
  assert (Hnote1 : Note s1 0 n = mkNoteState nTicks 0 127).
  { rewrite Hs1. change 0%nat with (Z.to_nat 0). unfold n.
    rewrite Note_alter_note_eq by (try apply wf_new; lia).
    unfold f. rewrite HvOn. reflexivity. }
  assert (Hother1 : ∀ i : nat, (i < NoteCount)%nat → i ≠ n →
            nNoteOnTime (Note s1 0 i) = 0).
  { intros i Hi Hne. rewrite Hs1, Note_alter_note.
    rewrite new_Note by done. repeat case_decide; try done. lia. }
  assert (Hnote2 : Note s2 0 n = mkNoteState nTicks nTicks 127).
  { rewrite Hs2. change 0%nat with (Z.to_nat 0). unfold n.
    rewrite Note_alter_note_eq by (try done; lia).
    change (Z.to_nat 0) with 0%nat. fold n.
    rewrite (Note_State s1) by done. by rewrite Hnote1. }
  assert (Hother2 : ∀ i : nat, (i < NoteCount)%nat → i ≠ n →
            nNoteOnTime (Note s2 0 i) = 0).
  { intros i Hi Hne. rewrite Hs2. rewrite Note_alter_note_field by done.
    rewrite (Note_State s1) by done. by apply Hother1. }
  assert (Hctl1 : nVolume (m_State s1 !!! 0%nat) = 100
                  ∧ nExpression (m_State s1 !!! 0%nat) = 127).
  { rewrite Hs1. destruct (alter_note_controllers f 0 (Data1 mOn) CMIDIMonitor_new 0)
      as (-> & -> & _). by rewrite new_channel. }
  assert (Hctl2 : nVolume (m_State s2 !!! 0%nat) = 100
                  ∧ nExpression (m_State s2 !!! 0%nat) = 127).
  { rewrite Hs2. destruct (alter_note_controllers (set_nNoteOffTime nTicks) 0
                             (Data1 mOn) (Monitor r1) 0) as (-> & -> & _).
    by rewrite Hst1. }
  apply Z.eqb_neq in Ht as Ht'.
  split.
  - unfold r1. destruct (GetChannelLevels_values nTicks s1 0 Hwf1 Hc0) as (-> & _).
    apply (ChannelVolume_single _ _ _ n);
      [done|exact Hother1| |apply Qle_bool_iff; reflexivity..].
    fold (Note s1 0 n). rewrite Hnote1.
    unfold MIDIMonitor.NoteVolume, MIDIMonitor.NoteEnvelope, ComputeEnvelope.
    destruct Hctl1 as [-> ->].
    cbn [Nat.eqb nNoteOnTime nNoteOffTime nVelocity]. rewrite Ht'. cbn [Z.eqb].
    reflexivity.
  - unfold r2. destruct (GetChannelLevels_values nQuery s2 0 Hwf2 Hc0) as (-> & _).
    apply (ChannelVolume_single _ _ _ n);
      [done|exact Hother2| |apply Qle_bool_iff; reflexivity..].
    fold (Note s2 0 n). rewrite Hnote2.
    unfold MIDIMonitor.NoteVolume, MIDIMonitor.NoteEnvelope, ComputeEnvelope.
    destruct Hctl2 as [-> ->].
    cbn [Nat.eqb nNoteOnTime nNoteOffTime nVelocity]. rewrite Ht'.
    rewrite Z.max_l by lia. unfold u32. rewrite Z.mod_small by lia.
    rewrite (Ease_half_release _ HD Hms). reflexivity.
Qed.

(** C9, as the code has it.  A Note-On of non-zero velocity arrives on
    channel 9 at a tick [t] other than 0.  With no Note-Off the off-time of
    the note is 0, and the envelope of the note at any query tick [q] from
    [t] on is ease(max(1 - elapsedMs/DecayReleaseTimeMillis, 0)) with
    elapsedMs = min(millis(q - t), DecayReleaseTimeMillis); it is 0 as soon
    as millis(q - t) reaches DecayReleaseTimeMillis. *)
Theorem Percussion_envelope (nMessage nTicks nQuery : Z) (s : CMIDIMonitor) :
  (0 < DecayReleaseTimeMillis)%Q →
  wf s →
  Status nMessage = 0x90 → Channel nMessage = 9 →
  Data1 nMessage < 128 → Data2 nMessage ≠ 0 →
  nTicks ≠ 0 →
  0 ≤ nQuery - nTicks < 2 ^ 32 →
  let ns := Note (OnShortMessage nMessage nTicks s) 9 (Z.to_nat (Data1 nMessage)) in
  let elapsedMs :=
    Utility.Min (TicksToMillis (nQuery - nTicks)) DecayReleaseTimeMillis in
  nNoteOnTime ns = nTicks
  ∧ nNoteOffTime ns = 0
  ∧ NoteEnvelope nQuery 9 ns
    = EaseFunction (Utility.Max (1 - elapsedMs / DecayReleaseTimeMillis) 0)
  ∧ ((DecayReleaseTimeMillis <= TicksToMillis (nQuery - nTicks))%Q →
     (NoteEnvelope nQuery 9 ns == 0)%Q).
Proof.
  intros HD Hwf Hst Hch Hn Hv Ht Hq ns elapsedMs.
  pose proof (Data_range nMessage 8) as Hd1. fold (Data1 nMessage) in Hd1.
  assert (Hns : ns = mkNoteState nTicks 0 (Data2 nMessage)).
  { unfold ns. rewrite OnShortMessage_NoteOn by done. rewrite Hch.
    change 9%nat with (Z.to_nat 9).
    rewrite Note_alter_note_eq by (try done; lia). reflexivity. }
  assert (Henv : NoteEnvelope nQuery 9 ns
            = EaseFunction (Utility.Max (1 - elapsedMs / DecayReleaseTimeMillis) 0)).
  { rewrite Hns. unfold MIDIMonitor.NoteEnvelope, ComputePercussionEnvelope.
    cbn [Nat.eqb nNoteOnTime]. apply Z.eqb_neq in Ht as ->.
    rewrite Z.max_l by lia. unfold u32. rewrite Z.mod_small by lia. reflexivity. }
  split; [by rewrite Hns|]. split; [by rewrite Hns|]. split; [done|].
  intros Hge. rewrite Henv. by apply Ease_released.
Qed.

End Levels.

(** ** The statements at sample values *)

Lemma GetChannelLevels_bounds_witness :
  let s := OnShortMessage (ShortMessage 0x90 60 100) 5 CMIDIMonitor_new in
  let r :=
    GetChannelLevels Sample.DecayReleaseTimeMillis Sample.PeakHoldTimeMillis
      Sample.PeakFalloffTimeMillis Sample.TicksToMillis 7 s in
  ∃ level peak : float,
    pOutLevels r !! 0%nat = Some level
    ∧ pOutPeaks r !! 0%nat = Some peak
    ∧ (0 <= level)%Q ∧ (level <= 1)%Q
    ∧ (0 <= peak)%Q ∧ (peak <= 1)%Q
    ∧ (level <= peak)%Q.
Proof.
  cbv zeta.
  apply (GetChannelLevels_bounds Sample.DecayReleaseTimeMillis
           Sample.PeakHoldTimeMillis Sample.PeakFalloffTimeMillis
           Sample.TicksToMillis).
  - apply Reachable_OnShortMessage; [reflexivity|apply Reachable_new].
  - vm_compute. lia.
Defined.

Lemma Peak_hold_and_falloff_witness :
  let s := OnShortMessage (ShortMessage 0x90 60 100) 5 CMIDIMonitor_new in
  let r :=
    GetChannelLevels Sample.DecayReleaseTimeMillis Sample.PeakHoldTimeMillis
      Sample.PeakFalloffTimeMillis Sample.TicksToMillis 2000000 s in
  let s' := OnShortMessage (ShortMessage 0xB0 123 0) 2000001 (Monitor r) in
  let rHeld :=
    GetChannelLevels Sample.DecayReleaseTimeMillis Sample.PeakHoldTimeMillis
      Sample.PeakFalloffTimeMillis Sample.TicksToMillis 2500000 s' in
  let rFall :=
    GetChannelLevels Sample.DecayReleaseTimeMillis Sample.PeakHoldTimeMillis
      Sample.PeakFalloffTimeMillis Sample.TicksToMillis 3500000 s' in
  (Peak r 0 == 10000 # 16129)%Q
  ∧ m_PeakTimes (Monitor r) !!! 0%nat = 2000000
  ∧ (Level rHeld 0 == 0)%Q
  ∧ (Peak rHeld 0 == 10000 # 16129)%Q
  ∧ (Level rFall 0 == 0)%Q
  ∧ (Peak rFall 0 == 3871 # 32258)%Q.
Proof.
  cbv zeta.
  assert (Hreach :
    Reachable Sample.DecayReleaseTimeMillis Sample.PeakHoldTimeMillis
      Sample.PeakFalloffTimeMillis Sample.TicksToMillis
      (OnShortMessage (ShortMessage 0x90 60 100) 5 CMIDIMonitor_new))
    by (apply Reachable_OnShortMessage; [reflexivity|apply Reachable_new]).
  assert (Hc : (0 < ChannelCount)%nat) by (vm_compute; lia).
  pose proof (Peak_hold_and_falloff Sample.DecayReleaseTimeMillis
                Sample.PeakHoldTimeMillis Sample.PeakFalloffTimeMillis
                Sample.TicksToMillis
                (OnShortMessage (ShortMessage 0x90 60 100) 5 CMIDIMonitor_new)
                2000000 0%nat eq_refl Hreach Hc) as H.
  cbv zeta in H. destruct H as (_ & _ & _ & Hupd & _ & Hnext).
  assert (Hle :
    (Peak (GetChannelLevels Sample.DecayReleaseTimeMillis
             Sample.PeakHoldTimeMillis Sample.PeakFalloffTimeMillis
             Sample.TicksToMillis 2000000
             (OnShortMessage (ShortMessage 0x90 60 100) 5 CMIDIMonitor_new)) 0
     <= Level (GetChannelLevels Sample.DecayReleaseTimeMillis
                 Sample.PeakHoldTimeMillis Sample.PeakFalloffTimeMillis
                 Sample.TicksToMillis 2000000
                 (OnShortMessage (ShortMessage 0x90 60 100) 5 CMIDIMonitor_new)) 0)%Q)
    by (vm_compute; discriminate).
  assert (Hmsgs : Forall (λ m : Z * Z, Data1 m.1 < 128)
                    [(ShortMessage 0xB0 123 0, 2000001)])
    by (apply Forall_singleton; reflexivity).
  destruct (Hupd Hle) as [_ HT].
  destruct (Hnext [(ShortMessage 0xB0 123 0, 2000001)] 2500000 Hmsgs Hle) as [Hheld _].
  destruct (Hnext [(ShortMessage 0xB0 123 0, 2000001)] 3500000 Hmsgs Hle) as [_ Hfall].
  cbn [fold_left fst snd] in Hheld, Hfall.
  destruct (Hheld ltac:(vm_compute; reflexivity)) as [Hheld1 _].
  pose proof (Hfall ltac:(vm_compute; discriminate)) as Hfall1.
  split; [vm_compute; reflexivity|]. split; [exact HT|].
  split; [vm_compute; reflexivity|].
  split; [eapply Qeq_trans; [exact Hheld1|vm_compute; reflexivity]|].
  split; [vm_compute; reflexivity|].
  eapply Qeq_trans; [exact Hfall1|vm_compute; reflexivity].
Defined.

(** C5, counterexample.  The scenario as it is written, with the Note-On
    and the Note-Off at tick 0: both queries report level 0 for channel 0,
    because an on-time of 0 marks a note that has not sounded. *)
Lemma Scenario_at_tick_0_is_silent :
  let s1 := OnShortMessage (ShortMessage 0x90 60 127) 0 CMIDIMonitor_new in
  let r1 :=
    GetChannelLevels Sample.DecayReleaseTimeMillis Sample.PeakHoldTimeMillis
      Sample.PeakFalloffTimeMillis Sample.TicksToMillis 0 s1 in
  let s2 := OnShortMessage (ShortMessage 0x80 60 0) 0 (Monitor r1) in
  let r2 :=
    GetChannelLevels Sample.DecayReleaseTimeMillis Sample.PeakHoldTimeMillis
      Sample.PeakFalloffTimeMillis Sample.TicksToMillis
      (Sample.MillisToTicks 500) s2 in
  nVolume (m_State s1 !!! 0%nat) = 100
  ∧ nExpression (m_State s1 !!! 0%nat) = 127
  ∧ Note s1 0 60 = mkNoteState 0 0 127
  ∧ (Level r1 0 == 0)%Q
  ∧ (Level r2 0 == 0)%Q
  ∧ ¬ (9 / 10 <= Level r1 0)%Q
  ∧ ¬ (7 / 10 <= Level r2 0)%Q.
Proof.
  cbv zeta. repeat split; try (vm_compute; reflexivity).
  - intros H. apply Qle_bool_iff in H. vm_compute in H. discriminate.
  - intros H. apply Qle_bool_iff in H. vm_compute in H. discriminate.
Qed.

Lemma Scenario_levels_witness :
  let s1 := OnShortMessage (ShortMessage 0x90 60 127) 1000 CMIDIMonitor_new in
  let r1 :=
    GetChannelLevels Sample.DecayReleaseTimeMillis Sample.PeakHoldTimeMillis
      Sample.PeakFalloffTimeMillis Sample.TicksToMillis 1000 s1 in
  let s2 := OnShortMessage (ShortMessage 0x80 60 0) 1000 (Monitor r1) in
  let r2 :=
    GetChannelLevels Sample.DecayReleaseTimeMillis Sample.PeakHoldTimeMillis
      Sample.PeakFalloffTimeMillis Sample.TicksToMillis 501000 s2 in
  (Level r1 0 == 100 / 127)%Q ∧ (Level r2 0 == (3 / 4) * (100 / 127))%Q.
Proof.
  cbv zeta.
  apply (Scenario_levels Sample.DecayReleaseTimeMillis Sample.PeakHoldTimeMillis
           Sample.PeakFalloffTimeMillis Sample.TicksToMillis
           (ShortMessage 0x90 60 127) (ShortMessage 0x80 60 0) 1000 501000).
  - reflexivity.
  - reflexivity.
  - reflexivity.
  - vm_compute. reflexivity.
  - reflexivity.
  - reflexivity.
  - reflexivity.
  - reflexivity.
  - lia.
  - lia.
  - vm_compute. reflexivity.
Defined.

(** C9, counterexample.  A Note-On on channel 9 at tick 0: queried at
    tick 0 the envelope of the note is 0, where the decay formula gives
    ease(1) = 1. *)
Lemma Percussion_NoteOn_at_tick_0_is_silent :
  let s := OnShortMessage (ShortMessage 0x99 38 100) 0 CMIDIMonitor_new in
  let envelope :=
    NoteEnvelope Sample.DecayReleaseTimeMillis Sample.TicksToMillis 0 9 (Note s 9 38) in
  let elapsedMs :=
    Utility.Min (Sample.TicksToMillis (0 - 0)) Sample.DecayReleaseTimeMillis in
  let formula :=
    EaseFunction (Utility.Max (1 - elapsedMs / Sample.DecayReleaseTimeMillis) 0) in
  Note s 9 38 = mkNoteState 0 0 100
  ∧ (envelope == 0)%Q
  ∧ (formula == 1)%Q
  ∧ ¬ (envelope == formula)%Q.
Proof.
  cbv zeta. repeat split; try (vm_compute; reflexivity).
  intros H. vm_compute in H. discriminate.
Qed.

Lemma Percussion_envelope_witness :
  let ns := Note (OnShortMessage (ShortMessage 0x99 38 100) 1000 CMIDIMonitor_new) 9 38 in
  (NoteEnvelope Sample.DecayReleaseTimeMillis Sample.TicksToMillis 2001000 9 ns == 0)%Q.
Proof.
  cbv zeta.
  refine (proj2 (proj2 (proj2
    (Percussion_envelope Sample.DecayReleaseTimeMillis Sample.TicksToMillis
       (ShortMessage 0x99 38 100) 1000 2001000 CMIDIMonitor_new
       _ _ _ _ _ _ _ _))) _).
  - reflexivity.
  - apply (bool_decide_unpack _). vm_compute. reflexivity.
  - reflexivity.
  - reflexivity.
  - vm_compute. reflexivity.
  - vm_compute. discriminate.
  - lia.
  - lia.
  - vm_compute. discriminate.
Defined.

End MonitorLevels.

(** * Properties of the overlay state machine *)

Module OverlayMachine.

Import LCD UserInterface.

(** The state and the entry tick after the two triggers. *)
Lemma ShowSystemMessage_state pMessage bSpinner nTicks ui :
  m_State (ShowSystemMessage pMessage bSpinner nTicks ui)
  = (if bSpinner then TState.DisplayingSpinnerMessage else TState.DisplayingMessage)
  ∧ m_nStateTime (ShowSystemMessage pMessage bSpinner nTicks ui) = nTicks.
Proof. by destruct bSpinner. Qed.

Lemma DisplayImage_state Image nTicks ui :
  m_State (DisplayImage Image nTicks ui) = TState.DisplayingImage
  ∧ m_nStateTime (DisplayImage Image nTicks ui) = nTicks
  ∧ m_CurrentImage (DisplayImage Image nTicks ui) = Image.
Proof. done. Qed.

(** Drawing the overlay leaves the backlight alone. *)
Lemma DrawSystemState_backlight ui lcd :
  bBacklightEnabled (DrawSystemState ui lcd) = bBacklightEnabled lcd.
Proof.
  unfold DrawSystemState. repeat case_match; reflexivity.
Qed.

Section Machine.

Variable MillisToTicks : Z → Z.

Local Abbreviation UpdateState := (UserInterface.UpdateState MillisToTicks).
Local Abbreviation Update := (UserInterface.Update MillisToTicks).

(** [Update] draws after the time-outs and does not change the state
    again. *)
Lemma Update_state lcd nTicks ui :
  (Update lcd nTicks ui).1 = (UpdateState lcd nTicks ui).1.
Proof.
  unfold UserInterface.Update. destruct (UpdateState lcd nTicks ui) as [ui' lcd'].
  by case_bool_decide.
Qed.

Lemma Update_backlight lcd nTicks ui :
  bBacklightEnabled (Update lcd nTicks ui).2
  = bBacklightEnabled (UpdateState lcd nTicks ui).2.
Proof.
  unfold UserInterface.Update. destruct (UpdateState lcd nTicks ui) as [ui' lcd'].
  case_bool_decide; [apply DrawSystemState_backlight|done].
Qed.

(** The time-out of a plain message. *)
Lemma UpdateState_message lcd nTicks ui :
  m_State ui = TState.DisplayingMessage →
  MillisToTicks SystemMessageDisplayTimeMillis ≤ u32 (nTicks - m_nStateTime ui) →
  m_State (UpdateState lcd nTicks ui).1 = TState.None.
Proof.
  intros Hst Hle. unfold UserInterface.UpdateState. rewrite Hst.
  rewrite bool_decide_eq_true_2 by done.
  apply Z.leb_le in Hle. by rewrite Hle.
Qed.

(** No time-out leaves the spinner state; only the frame advances. *)
Lemma UpdateState_spinner lcd nTicks ui :
  m_State ui = TState.DisplayingSpinnerMessage →
  m_State (UpdateState lcd nTicks ui).1 = TState.DisplayingSpinnerMessage.
Proof.
  intros Hst. unfold UserInterface.UpdateState. rewrite Hst.
  rewrite (bool_decide_eq_false_2 (TState.DisplayingSpinnerMessage = TState.DisplayingMessage))
    by done.
  rewrite (bool_decide_eq_true_2 (TState.DisplayingSpinnerMessage = TState.DisplayingSpinnerMessage))
    by done.
  rewrite (bool_decide_eq_false_2 (TState.DisplayingSpinnerMessage = TState.DisplayingImage))
    by done.
  rewrite (bool_decide_eq_false_2 (TState.DisplayingSpinnerMessage = TState.EnteringPowerSavingMode))
    by done.
  cbn [andb]. by destruct (_ <=? _).
Qed.

(** Only the power-saving time-out touches the backlight. *)
Lemma UpdateState_backlight lcd nTicks ui :
  m_State ui ≠ TState.EnteringPowerSavingMode →
  bBacklightEnabled (UpdateState lcd nTicks ui).2 = bBacklightEnabled lcd.
Proof.
  intros Hst. unfold UserInterface.UpdateState.
  rewrite (bool_decide_eq_false_2 (m_State ui = TState.EnteringPowerSavingMode)) by done.
  cbn [andb]. repeat case_match; reflexivity.
Qed.

(** C4, as the code has it.  After [ShowSystemMessage] without a spinner
    (state [DisplayingMessage]) an [Update] whose tick is at least
    [SystemMessageDisplayTimeMillis] past the entry tick returns the state
    to [None].  After [ShowSystemMessage] with a spinner an [Update] leaves
    the state [DisplayingSpinnerMessage] at that tick and at any other: the
    spinner state has no time-out. *)
Theorem Update_message_timeout (pMessage : string) (nNow nTicks : Z)
    (lcd : CLCD) (ui : CUserInterface) :
  MillisToTicks SystemMessageDisplayTimeMillis ≤ u32 (nTicks - nNow) →
  m_State (Update lcd nTicks (ShowSystemMessage pMessage false nNow ui)).1
  = TState.None
  ∧ m_State (Update lcd nTicks (ShowSystemMessage pMessage true nNow ui)).1
    = TState.DisplayingSpinnerMessage
  ∧ ∀ nTicks' : Z,
      m_State (Update lcd nTicks' (ShowSystemMessage pMessage true nNow ui)).1
      = TState.DisplayingSpinnerMessage.
Proof.
  intros Hle. split; [|split].
  - rewrite Update_state. by apply UpdateState_message.
  - rewrite Update_state. by apply UpdateState_spinner.
  - intros nTicks'. rewrite Update_state. by apply UpdateState_spinner.
Qed.

(** C10.  Whatever the overlay state, power saving included,
    [ShowSystemMessage] sets it to [DisplayingMessage] or, with a spinner, to
    [DisplayingSpinnerMessage], and [DisplayImage] sets it to
    [DisplayingImage]; both set the state-entry tick to the current tick and
    leave the display, its backlight included, as it is.  The [Update] that
    follows draws the overlay and does not switch the backlight either. *)
Theorem Triggers_unconditional (d : TDevice) (pMessage : string)
    (bSpinner : bool) (Image : TImage) (nNow nTicks : Z) :
  let dMessage := Device_ShowSystemMessage pMessage bSpinner nNow d in
  let dImage := Device_DisplayImage Image nNow d in
  m_State (UI dMessage)
  = (if bSpinner then TState.DisplayingSpinnerMessage else TState.DisplayingMessage)
  ∧ m_nStateTime (UI dMessage) = nNow
  ∧ Display dMessage = Display d
  ∧ m_State (UI dImage) = TState.DisplayingImage
  ∧ m_nStateTime (UI dImage) = nNow
  ∧ m_CurrentImage (UI dImage) = Image
  ∧ Display dImage = Display d
  ∧ bBacklightEnabled (Display (Device_Update MillisToTicks nTicks dMessage))
    = bBacklightEnabled (Display d)
  ∧ bBacklightEnabled (Display (Device_Update MillisToTicks nTicks dImage))
    = bBacklightEnabled (Display d).
Proof.
  intros dMessage dImage.
  assert (Hupd : ∀ d', Display (Device_Update MillisToTicks nTicks d')
                       = (Update (Display d') nTicks (UI d')).2).
  { intros d'. unfold Device_Update. by destruct (Update _ _ _). }
  repeat split; try (by destruct bSpinner).
  - rewrite Hupd, Update_backlight. apply UpdateState_backlight.
    unfold dMessage. cbn [UI Device_ShowSystemMessage]. by destruct bSpinner.
  - rewrite Hupd, Update_backlight. by apply UpdateState_backlight.
Qed.

End Machine.

(** C4, counterexample.  A spinner message is shown at tick 0; the
    [Update] at 3000 ms, the display time of a message, leaves the state
    [DisplayingSpinnerMessage]. *)
Lemma Spinner_message_does_not_time_out :
  let ui := ShowSystemMessage "Loading" true 0 CUserInterface_new in
  let nTicks := Sample.MillisToTicks SystemMessageDisplayTimeMillis in
  m_State ui = TState.DisplayingSpinnerMessage
  ∧ Sample.MillisToTicks SystemMessageDisplayTimeMillis ≤ u32 (nTicks - m_nStateTime ui)
  ∧ m_State (Update Sample.MillisToTicks Sample.SampleLCD nTicks ui).1
    = TState.DisplayingSpinnerMessage
  ∧ m_State (Update Sample.MillisToTicks Sample.SampleLCD nTicks ui).1 ≠ TState.None.
Proof.
  cbv zeta. repeat split; try (vm_compute; congruence).
Qed.

Lemma Update_message_timeout_witness :
  m_State (Update Sample.MillisToTicks Sample.SampleLCD 3000005
             (ShowSystemMessage "Ready" false 5 CUserInterface_new)).1
  = TState.None
  ∧ m_State (Update Sample.MillisToTicks Sample.SampleLCD 3000005
               (ShowSystemMessage "Ready" true 5 CUserInterface_new)).1
    = TState.DisplayingSpinnerMessage
  ∧ ∀ nTicks' : Z,
      m_State (Update Sample.MillisToTicks Sample.SampleLCD nTicks'
                 (ShowSystemMessage "Ready" true 5 CUserInterface_new)).1
      = TState.DisplayingSpinnerMessage.
Proof.
  apply (Update_message_timeout Sample.MillisToTicks "Ready" 5 3000005
           Sample.SampleLCD CUserInterface_new).
  vm_compute. discriminate.
Defined.

End OverlayMachine.

(** * Further properties of the message handler *)

Module MessageEffects.

Import MIDIMonitor MonitorMessages.

(** A channel read back after [alter_channel]. *)
Lemma alter_channel_lookup f (c : Z) s (c' : nat) :
  m_State (alter_channel f c s) !!! c' =
    if decide (Z.to_nat c = c' ∧ (Z.to_nat c < length (m_State s))%nat)
    then f (m_State s !!! c') else m_State s !!! c'.
Proof.
  unfold alter_channel. cbn [m_State set_m_State].
  rewrite list_lookup_total_alter.
  destruct (decide (Z.to_nat c = c' ∧ _)) as [[<- Hc]|Hc]; done.
Qed.

Lemma Channel_in_range m s : wf s → (Z.to_nat (Channel m) < length (m_State s))%nat.
Proof.
  intros (Hlen & _). pose proof (Channel_range m). rewrite Hlen.
  unfold ChannelCount. lia.
Qed.

(** The notes of every channel after [alter_channel], for an [f] that keeps
    them. *)
Lemma alter_channel_Note f (c : Z) s (c' n' : nat) :
  (∀ ch, Notes (f ch) = Notes ch) →
  Note (alter_channel f c s) c' n' = Note s c' n'.
Proof.
  intros Hf. unfold Note. rewrite alter_channel_lookup.
  case_decide; by rewrite ?Hf.
Qed.

(** The effect of a note message on the addressed note and on the rest of
    the monitor. *)
Lemma alter_note_effect f (m : Z) s :
  wf s → Data1 m < 128 →
  let c := Z.to_nat (Channel m) in
  let n := Z.to_nat (Data1 m) in
  let s' := alter_note f (Channel m) (Data1 m) s in
  Note s' c n = f (Note s c n)
  ∧ (∀ c' n' : nat, (c', n') ≠ (c, n) → Note s' c' n' = Note s c' n')
  ∧ (∀ c' : nat,
       nVolume (m_State s' !!! c') = nVolume (m_State s !!! c')
       ∧ nExpression (m_State s' !!! c') = nExpression (m_State s !!! c')
       ∧ nPan (m_State s' !!! c') = nPan (m_State s !!! c'))
  ∧ m_PeakLevels s' = m_PeakLevels s
  ∧ m_PeakTimes s' = m_PeakTimes s.
Proof.
  intros Hwf Hn c n s'.
  pose proof (Data_range m 8) as Hd1. fold (Data1 m) in Hd1.
  split; [|split; [|split; [|done]]].
  - apply Note_alter_note_eq; [done|apply Channel_range|lia].
  - intros c' n' Hne. unfold s'. rewrite Note_alter_note.
    repeat case_decide; try done.
    exfalso. apply Hne. unfold c, n.
    repeat match goal with H : _ = _ ∧ _ |- _ => destruct H as [<- _] end.
    reflexivity.
  - intros c'. apply MonitorLevels.alter_note_controllers.
Qed.

(** X1.  A Note-On of non-zero velocity for a note number below 128 sets
    the addressed note to on-time = the current tick, off-time = 0 and
    velocity = the data byte, and changes nothing else: every other note of
    every channel, the volume, expression and pan of every channel and the
    peak arrays are as before. *)
Theorem NoteOn_sets_one_note (nMessage nTicks : Z) (s : CMIDIMonitor) :
  wf s →
  Status nMessage = 0x90 → Data2 nMessage ≠ 0 → Data1 nMessage < 128 →
  let c := Z.to_nat (Channel nMessage) in
  let n := Z.to_nat (Data1 nMessage) in
  let s' := OnShortMessage nMessage nTicks s in
  Note s' c n = mkNoteState nTicks 0 (Data2 nMessage)
  ∧ (∀ c' n' : nat, (c', n') ≠ (c, n) → Note s' c' n' = Note s c' n')
  ∧ (∀ c' : nat,
       nVolume (m_State s' !!! c') = nVolume (m_State s !!! c')
       ∧ nExpression (m_State s' !!! c') = nExpression (m_State s !!! c')
       ∧ nPan (m_State s' !!! c') = nPan (m_State s !!! c'))
  ∧ m_PeakLevels s' = m_PeakLevels s
  ∧ m_PeakTimes s' = m_PeakTimes s.
Proof.
  intros Hwf Hst Hv Hn c n s'. unfold s'.
  rewrite OnShortMessage_NoteOn by done.
  exact (alter_note_effect _ nMessage s Hwf Hn).
Qed.

Lemma NoteOn_sets_one_note_witness :
  let s := OnShortMessage (ShortMessage 0x93 61 90) 4 CMIDIMonitor_new in
  let s' := OnShortMessage (ShortMessage 0x93 60 100) 5 s in
  Note s' 3 60 = mkNoteState 5 0 100 ∧ Note s' 3 61 = Note s 3 61.
Proof.
  cbv zeta.
  pose proof (NoteOn_sets_one_note (ShortMessage 0x93 60 100) 5
                (OnShortMessage (ShortMessage 0x93 61 90) 4 CMIDIMonitor_new))
    as H.
  cbv zeta in H. destruct H as (H1 & H2 & _).
  - apply (bool_decide_unpack _). vm_compute. reflexivity.
  - reflexivity.
  - vm_compute. discriminate.
  - vm_compute. reflexivity.
  - split; [exact H1|]. apply (H2 3%nat 61%nat). vm_compute. discriminate.
Defined.

(** X2.  A Note-Off for a note number below 128 sets the off-time of the
    addressed note to the current tick and keeps its on-time and velocity,
    whether the note has sounded or not; every other note, the controllers
    of every channel and the peak arrays are as before. *)
Theorem NoteOff_sets_off_time_only (nMessage nTicks : Z) (s : CMIDIMonitor) :
  wf s →
  Status nMessage = 0x80 → Data1 nMessage < 128 →
  let c := Z.to_nat (Channel nMessage) in
  let n := Z.to_nat (Data1 nMessage) in
  let s' := OnShortMessage nMessage nTicks s in
  Note s' c n
  = mkNoteState (nNoteOnTime (Note s c n)) nTicks (nVelocity (Note s c n))
  ∧ (∀ c' n' : nat, (c', n') ≠ (c, n) → Note s' c' n' = Note s c' n')
  ∧ (∀ c' : nat,
       nVolume (m_State s' !!! c') = nVolume (m_State s !!! c')
       ∧ nExpression (m_State s' !!! c') = nExpression (m_State s !!! c')
       ∧ nPan (m_State s' !!! c') = nPan (m_State s !!! c'))
  ∧ m_PeakLevels s' = m_PeakLevels s
  ∧ m_PeakTimes s' = m_PeakTimes s.
Proof.
  intros Hwf Hst Hn c n s'. unfold s'.
  rewrite OnShortMessage_NoteOff by done.
  exact (alter_note_effect _ nMessage s Hwf Hn).
Qed.

Lemma NoteOff_sets_off_time_only_witness :
  let s := OnShortMessage (ShortMessage 0x93 60 100) 5 CMIDIMonitor_new in
  Note (OnShortMessage (ShortMessage 0x83 60 0) 9 s) 3 60 = mkNoteState 5 9 100.
Proof.
  cbv zeta.
  refine (proj1 (NoteOff_sets_off_time_only (ShortMessage 0x83 60 0) 9
            (OnShortMessage (ShortMessage 0x93 60 100) 5 CMIDIMonitor_new)
            _ _ _)).
  - apply (bool_decide_unpack _). vm_compute. reflexivity.
  - reflexivity.
  - vm_compute. reflexivity.
Defined.

(** X3.  A Control Change with controller 7, 10 or 11 stores the data byte
    as the volume, the pan or the expression of the addressed channel and
    keeps the other two; the other channels, every note and the peak arrays
    are as before. *)
Theorem ControlChange_sets_one_controller (nMessage nTicks : Z) (s : CMIDIMonitor) :
  wf s →
  Status nMessage = 0xB0 → Data1 nMessage ∈ [7; 10; 11] →
  let c := Z.to_nat (Channel nMessage) in
  let s' := OnShortMessage nMessage nTicks s in
  nVolume (m_State s' !!! c)
  = (if Data1 nMessage =? 7 then Data2 nMessage else nVolume (m_State s !!! c))
  ∧ nPan (m_State s' !!! c)
    = (if Data1 nMessage =? 10 then Data2 nMessage else nPan (m_State s !!! c))
  ∧ nExpression (m_State s' !!! c)
    = (if Data1 nMessage =? 11 then Data2 nMessage
       else nExpression (m_State s !!! c))
  ∧ (∀ c' : nat, c' ≠ c → m_State s' !!! c' = m_State s !!! c')
  ∧ (∀ c' n' : nat, Note s' c' n' = Note s c' n')
  ∧ m_PeakLevels s' = m_PeakLevels s
  ∧ m_PeakTimes s' = m_PeakTimes s.
Proof.
  intros Hwf Hst Hcc c s'.
  pose proof (Channel_in_range nMessage s Hwf) as Hc.
  assert (Hs' : ∃ f,
            s' = alter_channel f (Channel nMessage) s
            ∧ (∀ ch, Notes (f ch) = Notes ch)
            ∧ (∀ ch, nVolume (f ch)
                     = if Data1 nMessage =? 7 then Data2 nMessage else nVolume ch)
            ∧ (∀ ch, nPan (f ch)
                     = if Data1 nMessage =? 10 then Data2 nMessage else nPan ch)
            ∧ (∀ ch, nExpression (f ch)
                     = if Data1 nMessage =? 11 then Data2 nMessage
                       else nExpression ch)).
  { unfold s', OnShortMessage. unfold Status in Hst. rewrite Hst.
    cbn [Z.eqb Pos.eqb]. fold (Channel nMessage) (Data1 nMessage) (Data2 nMessage).
    unfold ProcessCC.
    repeat (apply elem_of_cons in Hcc as [->|Hcc]);
      [| | |by apply elem_of_nil in Hcc];
      eexists; (split; [reflexivity|]); done. }
  destruct Hs' as (f & -> & HN & HV & HP & HE).
  repeat split.
  - rewrite alter_channel_lookup, decide_True by done. apply HV.
  - rewrite alter_channel_lookup, decide_True by done. apply HP.
  - rewrite alter_channel_lookup, decide_True by done. apply HE.
  - intros c' Hne. rewrite alter_channel_lookup, decide_False; [done|].
    intros [? _]. by apply Hne.
  - intros c' n'. by apply alter_channel_Note.
Qed.

Lemma ControlChange_sets_one_controller_witness :
  let s' := OnShortMessage (ShortMessage 0xB2 10 17) 5 CMIDIMonitor_new in
  nVolume (m_State s' !!! 2%nat) = 100
  ∧ nPan (m_State s' !!! 2%nat) = 17
  ∧ nExpression (m_State s' !!! 2%nat) = 127.
Proof.
  cbv zeta.
  pose proof (ControlChange_sets_one_controller (ShortMessage 0xB2 10 17) 5
                CMIDIMonitor_new) as H.
  cbv zeta in H. destruct H as (H1 & H2 & H3 & _).
  - apply (bool_decide_unpack _). vm_compute. reflexivity.
  - reflexivity.
  - apply (bool_decide_unpack _). vm_compute. reflexivity.
  - split; [exact H1|]. split; [exact H2|exact H3].
Defined.

(** X4.  A message is ignored, the monitor being left exactly as it is,
    when its status is none of Note-Off, Note-On and Control Change (System
    Reset [0xFF] included), and when it is a Control Change whose controller
    is none of 7, 10, 11, 120, 121 and 123 to 127. *)
Theorem Other_messages_ignored (nMessage nTicks : Z) (s : CMIDIMonitor) :
  Status nMessage ∉ [0x80; 0x90; 0xB0]
  ∨ (Status nMessage = 0xB0
     ∧ Data1 nMessage ∉ [7; 10; 11; 120; 121; 123; 124; 125; 126; 127]) →
  OnShortMessage nMessage nTicks s = s.
Proof.
  intros [Hst|[Hst Hcc]]; unfold OnShortMessage.
  - fold (Status nMessage).
    rewrite !not_elem_of_cons in Hst. destruct Hst as (H8 & H9 & HB & _).
    apply Z.eqb_neq in H8, H9, HB. rewrite H8, H9, HB.
    pose proof (Status_not_FF nMessage) as HF. fold (Status nMessage) in HF.
    apply Z.eqb_neq in HF. by rewrite HF.
  - fold (Status nMessage) (Data1 nMessage). rewrite Hst. cbn [Z.eqb Pos.eqb].
    rewrite !not_elem_of_cons in Hcc.
    destruct Hcc as (H1 & H2 & H3 & H4 & H5 & H6 & H7 & H8 & H9 & H10 & _).
    unfold ProcessCC.
    apply Z.eqb_neq in H1, H2, H3, H4, H5, H6, H7, H8, H9, H10.
    change 0x07 with 7. change 0x0A with 10. change 0x0B with 11.
    change 0x78 with 120. change 0x7B with 123. change 0x7C with 124.
    change 0x7D with 125. change 0x7E with 126. change 0x7F with 127.
    change 0x79 with 121.
    by rewrite H1, H2, H3, H4, H5, H6, H7, H8, H9, H10.
Qed.

Lemma Other_messages_ignored_witness :
  let s := OnShortMessage (ShortMessage 0x90 60 100) 5 CMIDIMonitor_new in
  OnShortMessage (ShortMessage 0xE0 0 64) 6 s = s
  ∧ OnShortMessage (ShortMessage 0xB0 64 127) 6 s = s.
Proof.
  cbv zeta. split.
  - apply Other_messages_ignored. left.
    apply (bool_decide_unpack _). vm_compute. reflexivity.
  - apply Other_messages_ignored. right. split; [reflexivity|].
    apply (bool_decide_unpack _). vm_compute. reflexivity.
Defined.

End MessageEffects.

(** * The shape of the envelopes *)

Module EnvelopeShape.

Import MIDIMonitor MonitorMessages.

(** X5.  [EaseFunction] maps the unit interval into itself and is
    non-decreasing on it, from [EaseFunction 0 = 0] to [EaseFunction 1 = 1]. *)
Theorem EaseFunction_unit_interval (x y : float) :
  (0 <= x)%Q → (x <= y)%Q → (y <= 1)%Q →
  (EaseFunction 0 == 0)%Q
  ∧ (0 <= EaseFunction x)%Q
  ∧ (EaseFunction x <= EaseFunction y)%Q
  ∧ (EaseFunction y <= 1)%Q
  ∧ (EaseFunction 1 == 1)%Q.
Proof.
  intros H0 Hxy H1. unfold EaseFunction.
  split; [reflexivity|]. split; [nra|]. split; [nra|]. split; [nra|reflexivity].
Qed.

Lemma EaseFunction_unit_interval_witness :
  (EaseFunction 0 == 0)%Q
  ∧ (0 <= EaseFunction (1 # 4))%Q
  ∧ (EaseFunction (1 # 4) <= EaseFunction (1 # 2))%Q
  ∧ (EaseFunction (1 # 2) <= 1)%Q
  ∧ (EaseFunction 1 == 1)%Q.
Proof.
  apply (EaseFunction_unit_interval (1 # 4) (1 # 2));
    apply Qle_bool_iff; reflexivity.
Defined.

Section Envelopes.

Variable DecayReleaseTimeMillis : float.
Variable TicksToMillis : Z → float.

Local Abbreviation ComputeEnvelope :=
  (MIDIMonitor.ComputeEnvelope DecayReleaseTimeMillis TicksToMillis).
Local Abbreviation ComputePercussionEnvelope :=
  (MIDIMonitor.ComputePercussionEnvelope DecayReleaseTimeMillis TicksToMillis).
Local Abbreviation NoteEnvelope :=
  (MIDIMonitor.NoteEnvelope DecayReleaseTimeMillis TicksToMillis).
Local Abbreviation NoteVolume :=
  (MIDIMonitor.NoteVolume DecayReleaseTimeMillis TicksToMillis).

(** The decay curve as a function of the elapsed milliseconds. *)
Local Abbreviation Curve m :=
  (EaseFunction
     (Utility.Max
        (1 - Utility.Min m DecayReleaseTimeMillis / DecayReleaseTimeMillis) 0)).

(** The argument of the ease function lies in the unit interval. *)
Lemma Curve_argument (m : float) :
  (0 < DecayReleaseTimeMillis)%Q → (0 <= m)%Q →
  (0 <= Utility.Max
          (1 - Utility.Min m DecayReleaseTimeMillis / DecayReleaseTimeMillis) 0)%Q
  ∧ (Utility.Max
       (1 - Utility.Min m DecayReleaseTimeMillis / DecayReleaseTimeMillis) 0
     <= 1)%Q.
Proof.
  intros HD Hm.
  assert (Hmin : (0 <= Utility.Min m DecayReleaseTimeMillis)%Q).
  { unfold Utility.Min. destruct (Qlt_le_dec _ _); lra. }
  pose proof (MonitorLevels.Qdiv_nonneg _ _ Hmin HD) as Hq.
  revert Hq. generalize (Utility.Min m DecayReleaseTimeMillis / DecayReleaseTimeMillis)%Q.
  intros d Hd. unfold Utility.Max. destruct (Qlt_le_dec _ _); split; lra.
Qed.

Lemma Curve_range (m : float) :
  (0 < DecayReleaseTimeMillis)%Q → (0 <= m)%Q →
  (0 <= Curve m)%Q ∧ (Curve m <= 1)%Q.
Proof.
  intros HD Hm. destruct (Curve_argument m HD Hm) as [H0 H1].
  revert H0 H1.
  generalize (Utility.Max
                (1 - Utility.Min m DecayReleaseTimeMillis / DecayReleaseTimeMillis) 0).
  intros x H0 H1. unfold EaseFunction. split; nra.
Qed.

(** More elapsed time, less envelope. *)
Lemma Curve_antitone (m1 m2 : float) :
  (0 < DecayReleaseTimeMillis)%Q → (0 <= m1)%Q → (m1 <= m2)%Q →
  (Curve m2 <= Curve m1)%Q.
Proof.
  intros HD Hm1 Hm12.
  destruct (Curve_argument m1 HD Hm1) as [H10 H11].
  destruct (Curve_argument m2 HD ltac:(lra)) as [H20 H21].
  assert (Hle : (Utility.Max
                   (1 - Utility.Min m2 DecayReleaseTimeMillis / DecayReleaseTimeMillis) 0
                 <= Utility.Max
                      (1 - Utility.Min m1 DecayReleaseTimeMillis / DecayReleaseTimeMillis) 0)%Q).
  { assert (Hmin : (Utility.Min m1 DecayReleaseTimeMillis
                    <= Utility.Min m2 DecayReleaseTimeMillis)%Q).
    { unfold Utility.Min. repeat destruct (Qlt_le_dec _ _); lra. }
    assert (Hinv : (0 <= / DecayReleaseTimeMillis)%Q)
      by (apply Qlt_le_weak; by apply Qinv_lt_0_compat).
    pose proof (Qmult_le_compat_r _ _ _ Hmin Hinv) as Hq.
    unfold Qdiv. revert Hq.
    generalize (Utility.Min m1 DecayReleaseTimeMillis * / DecayReleaseTimeMillis)%Q.
    generalize (Utility.Min m2 DecayReleaseTimeMillis * / DecayReleaseTimeMillis)%Q.
    intros d2 d1 Hd. unfold Utility.Max. repeat destruct (Qlt_le_dec _ _); lra. }
  revert H10 H11 H20 H21 Hle.
  generalize (Utility.Max
                (1 - Utility.Min m1 DecayReleaseTimeMillis / DecayReleaseTimeMillis) 0).
  generalize (Utility.Max
                (1 - Utility.Min m2 DecayReleaseTimeMillis / DecayReleaseTimeMillis) 0).
  intros x2 x1 H10 H11 H20 H21 Hle. unfold EaseFunction. nra.
Qed.

(** X6.  For a positive release time and a tick conversion that gives no
    negative duration for a tick difference that is not negative, both
    envelopes of every note state lie in [[0, 1]] at every query tick. *)
Theorem Envelope_range (nTicks : Z) (NoteState : TNoteState) :
  (0 < DecayReleaseTimeMillis)%Q →
  (∀ nDelta : Z, 0 ≤ nDelta → (0 <= TicksToMillis nDelta)%Q) →
  ((0 <= ComputeEnvelope nTicks NoteState)%Q
   ∧ (ComputeEnvelope nTicks NoteState <= 1)%Q)
  ∧ ((0 <= ComputePercussionEnvelope nTicks NoteState)%Q
     ∧ (ComputePercussionEnvelope nTicks NoteState <= 1)%Q).
Proof.
  intros HD HT.
  assert (HT' : ∀ z, (0 <= TicksToMillis (u32 z))%Q).
  { intros z. apply HT. unfold u32. apply Z.mod_pos_bound. lia. }
  unfold MIDIMonitor.ComputeEnvelope, MIDIMonitor.ComputePercussionEnvelope.
  destruct (nNoteOnTime NoteState =? 0); [repeat split; lra|].
  split.
  - destruct (nNoteOffTime NoteState =? 0); [split; lra|].
    by apply Curve_range.
  - by apply Curve_range.
Qed.

(** X7.  Ticks in their order of time, within the 32-bit range: the note
    was switched on at or before it was switched off, and two queries come
    after that.  For a positive release time and a monotone tick conversion
    the later query gives the smaller or equal envelope, for the release of
    a melodic note as for the decay of a percussion note. *)
Theorem Envelope_non_increasing (NoteState : TNoteState) (nTicks1 nTicks2 : Z) :
  (0 < DecayReleaseTimeMillis)%Q →
  (∀ a b : Z, 0 ≤ a → a ≤ b →
     (0 <= TicksToMillis a)%Q ∧ (TicksToMillis a <= TicksToMillis b)%Q) →
  0 ≤ nNoteOnTime NoteState →
  nNoteOnTime NoteState ≤ nNoteOffTime NoteState →
  nNoteOffTime NoteState ≤ nTicks1 →
  nTicks1 ≤ nTicks2 →
  nTicks2 < 2 ^ 32 →
  (ComputeEnvelope nTicks2 NoteState <= ComputeEnvelope nTicks1 NoteState)%Q
  ∧ (ComputePercussionEnvelope nTicks2 NoteState
     <= ComputePercussionEnvelope nTicks1 NoteState)%Q.
Proof.
  intros HD HT Hon Honoff Hoff H12 H2.
  unfold MIDIMonitor.ComputeEnvelope, MIDIMonitor.ComputePercussionEnvelope.
  destruct (nNoteOnTime NoteState =? 0); [split; lra|].
  rewrite !Z.max_l by lia. unfold u32. rewrite !Z.mod_small by lia.
  split.
  - destruct (nNoteOffTime NoteState =? 0); [lra|].
    destruct (HT (nTicks1 - nNoteOffTime NoteState)
                 (nTicks2 - nNoteOffTime NoteState)) as [H0 Hle]; [lia..|].
    by apply Curve_antitone.
  - destruct (HT (nTicks1 - nNoteOnTime NoteState)
                 (nTicks2 - nNoteOnTime NoteState)) as [H0 Hle]; [lia..|].
    by apply Curve_antitone.
Qed.

(** X8.  After a Note-On of non-zero velocity at a tick other than 0 on a
    channel other than the percussion channel, and until another message
    addresses the note, its envelope is 1 at every query tick, earlier ticks
    included, so that it contributes velocity/127 * volume/127 *
    expression/127 to the level of its channel: a held note does not
    decay. *)
Theorem Held_note_does_not_decay (nMessage nTicks nQuery : Z) (s : CMIDIMonitor) :
  wf s →
  Status nMessage = 0x90 → Data2 nMessage ≠ 0 → Data1 nMessage < 128 →
  Channel nMessage ≠ 9 →
  nTicks ≠ 0 →
  let c := Z.to_nat (Channel nMessage) in
  let n := Z.to_nat (Data1 nMessage) in
  let s' := OnShortMessage nMessage nTicks s in
  NoteEnvelope nQuery c (Note s' c n) = 1%Q
  ∧ (NoteVolume nQuery c (m_State s' !!! c) (Note s' c n)
     == inject_Z (Data2 nMessage) / 127
        * (inject_Z (nVolume (m_State s !!! c)) / 127)
        * (inject_Z (nExpression (m_State s !!! c)) / 127))%Q.
Proof.
  intros Hwf Hst Hv Hn Hch Ht c n s'.
  pose proof (Channel_range nMessage) as Hc.
  assert (Hnote : Note s' c n = mkNoteState nTicks 0 (Data2 nMessage)).
  { unfold s'. rewrite OnShortMessage_NoteOn by done.
    pose proof (Data_range nMessage 8) as Hd1. fold (Data1 nMessage) in Hd1.
    unfold c, n. rewrite Note_alter_note_eq by (try done; lia). reflexivity. }
  assert (Hctl : nVolume (m_State s' !!! c) = nVolume (m_State s !!! c)
                 ∧ nExpression (m_State s' !!! c) = nExpression (m_State s !!! c)).
  { unfold s'. rewrite OnShortMessage_NoteOn by done.
    destruct (MonitorLevels.alter_note_controllers
                (λ Note, set_nVelocity (Data2 nMessage)
                           (set_nNoteOffTime 0 (set_nNoteOnTime nTicks Note)))
                (Channel nMessage) (Data1 nMessage) s c) as (-> & -> & _).
    done. }
  assert (Henv : NoteEnvelope nQuery c (Note s' c n) = 1%Q).
  { rewrite Hnote. unfold MIDIMonitor.NoteEnvelope, MIDIMonitor.ComputeEnvelope.
    assert (Hc9 : Nat.eqb c 9 = false) by (apply Nat.eqb_neq; unfold c; lia).
    rewrite Hc9. cbn [nNoteOnTime nNoteOffTime].
    apply Z.eqb_neq in Ht. by rewrite Ht. }
  split; [done|].
  unfold MIDIMonitor.NoteVolume. rewrite Henv.
  destruct Hctl as [-> ->]. rewrite Hnote. cbn [nVelocity]. ring.
Qed.

End Envelopes.

Lemma Sample_TicksToMillis_monotone (a b : Z) :
  0 ≤ a → a ≤ b →
  (0 <= Sample.TicksToMillis a)%Q
  ∧ (Sample.TicksToMillis a <= Sample.TicksToMillis b)%Q.
Proof.
  intros Ha Hab. unfold Sample.TicksToMillis. split.
  - change 0%Q with (inject_Z 0). rewrite <- Zle_Qle. apply Z.div_pos; lia.
  - rewrite <- Zle_Qle. apply Z.div_le_mono; lia.
Qed.

Lemma Envelope_range_witness :
  ((0 <= ComputeEnvelope Sample.DecayReleaseTimeMillis Sample.TicksToMillis 700000
           (mkNoteState 5 9 100))%Q
   ∧ (ComputeEnvelope Sample.DecayReleaseTimeMillis Sample.TicksToMillis 700000
        (mkNoteState 5 9 100) <= 1)%Q)
  ∧ ((0 <= ComputePercussionEnvelope Sample.DecayReleaseTimeMillis
             Sample.TicksToMillis 700000 (mkNoteState 5 9 100))%Q
     ∧ (ComputePercussionEnvelope Sample.DecayReleaseTimeMillis
          Sample.TicksToMillis 700000 (mkNoteState 5 9 100) <= 1)%Q).
Proof.
  apply (Envelope_range Sample.DecayReleaseTimeMillis Sample.TicksToMillis).
  - reflexivity.
  - intros nDelta H. by apply (Sample_TicksToMillis_monotone nDelta nDelta).
Defined.

Lemma Envelope_non_increasing_witness :
  (ComputeEnvelope Sample.DecayReleaseTimeMillis Sample.TicksToMillis 700000
     (mkNoteState 5 9 100)
   <= ComputeEnvelope Sample.DecayReleaseTimeMillis Sample.TicksToMillis 300000
        (mkNoteState 5 9 100))%Q
  ∧ (ComputePercussionEnvelope Sample.DecayReleaseTimeMillis Sample.TicksToMillis
       700000 (mkNoteState 5 9 100)
     <= ComputePercussionEnvelope Sample.DecayReleaseTimeMillis
          Sample.TicksToMillis 300000 (mkNoteState 5 9 100))%Q.
Proof.
  apply (Envelope_non_increasing Sample.DecayReleaseTimeMillis
           Sample.TicksToMillis (mkNoteState 5 9 100) 300000 700000).
  - reflexivity.
  - exact Sample_TicksToMillis_monotone.
  - simpl. lia.
  - simpl. lia.
  - simpl. lia.
  - lia.
  - lia.
Defined.

Lemma Held_note_does_not_decay_witness :
  let s' := OnShortMessage (ShortMessage 0x93 60 100) 5 CMIDIMonitor_new in
  NoteEnvelope Sample.DecayReleaseTimeMillis Sample.TicksToMillis 9000000 3
    (Note s' 3 60) = 1%Q.
Proof.
  cbv zeta.
  refine (proj1 (Held_note_does_not_decay Sample.DecayReleaseTimeMillis
            Sample.TicksToMillis (ShortMessage 0x93 60 100) 5 9000000
            CMIDIMonitor_new _ _ _ _ _ _)).
  - apply (bool_decide_unpack _). vm_compute. reflexivity.
  - reflexivity.
  - vm_compute. discriminate.
  - vm_compute. reflexivity.
  - vm_compute. discriminate.
  - lia.
Defined.

End EnvelopeShape.

(** * Further properties of the level query *)

Module LevelQuery.

Import MIDIMonitor MonitorMessages MonitorLevels.

(** The running maximum is the start value or one of the values met. *)
Lemma fold_Max_attained (g : nat → float) (l : list nat) (a : float) :
  fold_left (λ v i, Utility.Max v (g i)) l a = a
  ∨ ∃ i, i ∈ l ∧ fold_left (λ v i, Utility.Max v (g i)) l a = g i.
Proof.
  revert a. induction l as [|j l IH]; intros a; cbn [fold_left]; [by left|].
  destruct (IH (Utility.Max a (g j))) as [H|(i & Hi & H)].
  - rewrite H. unfold Utility.Max. destruct (Qlt_le_dec _ _); [|by left].
    right. exists j. split; [apply list_elem_of_here|done].
  - right. exists i. split; [by apply list_elem_of_further|done].
Qed.

Lemma Clamp_monotone (x y : float) :
  (x <= y)%Q → (Utility.Clamp x 0 1 <= Utility.Clamp y 0 1)%Q.
Proof.
  intros H. unfold Utility.Clamp. repeat destruct (Qlt_le_dec _ _); lra.
Qed.

Section Query.

Variable DecayReleaseTimeMillis : float.
Variable PeakHoldTimeMillis : float.
Variable PeakFalloffTimeMillis : float.
Variable TicksToMillis : Z → float.

Local Abbreviation NoteVolume :=
  (MIDIMonitor.NoteVolume DecayReleaseTimeMillis TicksToMillis).
Local Abbreviation ChannelVolume :=
  (MIDIMonitor.ChannelVolume DecayReleaseTimeMillis TicksToMillis).
Local Abbreviation DecayedPeak :=
  (MIDIMonitor.DecayedPeak PeakHoldTimeMillis PeakFalloffTimeMillis TicksToMillis).
Local Abbreviation GetChannelLevels :=
  (MIDIMonitor.GetChannelLevels DecayReleaseTimeMillis PeakHoldTimeMillis
     PeakFalloffTimeMillis TicksToMillis).
Local Abbreviation Reachable :=
  (MIDIMonitor.Reachable DecayReleaseTimeMillis PeakHoldTimeMillis
     PeakFalloffTimeMillis TicksToMillis).

(** The loudness of a channel none of whose notes contributes. *)
Lemma ChannelVolume_zero q c ch :
  (∀ i : nat, (i < NoteCount)%nat → (NoteVolume q c ch (Notes ch !!! i) <= 0)%Q) →
  (ChannelVolume q c ch == 0)%Q.
Proof.
  intros Hz. unfold MIDIMonitor.ChannelVolume. cbv zeta.
  set (g := λ i : nat, NoteVolume q c ch (Notes ch !!! i)).
  change (Utility.Clamp
            (fold_left (λ v i, Utility.Max v (g i)) (seq 0 NoteCount) 0) 0 1 == 0)%Q.
  assert (Hub : (fold_left (λ v i, Utility.Max v (g i)) (seq 0 NoteCount) 0 <= 0)%Q).
  { apply fold_Max_le; [lra|]. intros i Hi. apply elem_of_seq in Hi.
    apply Hz. lia. }
  pose proof (fold_Max_ge_init g (seq 0 NoteCount) 0) as Hlb.
  rewrite Clamp_id by lra. lra.
Qed.

(** X9.  The level written for a channel is the loudest of its 128 notes,
    not their sum: it is at least the contribution of every note, limited to
    1, and it is either 0 or the contribution, limited to [[0, 1]], of one of
    the notes. *)
Theorem Level_is_loudest_note (s : CMIDIMonitor) (nTicks : Z) (nChannel : nat) :
  wf s → (nChannel < ChannelCount)%nat →
  let r := GetChannelLevels nTicks s in
  let Channel := m_State s !!! nChannel in
  (∀ nNote : nat, (nNote < NoteCount)%nat →
     (Utility.Clamp (NoteVolume nTicks nChannel Channel (Note s nChannel nNote)) 0 1
      <= Level r nChannel)%Q)
  ∧ (Level r nChannel = 0%Q
     ∨ ∃ nNote : nat, (nNote < NoteCount)%nat
         ∧ Level r nChannel
           = Utility.Clamp
               (NoteVolume nTicks nChannel Channel (Note s nChannel nNote)) 0 1).
Proof.
  intros Hwf Hc r Channel.
  destruct (GetChannelLevels_values DecayReleaseTimeMillis PeakHoldTimeMillis
              PeakFalloffTimeMillis TicksToMillis nTicks s nChannel Hwf Hc)
    as (Hlev & _).
  fold r in Hlev. rewrite Hlev.
  set (g := λ i : nat, NoteVolume nTicks nChannel Channel (Notes Channel !!! i)).
  change (ChannelVolume nTicks nChannel (m_State s !!! nChannel))
    with (Utility.Clamp
            (fold_left (λ v i, Utility.Max v (g i)) (seq 0 NoteCount) 0%Q) 0 1).
  split.
  - intros nNote Hn. apply Clamp_monotone.
    apply (fold_Max_ge g _ _ nNote). apply elem_of_seq. lia.
  - destruct (fold_Max_attained g (seq 0 NoteCount) 0%Q) as [H|(i & Hi & H)].
    + left. rewrite H. reflexivity.
    + right. exists i. apply elem_of_seq in Hi. split; [lia|].
      by rewrite H.
Qed.

(** X10.  After a Control Change with controller 120, 123, 124, 125, 126 or
    127 every channel is silent: the level written for each of the 16
    channels is 0 at every query tick, until a Note-On arrives. *)
Theorem Silence_after_AllNotesOff (nMessage nTicks nQuery : Z)
    (s : CMIDIMonitor) (nChannel : nat) :
  wf s →
  Status nMessage = 0xB0 →
  Data1 nMessage ∈ [120; 123; 124; 125; 126; 127] →
  (nChannel < ChannelCount)%nat →
  (Level (GetChannelLevels nQuery (OnShortMessage nMessage nTicks s)) nChannel
   == 0)%Q.
Proof.
  intros Hwf Hst Hcc Hc.
  assert (Hs' : OnShortMessage nMessage nTicks s = AllNotesOff s).
  { unfold OnShortMessage. unfold Status in Hst. rewrite Hst. simpl.
    by apply ProcessCC_AllNotesOff. }
  rewrite Hs'.
  destruct (GetChannelLevels_values DecayReleaseTimeMillis PeakHoldTimeMillis
              PeakFalloffTimeMillis TicksToMillis nQuery (AllNotesOff s) nChannel
              (wf_AllNotesOff s Hwf) Hc) as (-> & _).
  apply ChannelVolume_zero. intros i Hi.
  fold (Note (AllNotesOff s) nChannel i). rewrite AllNotesOff_note by done.
  rewrite NoteVolume_silent by done. lra.
Qed.

(** X11.  A channel whose volume or whose expression is 0 is silent: the
    level written for it is 0 at every query tick, whatever notes sound on
    it. *)
Theorem Muted_channel_is_silent (s : CMIDIMonitor) (nTicks : Z) (nChannel : nat) :
  wf s → (nChannel < ChannelCount)%nat →
  nVolume (m_State s !!! nChannel) = 0
  ∨ nExpression (m_State s !!! nChannel) = 0 →
  (Level (GetChannelLevels nTicks s) nChannel == 0)%Q.
Proof.
  intros Hwf Hc Hmute.
  destruct (GetChannelLevels_values DecayReleaseTimeMillis PeakHoldTimeMillis
              PeakFalloffTimeMillis TicksToMillis nTicks s nChannel Hwf Hc)
    as (-> & _).
  apply ChannelVolume_zero. intros i Hi. unfold MIDIMonitor.NoteVolume.
  assert (H0 : (inject_Z 0 / 127 == 0)%Q) by reflexivity.
  destruct Hmute as [-> | ->]; rewrite H0; apply Qle_lteq; right; ring.
Qed.

(** X12.  A query leaves the notes and the controllers as they are, and a
    second query at the same tick writes the same level and the same peak
    for every channel and leaves the stored peaks and their ticks as the
    first one left them. *)
Theorem Query_is_idempotent (s : CMIDIMonitor) (nTicks : Z) (nChannel : nat) :
  (0 < PeakFalloffTimeMillis)%Q →
  Reachable s → (nChannel < ChannelCount)%nat →
  let r := GetChannelLevels nTicks s in
  m_State (Monitor r) = m_State s
  ∧ ChannelView (GetChannelLevels nTicks (Monitor r)) nChannel
    = ChannelView r nChannel.
Proof.
  intros HF Hreach Hc r.
  destruct (Reachable_inv _ _ _ _ s Hreach) as [Hwf Hpk].
  destruct (GetChannelLevels_frame DecayReleaseTimeMillis PeakHoldTimeMillis
              PeakFalloffTimeMillis TicksToMillis nTicks s Hwf) as (_ & Hst & _).
  fold r in Hst. split; [done|].
  assert (Hwf' : wf (Monitor r)) by (by apply wf_GetChannelLevels).
  rewrite (GetChannelLevels_channel _ _ _ _ nTicks (Monitor r) nChannel Hwf' Hc).
  unfold r at 2.
  rewrite (GetChannelLevels_channel _ _ _ _ nTicks s nChannel Hwf Hc).
  destruct (GetChannelLevels_values DecayReleaseTimeMillis PeakHoldTimeMillis
              PeakFalloffTimeMillis TicksToMillis nTicks s nChannel Hwf Hc)
    as (_ & _ & HP & HT).
  fold r in HP, HT.
  unfold MIDIMonitor.ChannelResult. rewrite Hst, HP, HT.
  destruct (ChannelVolume_range DecayReleaseTimeMillis TicksToMillis nTicks nChannel
              (m_State s !!! nChannel)) as [Hv0 Hv1].
  destruct (Qle_bool _ _) eqn:E; [|by rewrite E].
  pose proof (DecayedPeak_le PeakHoldTimeMillis PeakFalloffTimeMillis TicksToMillis
                nTicks _ nTicks HF Hv0 Hv1) as Hle.
  apply Qle_bool_iff in Hle. by rewrite Hle.
Qed.

End Query.

Lemma Level_is_loudest_note_witness :
  let s :=
    OnShortMessage (ShortMessage 0x90 64 40) 6
      (OnShortMessage (ShortMessage 0x90 60 100) 5 CMIDIMonitor_new) in
  let r :=
    GetChannelLevels Sample.DecayReleaseTimeMillis Sample.PeakHoldTimeMillis
      Sample.PeakFalloffTimeMillis Sample.TicksToMillis 7 s in
  (Utility.Clamp
     (NoteVolume Sample.DecayReleaseTimeMillis Sample.TicksToMillis 7 0
        (m_State s !!! 0%nat) (Note s 0 64)) 0 1
   <= Level r 0)%Q.
Proof.
  cbv zeta.
  refine (proj1 (Level_is_loudest_note Sample.DecayReleaseTimeMillis
            Sample.PeakHoldTimeMillis Sample.PeakFalloffTimeMillis
            Sample.TicksToMillis
            (OnShortMessage (ShortMessage 0x90 64 40) 6
               (OnShortMessage (ShortMessage 0x90 60 100) 5 CMIDIMonitor_new))
            7 0%nat _ _) 64%nat _).
  - apply (bool_decide_unpack _). vm_compute. reflexivity.
  - vm_compute. lia.
  - vm_compute. lia.
Defined.

Lemma Silence_after_AllNotesOff_witness :
  let s := OnShortMessage (ShortMessage 0x90 60 100) 5 CMIDIMonitor_new in
  (Level
     (GetChannelLevels Sample.DecayReleaseTimeMillis Sample.PeakHoldTimeMillis
        Sample.PeakFalloffTimeMillis Sample.TicksToMillis 7
        (OnShortMessage (ShortMessage 0xB5 123 0) 6 s)) 0
   == 0)%Q.
Proof.
  cbv zeta.
  apply (Silence_after_AllNotesOff Sample.DecayReleaseTimeMillis
           Sample.PeakHoldTimeMillis Sample.PeakFalloffTimeMillis
           Sample.TicksToMillis (ShortMessage 0xB5 123 0) 6 7).
  - apply (bool_decide_unpack _). vm_compute. reflexivity.
  - reflexivity.
  - apply (bool_decide_unpack _). vm_compute. reflexivity.
  - vm_compute. lia.
Defined.

Lemma Muted_channel_is_silent_witness :
  let s :=
    OnShortMessage (ShortMessage 0xB0 7 0) 6
      (OnShortMessage (ShortMessage 0x90 60 100) 5 CMIDIMonitor_new) in
  (Level
     (GetChannelLevels Sample.DecayReleaseTimeMillis Sample.PeakHoldTimeMillis
        Sample.PeakFalloffTimeMillis Sample.TicksToMillis 7 s) 0
   == 0)%Q.
Proof.
  cbv zeta.
  apply (Muted_channel_is_silent Sample.DecayReleaseTimeMillis
           Sample.PeakHoldTimeMillis Sample.PeakFalloffTimeMillis
           Sample.TicksToMillis).
  - apply (bool_decide_unpack _). vm_compute. reflexivity.
  - vm_compute. lia.
  - left. vm_compute. reflexivity.
Defined.

Lemma Query_is_idempotent_witness :
  let s := OnShortMessage (ShortMessage 0x90 60 100) 5 CMIDIMonitor_new in
  let r :=
    GetChannelLevels Sample.DecayReleaseTimeMillis Sample.PeakHoldTimeMillis
      Sample.PeakFalloffTimeMillis Sample.TicksToMillis 7 s in
  m_State (Monitor r) = m_State s
  ∧ ChannelView
      (GetChannelLevels Sample.DecayReleaseTimeMillis Sample.PeakHoldTimeMillis
         Sample.PeakFalloffTimeMillis Sample.TicksToMillis 7 (Monitor r)) 0
    = ChannelView r 0.
Proof.
  cbv zeta.
  apply (Query_is_idempotent Sample.DecayReleaseTimeMillis
           Sample.PeakHoldTimeMillis Sample.PeakFalloffTimeMillis
           Sample.TicksToMillis).
  - reflexivity.
  - apply Reachable_OnShortMessage; [reflexivity|apply Reachable_new].
  - vm_compute. lia.
Defined.

End LevelQuery.

(** * Further properties of the overlay state machine *)

Module OverlayUpdates.

Import LCD UserInterface OverlayRun OverlayMachine.

(** Decide the comparisons of a known state with the states of the
    time-out chain. *)
Ltac decide_states :=
  repeat (case_bool_decide; try congruence); cbn [andb].

(** Drawing the overlay appends calls and changes nothing else. *)
Lemma DrawSystemState_calls ui lcd :
  GetType (DrawSystemState ui lcd) = GetType lcd
  ∧ nWidth (DrawSystemState ui lcd) = nWidth lcd
  ∧ nHeight (DrawSystemState ui lcd) = nHeight lcd
  ∧ ∃ calls, Calls (DrawSystemState ui lcd) = Calls lcd ++ calls
             ∧ (length calls ≤ 4)%nat.
Proof.
  unfold DrawSystemState.
  repeat case_match; cbn [Call GetType nWidth nHeight Calls];
    (split; [done|]); (split; [done|]); (split; [done|]);
    rewrite <- ?(assoc_L (++));
    first [ eexists; split; [reflexivity|simpl; lia]
          | exists []; split; [by rewrite app_nil_r|simpl; lia] ].
Qed.

Section Updates.

Variable MillisToTicks : Z → Z.

Local Abbreviation UpdateState := (UserInterface.UpdateState MillisToTicks).
Local Abbreviation Update := (UserInterface.Update MillisToTicks).
Local Abbreviation Reachable := (OverlayRun.Reachable MillisToTicks).

(** X13.  [Update] changes the interface object only when a time-out is
    due: in the states [None] and [InPowerSavingMode], and in the other
    states while less than the time of the state (the spinner frame time for
    a spinner message, the message display time otherwise) has elapsed since
    the state-entry tick, the object and the backlight are left as they
    are. *)
Theorem Update_idle (lcd : CLCD) (nTicks : Z) (ui : CUserInterface) :
  match m_State ui with
  | TState.None | TState.InPowerSavingMode => True
  | TState.DisplayingSpinnerMessage =>
      u32 (nTicks - m_nStateTime ui) < MillisToTicks SystemMessageSpinnerTimeMillis
  | _ =>
      u32 (nTicks - m_nStateTime ui) < MillisToTicks SystemMessageDisplayTimeMillis
  end →
  (Update lcd nTicks ui).1 = ui
  ∧ bBacklightEnabled (Update lcd nTicks ui).2 = bBacklightEnabled lcd.
Proof.
  intros Hidle.
  assert (Hst : UpdateState lcd nTicks ui = (ui, lcd)).
  { unfold UserInterface.UpdateState.
    destruct (m_State ui) eqn:E; decide_states;
      try (apply Z.leb_gt in Hidle; rewrite Hidle); reflexivity. }
  unfold UserInterface.Update. rewrite Hst.
  case_bool_decide; cbn [fst snd]; split; try done.
  apply DrawSystemState_backlight.
Qed.

(** X14.  A message or an image whose display time has elapsed is taken
    down: the state becomes [None], the state-entry tick the current tick,
    the rest of the object is kept, and the display receives no call. *)
Theorem Overlay_timeout_clears (lcd : CLCD) (nTicks : Z) (ui : CUserInterface) :
  m_State ui = TState.DisplayingMessage ∨ m_State ui = TState.DisplayingImage →
  MillisToTicks SystemMessageDisplayTimeMillis ≤ u32 (nTicks - m_nStateTime ui) →
  Update lcd nTicks ui
  = (mkUI TState.None nTicks (m_nCurrentSpinnerChar ui) (m_CurrentImage ui)
       (m_SystemMessageTextBuffer ui), lcd).
Proof.
  intros Hst Hdue. apply Z.leb_le in Hdue.
  unfold UserInterface.Update, UserInterface.UpdateState.
  destruct Hst as [-> | ->]; decide_states; rewrite Hdue; cbn [m_State];
    decide_states; reflexivity.
Qed.

(** X15.  The backlight after [Update] is the backlight before, switched
    off when the state is [EnteringPowerSavingMode] and the display time has
    elapsed, in which case the state becomes [InPowerSavingMode]: [Update]
    never switches the backlight on. *)
Theorem Update_backlight_only_off (lcd : CLCD) (nTicks : Z) (ui : CUserInterface) :
  let due :=
    bool_decide (m_State ui = TState.EnteringPowerSavingMode)
    && (MillisToTicks SystemMessageDisplayTimeMillis <=? u32 (nTicks - m_nStateTime ui)) in
  bBacklightEnabled (Update lcd nTicks ui).2
  = (if due then false else bBacklightEnabled lcd)
  ∧ (due = true →
     m_State (Update lcd nTicks ui).1 = TState.InPowerSavingMode
     ∧ m_nStateTime (Update lcd nTicks ui).1 = nTicks).
Proof.
  intros due. rewrite Update_backlight, !Update_state.
  unfold due, UserInterface.UpdateState.
  destruct (m_State ui) eqn:E; decide_states;
    repeat case_match; cbn [fst snd bBacklightEnabled SetBacklightEnabled];
    split; done.
Qed.

(** The states that the public operations lead to. *)
Lemma UpdateState_states lcd nTicks ui :
  m_State ui ≠ TState.EnteringPowerSavingMode →
  m_State ui ≠ TState.InPowerSavingMode →
  m_State (UpdateState lcd nTicks ui).1 ≠ TState.EnteringPowerSavingMode
  ∧ m_State (UpdateState lcd nTicks ui).1 ≠ TState.InPowerSavingMode.
Proof.
  intros H1 H2. unfold UserInterface.UpdateState.
  destruct (m_State ui) eqn:E; try done; decide_states;
    repeat case_match; cbn [fst m_State]; rewrite ?E; done.
Qed.

(** X16.  No operation of the class enters power saving: an interface
    object produced from a new one by [ShowSystemMessage], [DisplayImage]
    and [Update] is never in the state [EnteringPowerSavingMode] or
    [InPowerSavingMode], and [Update] leaves the backlight of its display as
    it is. *)
Theorem PowerSaving_is_never_entered (ui : CUserInterface) :
  Reachable ui →
  m_State ui ≠ TState.EnteringPowerSavingMode
  ∧ m_State ui ≠ TState.InPowerSavingMode
  ∧ ∀ lcd nTicks,
      bBacklightEnabled (Update lcd nTicks ui).2 = bBacklightEnabled lcd.
Proof.
  intros Hreach.
  assert (Hst : m_State ui ≠ TState.EnteringPowerSavingMode
                ∧ m_State ui ≠ TState.InPowerSavingMode).
  { induction Hreach as [|pMessage bSpinner nTicks ui _ _ _|Image nTicks ui _ _
                         |lcd nTicks ui _ [IH1 IH2]].
    - done.
    - by destruct bSpinner.
    - done.
    - rewrite Update_state. by apply UpdateState_states. }
  destruct Hst as [H1 H2]. split; [done|]. split; [done|].
  intros lcd nTicks. rewrite Update_backlight. by apply UpdateState_backlight.
Qed.

(** X17.  [Update] draws and does nothing else to the display: its kind
    and its dimensions are kept, the calls it had received are kept, at most
    four calls are added, and none when the state after the time-outs is
    [None]. *)
Theorem Update_only_draws (lcd : CLCD) (nTicks : Z) (ui : CUserInterface) :
  let lcd' := (Update lcd nTicks ui).2 in
  GetType lcd' = GetType lcd
  ∧ nWidth lcd' = nWidth lcd
  ∧ nHeight lcd' = nHeight lcd
  ∧ ∃ calls, Calls lcd' = Calls lcd ++ calls
             ∧ (length calls ≤ 4)%nat
             ∧ (m_State (Update lcd nTicks ui).1 = TState.None → calls = []).
Proof.
  intros lcd'. unfold lcd', UserInterface.Update.
  assert (Hlcd : GetType (UpdateState lcd nTicks ui).2 = GetType lcd
                 ∧ nWidth (UpdateState lcd nTicks ui).2 = nWidth lcd
                 ∧ nHeight (UpdateState lcd nTicks ui).2 = nHeight lcd
                 ∧ Calls (UpdateState lcd nTicks ui).2 = Calls lcd).
  { unfold UserInterface.UpdateState. repeat case_match; done. }
  destruct (UpdateState lcd nTicks ui) as [ui1 lcd1]. cbn [fst snd] in Hlcd.
  destruct Hlcd as (Ht & Hw & Hh & Hc).
  case_bool_decide as Hnone; cbn [fst snd].
  - destruct (DrawSystemState_calls ui1 lcd1) as (-> & -> & -> & calls & -> & Hlen).
    rewrite Hc. repeat split; try done. by exists calls.
  - repeat split; try done. exists []. rewrite app_nil_r. repeat split; try done.
    simpl. lia.
Qed.

End Updates.

Lemma Update_idle_witness :
  let ui := ShowSystemMessage "Ready" false 5 CUserInterface_new in
  (Update Sample.MillisToTicks Sample.SampleLCD 1000 ui).1 = ui
  ∧ bBacklightEnabled (Update Sample.MillisToTicks Sample.SampleLCD 1000 ui).2
    = bBacklightEnabled Sample.SampleLCD.
Proof.
  cbv zeta.
  apply (Update_idle Sample.MillisToTicks Sample.SampleLCD 1000
           (ShowSystemMessage "Ready" false 5 CUserInterface_new)).
  vm_compute. reflexivity.
Defined.

Lemma Overlay_timeout_clears_witness :
  Update Sample.MillisToTicks Sample.SampleLCD 3000005
    (DisplayImage 3 5 CUserInterface_new)
  = (mkUI TState.None 3000005 0 3 (replicate 21 zero), Sample.SampleLCD).
Proof.
  apply (Overlay_timeout_clears Sample.MillisToTicks Sample.SampleLCD 3000005
           (DisplayImage 3 5 CUserInterface_new)).
  - right. reflexivity.
  - vm_compute. discriminate.
Defined.

Lemma Update_backlight_only_off_witness :
  let ui :=
    mkUI TState.EnteringPowerSavingMode 5 0 TImage_None (replicate 21 zero) in
  bBacklightEnabled (Update Sample.MillisToTicks Sample.SampleLCD 3000005 ui).2
  = false
  ∧ m_State (Update Sample.MillisToTicks Sample.SampleLCD 3000005 ui).1
    = TState.InPowerSavingMode
  ∧ m_nStateTime (Update Sample.MillisToTicks Sample.SampleLCD 3000005 ui).1
    = 3000005.
Proof.
  cbv zeta.
  pose proof (Update_backlight_only_off Sample.MillisToTicks Sample.SampleLCD
                3000005
                (mkUI TState.EnteringPowerSavingMode 5 0 TImage_None
                   (replicate 21 zero))) as H.
  cbv zeta in H. destruct H as [H1 H2].
  split; [exact H1|]. apply H2. vm_compute. reflexivity.
Defined.

Lemma PowerSaving_is_never_entered_witness :
  let ui :=
    (Update Sample.MillisToTicks Sample.SampleLCD 3000005
       (ShowSystemMessage "Ready" false 5 CUserInterface_new)).1 in
  m_State ui ≠ TState.EnteringPowerSavingMode
  ∧ m_State ui ≠ TState.InPowerSavingMode
  ∧ ∀ lcd nTicks,
      bBacklightEnabled (Update Sample.MillisToTicks lcd nTicks ui).2
      = bBacklightEnabled lcd.
Proof.
  cbv zeta.
  apply (PowerSaving_is_never_entered Sample.MillisToTicks).
  apply Reachable_Update, Reachable_ShowSystemMessage; [|apply Reachable_new].
  intros _. apply (bool_decide_unpack _). vm_compute. reflexivity.
Defined.

Lemma Update_only_draws_witness :
  let ui := ShowSystemMessage "Ready" false 5 CUserInterface_new in
  ∃ calls,
    Calls (Update Sample.MillisToTicks Sample.SampleLCD 3000005 ui).2
    = Calls Sample.SampleLCD ++ calls
    ∧ (length calls ≤ 4)%nat
    ∧ (m_State (Update Sample.MillisToTicks Sample.SampleLCD 3000005 ui).1
       = TState.None → calls = []).
Proof.
  cbv zeta.
  exact (proj2 (proj2 (proj2
           (Update_only_draws Sample.MillisToTicks Sample.SampleLCD 3000005
              (ShowSystemMessage "Ready" false 5 CUserInterface_new))))).
Defined.

End OverlayUpdates.

(** * The message buffer and the spinner *)

Module MessageBuffer.

Import LCD UserInterface OverlayRun OverlayMachine.

Lemma elem_of_take_1 {A : Type} (x : A) (n : nat) (l : list A) :
  x ∈ take n l → x ∈ l.
Proof.
  intros H. apply elem_of_take in H as (i & Hi & _).
  by eapply list_elem_of_lookup_2.
Qed.

(** The C string of an array that starts with a text without NUL and a
    NUL. *)
Lemma c_str_app (text rest : list ascii) :
  zero ∉ text → c_str (text ++ zero :: rest) = text.
Proof.
  induction text as [|c text IH]; intros Hz; cbn [app c_str].
  - by rewrite Ascii.eqb_refl.
  - apply not_elem_of_cons in Hz as [Hc Hz].
    assert (E : Ascii.eqb c zero = false) by (apply Ascii.eqb_neq; congruence).
    rewrite E. f_equal. by apply IH.
Qed.

(** The C string ends before the first NUL. *)
Lemma c_str_length (buf : list ascii) (i : nat) :
  buf !! i = Some zero → (length (c_str buf) ≤ i)%nat.
Proof.
  revert i. induction buf as [|c buf IH]; intros i Hi; [done|].
  cbn [c_str]. destruct (Ascii.eqb c zero) eqn:E; [simpl; lia|].
  destruct i as [|i].
  - simpl in Hi. injection Hi as ->. by rewrite Ascii.eqb_refl in E.
  - simpl. apply IH in Hi. lia.
Qed.

Lemma length_snprintf (buf text : list ascii) :
  length buf = SystemMessageTextBufferSize →
  length (snprintf buf SystemMessageTextBufferSize text)
  = SystemMessageTextBufferSize.
Proof.
  intros Hlen. unfold snprintf, SystemMessageTextBufferSize in *. cbv zeta.
  rewrite !length_app, length_drop, ?length_app, !length_take. cbn [length]. lia.
Qed.

Lemma snprintf_terminated (buf text : list ascii) :
  length buf = SystemMessageTextBufferSize →
  buf !! 20%nat = Some zero →
  snprintf buf SystemMessageTextBufferSize text !! 20%nat = Some zero.
Proof.
  intros Hlen Hz. unfold snprintf, SystemMessageTextBufferSize in *. cbv zeta.
  change (20 + 1 - 1)%nat with 20%nat.
  destruct (decide (20 ≤ length text)%nat) as [Hge|Hlt].
  - rewrite lookup_app_l by (rewrite length_app, length_take; cbn [length]; lia).
    rewrite lookup_app_r by (rewrite length_take; lia).
    rewrite length_take. by replace (20 - 20 `min` length text)%nat with 0%nat by lia.
  - rewrite lookup_app_r by (rewrite length_app, length_take; cbn [length]; lia).
    rewrite lookup_drop. rewrite <- Hz. f_equal.
    rewrite length_app, length_take. cbn [length]. lia.
Qed.

Lemma length_format_spinner (n : nat) (pMessage : list ascii) (c : ascii) :
  length (format_spinner n pMessage c) = (n + 2)%nat.
Proof.
  unfold format_spinner. cbv zeta.
  rewrite !length_app, length_replicate, length_take. cbn [length]. lia.
Qed.

Lemma format_spinner_no_NUL (n : nat) (pMessage : list ascii) (c : ascii) :
  zero ∉ pMessage → c ≠ zero → zero ∉ format_spinner n pMessage c.
Proof.
  intros Hm Hc. unfold format_spinner.
  rewrite !not_elem_of_app. split; [|split].
  - intros Hin. apply Hm. by eapply elem_of_take_1.
  - intros Hin. by apply elem_of_replicate in Hin as [? _].
  - rewrite !not_elem_of_cons. split; [done|]. split; [congruence|].
    apply not_elem_of_nil.
Qed.

(** X18.  The text that [ShowSystemMessage] leaves to be printed, for a
    message without NUL: without a spinner, the message then being the
    format string and holding no conversion specification, the first 20
    characters of the message, a longer message being cut; with a spinner
    the first 18 characters of the message, filled with spaces to 18, then a
    space and the first spinner glyph, 20 characters in all. *)
Theorem ShowSystemMessage_text (pMessage : string) (nTicks : Z)
    (ui : CUserInterface) :
  zero ∉ list_ascii_of_string pMessage →
  let text := list_ascii_of_string pMessage in
  ("%"%char ∉ text →
   c_str (m_SystemMessageTextBuffer (ShowSystemMessage pMessage false nTicks ui))
   = take 20 text)
  ∧ c_str (m_SystemMessageTextBuffer (ShowSystemMessage pMessage true nTicks ui))
    = take 18 text ++ replicate (18 - length (take 18 text)) " "%char
      ++ [" "; "_"]%char
  ∧ length
      (c_str (m_SystemMessageTextBuffer (ShowSystemMessage pMessage true nTicks ui)))
    = 20%nat.
Proof.
  intros Hz text.
  assert (Hplain :
    c_str (m_SystemMessageTextBuffer (ShowSystemMessage pMessage false nTicks ui))
    = take 20 text).
  { cbn [ShowSystemMessage m_SystemMessageTextBuffer]. unfold snprintf.
    cbv zeta. rewrite <- (assoc_L (++)). cbn [app].
    apply c_str_app. intros Hin. apply Hz. by eapply elem_of_take_1. }
  assert (Hspin :
    c_str (m_SystemMessageTextBuffer (ShowSystemMessage pMessage true nTicks ui))
    = format_spinner 18 text "_"%char).
  { cbn [ShowSystemMessage m_SystemMessageTextBuffer]. unfold snprintf.
    cbv zeta. change (SystemMessageTextBufferSize - 3)%nat with 18%nat.
    change (SystemMessageTextBufferSize - 1)%nat with 20%nat.
    change (SpinnerChars !!! 0%nat) with "_"%char. fold text.
    rewrite take_ge by (rewrite length_format_spinner; lia).
    rewrite <- (assoc_L (++)). cbn [app].
    apply c_str_app. by apply format_spinner_no_NUL. }
  split; [intros _; exact Hplain|]. split; [done|].
  rewrite Hspin. by rewrite length_format_spinner.
Qed.

Lemma ShowSystemMessage_text_witness :
  c_str (m_SystemMessageTextBuffer
           (ShowSystemMessage "SoundFont 3 of 12 loading" false 5 CUserInterface_new))
  = list_ascii_of_string "SoundFont 3 of 12 lo"
  ∧ c_str (m_SystemMessageTextBuffer
             (ShowSystemMessage "SoundFont 3 of 12 loading" true 5 CUserInterface_new))
    = list_ascii_of_string "SoundFont 3 of 12  _".
Proof.
  pose proof (ShowSystemMessage_text "SoundFont 3 of 12 loading" 5
                CUserInterface_new) as H.
  cbv zeta in H. destruct H as (H1 & H2 & _).
  - apply (bool_decide_unpack _). vm_compute. reflexivity.
  - split; [apply H1|exact H2].
    apply (bool_decide_unpack _). vm_compute. reflexivity.
Defined.

Section Buffer.

Variable MillisToTicks : Z → Z.

Local Abbreviation UpdateState := (UserInterface.UpdateState MillisToTicks).
Local Abbreviation Update := (UserInterface.Update MillisToTicks).
Local Abbreviation Reachable := (OverlayRun.Reachable MillisToTicks).
Local Abbreviation Updates := (OverlayRun.Updates MillisToTicks).
Local Abbreviation FramesDue := (OverlayRun.FramesDue MillisToTicks).

(** What [Update] does to the buffer and to the spinner frame. *)
Lemma UpdateState_buffer lcd nTicks ui :
  (m_SystemMessageTextBuffer (UpdateState lcd nTicks ui).1
   = m_SystemMessageTextBuffer ui
   ∧ m_nCurrentSpinnerChar (UpdateState lcd nTicks ui).1 = m_nCurrentSpinnerChar ui)
  ∨ (m_SystemMessageTextBuffer (UpdateState lcd nTicks ui).1
     = <[19%nat := SpinnerChars !!! Z.to_nat ((m_nCurrentSpinnerChar ui + 1) mod 14)]>
         (m_SystemMessageTextBuffer ui)
     ∧ m_nCurrentSpinnerChar (UpdateState lcd nTicks ui).1
       = (m_nCurrentSpinnerChar ui + 1) mod 14).
Proof.
  unfold UserInterface.UpdateState.
  repeat case_match; cbn [fst m_SystemMessageTextBuffer m_nCurrentSpinnerChar];
    first [ by left | by right ].
Qed.

(** The invariant of the interface object: a buffer of 21 cells that ends
    in NUL, and a spinner frame among the 14 frames. *)
Lemma Reachable_buffer (ui : CUserInterface) :
  Reachable ui →
  length (m_SystemMessageTextBuffer ui) = SystemMessageTextBufferSize
  ∧ m_SystemMessageTextBuffer ui !! 20%nat = Some zero
  ∧ 0 ≤ m_nCurrentSpinnerChar ui < 14.
Proof.
  intros Hreach.
  induction Hreach as [|pMessage bSpinner nTicks ui _ _ (IH1 & IH2 & IH3)
                       |Image nTicks ui _ IH
                       |lcd nTicks ui _ (IH1 & IH2 & IH3)].
  - repeat split; done.
  - destruct bSpinner; cbn [ShowSystemMessage m_SystemMessageTextBuffer
                            m_nCurrentSpinnerChar];
      (split; [by apply length_snprintf|]);
      (split; [by apply snprintf_terminated|lia]).
  - exact IH.
  - rewrite Update_state.
    destruct (UpdateState_buffer lcd nTicks ui) as [[-> ->]|[-> ->]]; [done|].
    rewrite length_insert. split; [done|].
    rewrite list_lookup_insert_ne by lia. split; [done|].
    apply Z.mod_pos_bound. lia.
Qed.

(** X19.  The message buffer of an interface object produced from a new
    one by [ShowSystemMessage], [DisplayImage] and [Update] always has its
    21 cells, the last of which is NUL, so that the text printed has at most
    20 characters; and the spinner frame is always one of the 14 frames. *)
Theorem Buffer_is_terminated (ui : CUserInterface) :
  Reachable ui →
  length (m_SystemMessageTextBuffer ui) = SystemMessageTextBufferSize
  ∧ m_SystemMessageTextBuffer ui !! 20%nat = Some zero
  ∧ (length (c_str (m_SystemMessageTextBuffer ui)) ≤ 20)%nat
  ∧ 0 ≤ m_nCurrentSpinnerChar ui < Z.of_nat (length SpinnerChars).
Proof.
  intros Hreach.
  destruct (Reachable_buffer ui Hreach) as (H1 & H2 & H3).
  split; [done|]. split; [done|]. split; [by apply c_str_length|exact H3].
Qed.

(** A run of spinner frames from any spinner state. *)
Lemma Updates_spinner (ticks : list Z) :
  ∀ (ui : CUserInterface) (lcd : CLCD) (base : list ascii),
    m_State ui = TState.DisplayingSpinnerMessage →
    0 ≤ m_nCurrentSpinnerChar ui < 14 →
    m_SystemMessageTextBuffer ui
    = <[19%nat := SpinnerChars !!! Z.to_nat (m_nCurrentSpinnerChar ui)]> base →
    FramesDue (m_nStateTime ui) ticks →
    let ui' := (Updates ticks (ui, lcd)).1 in
    m_State ui' = TState.DisplayingSpinnerMessage
    ∧ m_nCurrentSpinnerChar ui'
      = (m_nCurrentSpinnerChar ui + Z.of_nat (length ticks)) mod 14
    ∧ m_SystemMessageTextBuffer ui'
      = <[19%nat := SpinnerChars !!! Z.to_nat (m_nCurrentSpinnerChar ui')]> base
    ∧ m_nStateTime ui' = default (m_nStateTime ui) (last ticks)
    ∧ m_CurrentImage ui' = m_CurrentImage ui.
Proof.
  induction ticks as [|t ticks IH]; intros ui lcd base Hst Hk Hbuf Hdue.
  - cbn. rewrite Z.add_0_r, Z.mod_small by lia. done.
  - destruct Hdue as [Hdue Hrest].
    unfold OverlayRun.Updates. cbn [fold_left fst snd].
    fold (Updates ticks (Update lcd t ui)).
    assert (Hui1 : (Update lcd t ui).1
              = mkUI TState.DisplayingSpinnerMessage t
                  ((m_nCurrentSpinnerChar ui + 1) mod 14) (m_CurrentImage ui)
                  (<[19%nat := SpinnerChars !!!
                                 Z.to_nat ((m_nCurrentSpinnerChar ui + 1) mod 14)]>
                     (m_SystemMessageTextBuffer ui))).
    { rewrite Update_state. unfold UserInterface.UpdateState. rewrite Hst.
      OverlayUpdates.decide_states. apply Z.leb_le in Hdue. rewrite Hdue.
      reflexivity. }
    destruct (Update lcd t ui) as [ui1 lcd1]. cbn [fst] in Hui1.
    destruct (IH ui1 lcd1 base) as (H1 & H2 & H3 & H4 & H5).
    + by rewrite Hui1.
    + rewrite Hui1. cbn [m_nCurrentSpinnerChar]. apply Z.mod_pos_bound. lia.
    + rewrite Hui1. cbn [m_nCurrentSpinnerChar m_SystemMessageTextBuffer].
      rewrite Hbuf. by rewrite list_insert_insert_eq.
    + by rewrite Hui1.
    + split; [done|]. split; [|split; [done|split]].
      * rewrite H2, Hui1. cbn [m_nCurrentSpinnerChar length].
        rewrite Z.add_mod_idemp_l by lia. f_equal. lia.
      * rewrite H4, Hui1. cbn [m_nStateTime]. rewrite last_cons.
        by destruct (last ticks).
      * rewrite H5, Hui1. done.
Qed.

(** X20.  After [ShowSystemMessage] with a spinner, [Update] calls each at
    least the spinner frame time after the one before advance the spinner by
    one frame each, in a cycle of 14: after [n] calls the frame is
    [n mod 14], the last but one cell of the buffer holds the glyph of that
    frame and the other cells hold what the message left there; the state is
    still [DisplayingSpinnerMessage] and the state-entry tick is the tick of
    the last call. *)
Theorem Spinner_cycle (pMessage : string) (nNow : Z) (ui : CUserInterface)
    (lcd : CLCD) (ticks : list Z) :
  FramesDue nNow ticks →
  let start := ShowSystemMessage pMessage true nNow ui in
  let ui' := (Updates ticks (start, lcd)).1 in
  let nFrame := Z.of_nat (length ticks) mod 14 in
  m_State ui' = TState.DisplayingSpinnerMessage
  ∧ m_nCurrentSpinnerChar ui' = nFrame
  ∧ m_SystemMessageTextBuffer ui'
    = <[19%nat := SpinnerChars !!! Z.to_nat nFrame]>
        (m_SystemMessageTextBuffer start)
  ∧ m_nStateTime ui' = default nNow (last ticks).
Proof.
  intros Hdue start ui' nFrame.
  destruct (Updates_spinner ticks start lcd (m_SystemMessageTextBuffer start))
    as (H1 & H2 & H3 & H4 & _); try done.
  - cbn [start ShowSystemMessage m_SystemMessageTextBuffer m_nCurrentSpinnerChar].
    symmetry. apply list_insert_id. unfold snprintf. cbv zeta.
    change (SystemMessageTextBufferSize - 3)%nat with 18%nat.
    change (SystemMessageTextBufferSize - 1)%nat with 20%nat.
    rewrite take_ge by (rewrite length_format_spinner; lia).
    rewrite lookup_app_l by (rewrite length_app, length_format_spinner; simpl; lia).
    rewrite lookup_app_l by (rewrite length_format_spinner; lia).
    unfold format_spinner. rewrite (assoc_L (++)).
    rewrite lookup_app_r by (rewrite length_app, length_replicate, length_take; lia).
    rewrite length_app, length_replicate, length_take.
    by replace (19 - _)%nat with 1%nat by lia.
  - fold ui' in H1, H2, H3, H4. cbn [start ShowSystemMessage m_nCurrentSpinnerChar] in H2.
    rewrite Z.add_0_l in H2. fold nFrame in H2.
    split; [done|]. split; [done|]. split; [by rewrite H3, H2|done].
Qed.

End Buffer.

Lemma Buffer_is_terminated_witness :
  let ui :=
    (Update Sample.MillisToTicks Sample.SampleLCD 40000
       (ShowSystemMessage "A message that is longer than the buffer" true 5
          CUserInterface_new)).1 in
  length (m_SystemMessageTextBuffer ui) = SystemMessageTextBufferSize
  ∧ m_SystemMessageTextBuffer ui !! 20%nat = Some zero
  ∧ (length (c_str (m_SystemMessageTextBuffer ui)) ≤ 20)%nat
  ∧ 0 ≤ m_nCurrentSpinnerChar ui < Z.of_nat (length SpinnerChars).
Proof.
  cbv zeta.
  apply (Buffer_is_terminated Sample.MillisToTicks).
  apply Reachable_Update, Reachable_ShowSystemMessage; [|apply Reachable_new].
  intros H. discriminate H.
Defined.

Lemma Spinner_cycle_witness :
  let ui' :=
    (Updates Sample.MillisToTicks [32000; 64000; 96000; 128000; 160000]
       (ShowSystemMessage "Loading" true 0 CUserInterface_new,
        Sample.SampleLCD)).1 in
  m_nCurrentSpinnerChar ui' = 5
  ∧ c_str (m_SystemMessageTextBuffer ui')
    = list_ascii_of_string "Loading            '".
Proof.
  cbv zeta.
  pose proof (Spinner_cycle Sample.MillisToTicks "Loading" 0 CUserInterface_new
                Sample.SampleLCD [32000; 64000; 96000; 128000; 160000]) as H.
  cbv zeta in H. destruct H as (_ & H2 & H3 & _).
  - vm_compute. repeat split; discriminate.
  - split; [exact H2|]. rewrite H3. vm_compute. reflexivity.
Defined.

End MessageBuffer.

(** * What the overlay draws *)

Module OverlayDrawing.

Import LCD UserInterface OverlayRun OverlayMachine.

(** The C string of an array holds no NUL. *)
Lemma c_str_no_NUL (buf : list ascii) : zero ∉ c_str buf.
Proof.
  induction buf as [|c buf IH]; cbn [c_str]; [apply not_elem_of_nil|].
  destruct (Ascii.eqb c zero) eqn:E; [apply not_elem_of_nil|].
  apply not_elem_of_cons. split; [|done].
  apply Ascii.eqb_neq in E. congruence.
Qed.

Section Drawing.

Variable MillisToTicks : Z → Z.

Local Abbreviation UpdateState := (UserInterface.UpdateState MillisToTicks).
Local Abbreviation Update := (UserInterface.Update MillisToTicks).
Local Abbreviation Reachable := (OverlayRun.Reachable MillisToTicks).

(** A message or an image whose display time has not elapsed is drawn. *)
Lemma Update_draws (lcd : CLCD) (nTicks : Z) (ui : CUserInterface) :
  m_State ui = TState.DisplayingMessage ∨ m_State ui = TState.DisplayingImage →
  u32 (nTicks - m_nStateTime ui) < MillisToTicks SystemMessageDisplayTimeMillis →
  Update lcd nTicks ui = (ui, DrawSystemState ui lcd).
Proof.
  intros Hst Hearly. apply Z.leb_gt in Hearly.
  unfold UserInterface.Update, UserInterface.UpdateState.
  destruct Hst as [Hst | Hst]; rewrite Hst; OverlayUpdates.decide_states;
    rewrite Hearly; cbn [andb]; rewrite Hst; OverlayUpdates.decide_states;
    reflexivity.
Qed.

(** The time-out chain keeps the image and the display's calls, kind and
    height. *)
Lemma UpdateState_keeps (lcd : CLCD) (nTicks : Z) (ui : CUserInterface) :
  m_CurrentImage (UpdateState lcd nTicks ui).1 = m_CurrentImage ui
  ∧ Calls (UpdateState lcd nTicks ui).2 = Calls lcd
  ∧ GetType (UpdateState lcd nTicks ui).2 = GetType lcd
  ∧ nHeight (UpdateState lcd nTicks ui).2 = nHeight lcd.
Proof.
  unfold UserInterface.UpdateState. repeat case_match; done.
Qed.

(** X21.  An image is shown on a graphical display only: every [Update]
    before the display time of the image has elapsed leaves the interface
    object as [DisplayImage] left it, and draws that image, in one call, on a
    graphical display; on a character display it draws nothing. *)
Theorem Image_is_drawn_on_graphical_only (Image : TImage) (nNow nTicks : Z)
    (ui : CUserInterface) (lcd : CLCD) :
  u32 (nTicks - nNow) < MillisToTicks SystemMessageDisplayTimeMillis →
  (Update lcd nTicks (DisplayImage Image nNow ui)).1 = DisplayImage Image nNow ui
  ∧ Calls (Update lcd nTicks (DisplayImage Image nNow ui)).2
    = Calls lcd ++ match GetType lcd with
                   | Graphical => [DrawImage Image]
                   | Character => []
                   end.
Proof.
  intros Hearly.
  rewrite (Update_draws lcd nTicks (DisplayImage Image nNow ui))
    by (cbn [DisplayImage m_State m_nStateTime]; first [by right | done]).
  cbn [fst snd]. split; [done|].
  unfold DrawSystemState. cbn [DisplayImage m_State m_CurrentImage].
  destruct (GetType lcd); OverlayUpdates.decide_states; cbn [Call Calls];
    [by rewrite app_nil_r|done].
Qed.

(** X22.  A message without NUL and without conversion specification,
    shown without a spinner, reaches the display cut to its first 20
    characters at every [Update] before its display time has elapsed: on a graphical display in one call, in row 0 of
    a display 32 rows high and in row 1 otherwise; on a character display of
    2 rows in row 0 with row 1 cleared, on one of 4 rows in row 1 with the
    rows 0, 2 and 3 cleared, and on a character display of another height
    not at all. *)
Theorem Message_is_printed (pMessage : string) (nNow nTicks : Z)
    (ui : CUserInterface) (lcd : CLCD) :
  zero ∉ list_ascii_of_string pMessage →
  "%"%char ∉ list_ascii_of_string pMessage →
  u32 (nTicks - nNow) < MillisToTicks SystemMessageDisplayTimeMillis →
  let text := take 20 (list_ascii_of_string pMessage) in
  Calls (Update lcd nTicks (ShowSystemMessage pMessage false nNow ui)).2
  = Calls lcd
    ++ match GetType lcd with
       | Graphical => [Print text 0 (if nHeight lcd =? 32 then 0 else 1) true]
       | Character =>
           if nHeight lcd =? 2 then [Print text 0 0 true; Print [] 0 1 true]
           else if nHeight lcd =? 4 then
             [ Print [] 0 0 true; Print text 0 1 true
             ; Print [] 0 2 true; Print [] 0 3 true ]
           else []
       end.
Proof.
  intros Hz _ Hearly text.
  rewrite (Update_draws lcd nTicks (ShowSystemMessage pMessage false nNow ui))
    by (cbn [ShowSystemMessage m_State m_nStateTime]; first [by left | done]).
  cbn [snd].
  assert (Htext :
    c_str (m_SystemMessageTextBuffer (ShowSystemMessage pMessage false nNow ui))
    = text).
  { cbn [ShowSystemMessage m_SystemMessageTextBuffer]. unfold snprintf.
    cbv zeta. rewrite <- (assoc_L (++)). cbn [app].
    apply MessageBuffer.c_str_app. intros Hin. apply Hz.
    by eapply MessageBuffer.elem_of_take_1. }
  unfold DrawSystemState. cbv zeta. rewrite Htext.
  cbn [ShowSystemMessage m_State].
  destruct (GetType lcd); OverlayUpdates.decide_states;
    repeat case_match; cbn [Call Calls]; rewrite <- ?(assoc_L (++));
    by rewrite ?app_nil_r.
Qed.

(** X23.  Whatever [Update] draws for an interface object produced from a
    new one by [ShowSystemMessage], [DisplayImage] and [Update] fits the
    display: a text printed has at most 20 characters and no NUL, starts in
    column 0 with the rest of the line cleared, in a row that a character
    display has and in row 0 or 1 of a graphical display; an image is drawn
    on a graphical display only, in the state [DisplayingImage], and is the
    image of the latest [DisplayImage]. *)
Theorem Drawn_calls_fit (lcd : CLCD) (nTicks : Z) (ui : CUserInterface) :
  Reachable ui →
  ∃ calls : list TCall,
    Calls (Update lcd nTicks ui).2 = Calls lcd ++ calls
    ∧ ∀ c : TCall, c ∈ calls →
        match c with
        | Print pText nCursorX nCursorY bClearLine =>
            (length pText ≤ 20)%nat ∧ (zero ∉ pText)
            ∧ nCursorX = 0 ∧ bClearLine = true
            ∧ 0 ≤ nCursorY
            ∧ match GetType lcd with
              | Graphical => nCursorY ≤ 1
              | Character => nCursorY < nHeight lcd
              end
        | DrawImage Image =>
            GetType lcd = Graphical
            ∧ Image = m_CurrentImage ui
            ∧ m_State (Update lcd nTicks ui).1 = TState.DisplayingImage
        end.
Proof.
  intros Hreach.
  pose proof (Reachable_Update MillisToTicks lcd nTicks ui Hreach) as Hreach'.
  destruct (MessageBuffer.Reachable_buffer MillisToTicks _ Hreach')
    as (_ & Hnul & _).
  apply MessageBuffer.c_str_length in Hnul.
  pose proof (c_str_no_NUL
                (m_SystemMessageTextBuffer (Update lcd nTicks ui).1)) as Hnn.
  rewrite Update_state in Hnul, Hnn. rewrite Update_state.
  destruct (UpdateState_keeps lcd nTicks ui) as (Himg & Hcalls & Htype & Hheight).
  unfold UserInterface.Update.
  destruct (UpdateState lcd nTicks ui) as [ui1 lcd1].
  cbn [fst snd] in *.
  case_bool_decide as Hnone; cbn [fst snd];
    [|exists []; rewrite app_nil_r; split; [done|]; intros c Hc;
      by apply elem_of_nil in Hc].
  unfold DrawSystemState. cbv zeta. rewrite Htype, Hheight, Himg.
  destruct (GetType lcd); OverlayUpdates.decide_states;
    repeat case_match; cbn [Call Calls]; rewrite Hcalls;
    rewrite <- ?(assoc_L (++)); cbn [app];
    (eexists; split; [first [reflexivity | symmetry; apply app_nil_r]|]);
    intros c Hc;
    repeat (apply elem_of_cons in Hc as [-> | Hc]);
    try (by apply elem_of_nil in Hc);
    repeat match goal with
           | H : (_ =? _) = true |- _ => apply Z.eqb_eq in H
           | H : (_ =? _) = false |- _ => clear H
           end;
    repeat split; try done; try (cbn [length]; lia);
    try apply not_elem_of_nil.
Qed.

End Drawing.

(** ** The statements at sample values *)

Lemma Image_is_drawn_on_graphical_only_witness :
  Calls (Update Sample.MillisToTicks Sample.SampleLCD 1000
           (DisplayImage 3 5 CUserInterface_new)).2
  = [DrawImage 3].
Proof.
  exact (proj2 (Image_is_drawn_on_graphical_only Sample.MillisToTicks 3 5 1000
                  CUserInterface_new Sample.SampleLCD
                  ltac:(vm_compute; reflexivity))).
Defined.

Lemma Message_is_printed_witness :
  Calls (Update Sample.MillisToTicks Sample.SampleLCD 1000
           (ShowSystemMessage "SoundFont 3 of 12 loading" false 5
              CUserInterface_new)).2
  = [Print (list_ascii_of_string "SoundFont 3 of 12 lo") 0 0 true].
Proof.
  apply (Message_is_printed Sample.MillisToTicks "SoundFont 3 of 12 loading" 5
           1000 CUserInterface_new Sample.SampleLCD).
  - apply (bool_decide_unpack _). vm_compute. reflexivity.
  - apply (bool_decide_unpack _). vm_compute. reflexivity.
  - vm_compute. reflexivity.
Defined.

Lemma Drawn_calls_fit_witness :
  ∃ calls : list TCall,
    Calls (Update Sample.MillisToTicks Sample.SampleLCD 1000
             (ShowSystemMessage "Ready" true 5 CUserInterface_new)).2
    = Calls Sample.SampleLCD ++ calls
    ∧ ∀ c : TCall, c ∈ calls →
        match c with
        | Print pText nCursorX nCursorY bClearLine =>
            (length pText ≤ 20)%nat ∧ (zero ∉ pText)
            ∧ nCursorX = 0 ∧ bClearLine = true
            ∧ 0 ≤ nCursorY
            ∧ nCursorY ≤ 1
        | DrawImage Image =>
            GetType Sample.SampleLCD = Graphical
            ∧ Image = m_CurrentImage
                        (ShowSystemMessage "Ready" true 5 CUserInterface_new)
            ∧ m_State (Update Sample.MillisToTicks Sample.SampleLCD 1000
                         (ShowSystemMessage "Ready" true 5 CUserInterface_new)).1
              = TState.DisplayingImage
        end.
Proof.
  apply (Drawn_calls_fit Sample.MillisToTicks Sample.SampleLCD 1000
           (ShowSystemMessage "Ready" true 5 CUserInterface_new)).
  apply Reachable_ShowSystemMessage; [|apply Reachable_new].
  intros H. discriminate H.
Defined.

End OverlayDrawing.

(** * The geometry of the level meter *)

Module LevelMeterGeometry.

Import MIDIMonitor LCD LevelMeter.

(** The pixels of a level on a bar of [nBarMaxY + 1] rows. *)
Lemma pixels_range (x : float) (nBarMaxY : Z) :
  (0 <= x)%Q → (x <= 1)%Q → 0 ≤ nBarMaxY ≤ 255 →
  float_to_u8 (x * inject_Z nBarMaxY) = Qfloor (x * inject_Z nBarMaxY)
  ∧ 0 ≤ float_to_u8 (x * inject_Z nBarMaxY) ≤ nBarMaxY.
Proof.
  intros H0 H1 HM.
  assert (HMq : (0 <= inject_Z nBarMaxY)%Q)
    by (change 0%Q with (inject_Z 0); rewrite <- Zle_Qle; lia).
  assert (Hlo : (0 <= x * inject_Z nBarMaxY)%Q) by (by apply Qmult_le_0_compat).
  assert (Hhi : (x * inject_Z nBarMaxY <= inject_Z nBarMaxY)%Q).
  { pose proof (Qmult_le_compat_r _ _ _ H1 HMq) as H. by rewrite Qmult_1_l in H. }
  assert (Hfl : 0 ≤ Qfloor (x * inject_Z nBarMaxY) ≤ nBarMaxY).
  { split.
    - change 0 with (Qfloor (inject_Z 0)). by apply Qfloor_resp_le.
    - rewrite <- (Qfloor_Z nBarMaxY) at 2. by apply Qfloor_resp_le. }
  unfold float_to_u8. destruct (Qlt_le_dec _ _) as [Hneg|_]; [lra|].
  unfold u8. rewrite Z.mod_small by lia. done.
Qed.

Lemma pixels_monotone (x y : float) (nBarMaxY : Z) :
  (0 <= x)%Q → (x <= y)%Q → (y <= 1)%Q → 0 ≤ nBarMaxY ≤ 255 →
  float_to_u8 (x * inject_Z nBarMaxY) ≤ float_to_u8 (y * inject_Z nBarMaxY).
Proof.
  intros H0 Hxy H1 HM.
  destruct (pixels_range x nBarMaxY) as [-> _]; [lra..|done|].
  destruct (pixels_range y nBarMaxY) as [-> _]; [lra..|done|].
  apply Qfloor_resp_le. apply Qmult_le_compat_r; [done|].
  change 0%Q with (inject_Z 0). rewrite <- Zle_Qle. lia.
Qed.

(** A cell of an array of levels, or the 0 read past its end. *)
Lemma lookup_unit_interval (l : list float) (i : nat) :
  Forall (λ x : float, (0 <= x)%Q ∧ (x <= 1)%Q) l →
  (0 <= l !!! i)%Q ∧ (l !!! i <= 1)%Q.
Proof.
  intros Hl. revert i.
  induction Hl as [|x l Hx Hl IH]; intros [|i];
    [split; apply Qle_bool_iff; reflexivity..|exact Hx|exact (IH i)].
Qed.

(** The rectangles of one channel. *)
Lemma elem_of_DrawChannel (r : TRect) nBarXOffset nBarYOffset nBarWidth nBarMaxY
    pChannelLevels pPeakLevels bDrawBarBases nChannel :
  r ∈ DrawChannel nBarXOffset nBarYOffset nBarWidth nBarMaxY pChannelLevels
        pPeakLevels bDrawBarBases nChannel →
  let nX1 := u8 (nBarXOffset + nChannel * (nBarWidth + BarSpacing)) in
  let nX2 := u8 (nX1 + nBarWidth - 1) in
  (∃ nLevelPixels,
     nLevelPixels
     = float_to_u8 (pChannelLevels !!! Z.to_nat nChannel * inject_Z nBarMaxY)
     ∧ r = mkRect nX1 (u8 (nBarYOffset + (nBarMaxY - nLevelPixels))) nX2
             (u8 (u8 (nBarYOffset + (nBarMaxY - nLevelPixels)) + nLevelPixels)))
  ∨ (∃ pPeaks nPeakLevelPixels,
       pPeakLevels = Some pPeaks
       ∧ nPeakLevelPixels
         = float_to_u8 (pPeaks !!! Z.to_nat nChannel * inject_Z nBarMaxY)
       ∧ nPeakLevelPixels ≠ 0
       ∧ r = mkRect nX1 (u8 (nBarYOffset + (nBarMaxY - nPeakLevelPixels))) nX2
               (u8 (nBarYOffset + (nBarMaxY - nPeakLevelPixels)))).
Proof.
  unfold DrawChannel. cbv zeta. intros Hr.
  apply elem_of_app in Hr as [Hr|Hr].
  - left. destruct (_ || _); [|by apply elem_of_nil in Hr].
    apply list_elem_of_singleton in Hr. eexists. split; [reflexivity|done].
  - right. destruct pPeakLevels as [pPeaks|]; [|by apply elem_of_nil in Hr].
    destruct (_ =? 0) eqn:E; cbn [negb] in Hr; [by apply elem_of_nil in Hr|].
    apply list_elem_of_singleton in Hr. apply Z.eqb_neq in E.
    exists pPeaks. eexists. split; [done|]. split; [reflexivity|]. done.
Qed.

(** The channels of the loop. *)
Lemma elem_of_channels (c nChannels : Z) :
  c ∈ (Z.of_nat <$> seq 0 (Z.to_nat nChannels)) → 0 ≤ c < nChannels.
Proof.
  intros Hc. apply list_elem_of_fmap in Hc as (i & -> & Hi).
  apply elem_of_seq in Hi. lia.
Qed.

(** The rows of the rectangles of [DrawChannelLevelsGraphical]. *)
Lemma Bars_rows
    (nBarXOffset nBarYOffset nBarWidth nBarHeight nChannels : Z)
    (pChannelLevels : list float) (pPeakLevels : option (list float))
    (bDrawBarBases : bool) (r : TRect) :
  0 ≤ nBarYOffset → 1 ≤ nBarHeight → nBarYOffset + nBarHeight ≤ 256 →
  Forall (λ x : float, (0 <= x)%Q ∧ (x <= 1)%Q) pChannelLevels →
  match pPeakLevels with
  | Some pPeaks => Forall (λ x : float, (0 <= x)%Q ∧ (x <= 1)%Q) pPeaks
  | None => True
  end →
  r ∈ DrawChannelLevelsGraphical nBarXOffset nBarYOffset nBarWidth nBarHeight
        pChannelLevels pPeakLevels nChannels bDrawBarBases →
  nBarYOffset ≤ nY1 r ∧ nY1 r ≤ nY2 r ∧ nY2 r ≤ nBarYOffset + nBarHeight - 1.
Proof.
  intros Hyo Hh Hfit Hlev Hpk Hr.
  unfold DrawChannelLevelsGraphical in Hr. cbv zeta in Hr.
  apply list_elem_of_bind in Hr as (c & Hr & _).
  assert (HM : u8 (nBarHeight - 1) = nBarHeight - 1)
    by (unfold u8; apply Z.mod_small; lia).
  rewrite HM in Hr.
  apply elem_of_DrawChannel in Hr as [(lp & Hlp & ->)|(pk & pp & -> & Hpp & Hne & ->)];
    cbn [nY1 nY2].
  - destruct (lookup_unit_interval pChannelLevels (Z.to_nat c) Hlev) as [H0 H1].
    destruct (pixels_range _ (nBarHeight - 1) H0 H1 ltac:(lia)) as [_ Hrange].
    rewrite <- Hlp in Hrange. unfold u8.
    rewrite (Z.mod_small (nBarYOffset + _)) by lia.
    rewrite Z.mod_small by lia. lia.
  - destruct (lookup_unit_interval pk (Z.to_nat c) Hpk) as [H0 H1].
    destruct (pixels_range _ (nBarHeight - 1) H0 H1 ltac:(lia)) as [_ Hrange].
    rewrite <- Hpp in Hrange. unfold u8. rewrite Z.mod_small by lia. lia.
Qed.

(** X24.  The rectangles that [DrawChannelLevelsGraphical] draws lie in the
    rows of the bar area: for arguments in the range of [u8], arrays that
    have a cell for every channel, levels and peaks in [[0, 1]] and a bar
    area that fits the 8-bit coordinates, every rectangle has
    [nBarYOffset <= nY1 <= nY2 <= nBarYOffset + nBarHeight - 1]; no
    coordinate wraps around. *)
Theorem Bars_within_bar_area
    (nBarXOffset nBarYOffset nBarWidth nBarHeight nChannels : Z)
    (pChannelLevels : list float) (pPeakLevels : option (list float))
    (bDrawBarBases : bool) (r : TRect) :
  Forall (λ z, 0 ≤ z ≤ 255)
    [nBarXOffset; nBarYOffset; nBarWidth; nBarHeight; nChannels] →
  1 ≤ nBarHeight → nBarYOffset + nBarHeight ≤ 256 →
  (Z.to_nat nChannels ≤ length pChannelLevels)%nat →
  Forall (λ x : float, (0 <= x)%Q ∧ (x <= 1)%Q) pChannelLevels →
  match pPeakLevels with
  | Some pPeaks =>
      (Z.to_nat nChannels ≤ length pPeaks)%nat
      ∧ Forall (λ x : float, (0 <= x)%Q ∧ (x <= 1)%Q) pPeaks
  | None => True
  end →
  r ∈ DrawChannelLevelsGraphical nBarXOffset nBarYOffset nBarWidth nBarHeight
        pChannelLevels pPeakLevels nChannels bDrawBarBases →
  nBarYOffset ≤ nY1 r ∧ nY1 r ≤ nY2 r ∧ nY2 r ≤ nBarYOffset + nBarHeight - 1.
Proof.
  intros Hu8 Hh Hfit _ Hlev Hpk Hr.
  assert (Hyo : 0 ≤ nBarYOffset) by (rewrite !Forall_cons in Hu8; lia).
  apply (Bars_rows nBarXOffset nBarYOffset nBarWidth nBarHeight nChannels
           pChannelLevels pPeakLevels bDrawBarBases r Hyo Hh Hfit Hlev);
    [|exact Hr].
  destruct pPeakLevels as [pPeaks|]; [exact (proj2 Hpk)|exact I].
Qed.

(** X25.  The bars of different channels do not touch: for arguments in
    the range of [u8], arrays that have a cell for every channel, a bar width
    of at least 1 and bars that fit the 8-bit coordinates, every rectangle has [nX1 <= nX2], and a
    rectangle of a later channel starts more than [BarSpacing] columns after
    the end of a rectangle of an earlier one. *)
Theorem Bars_do_not_overlap
    (nBarXOffset nBarYOffset nBarWidth nBarMaxY nChannels : Z)
    (pChannelLevels : list float) (pPeakLevels : option (list float))
    (bDrawBarBases : bool) (c c' : Z) (r r' : TRect) :
  Forall (λ z, 0 ≤ z ≤ 255)
    [nBarXOffset; nBarYOffset; nBarWidth; nBarMaxY; nChannels] →
  1 ≤ nBarWidth →
  nBarXOffset + nChannels * (nBarWidth + BarSpacing) ≤ 256 →
  (Z.to_nat nChannels ≤ length pChannelLevels)%nat →
  match pPeakLevels with
  | Some pPeaks => (Z.to_nat nChannels ≤ length pPeaks)%nat
  | None => True
  end →
  0 ≤ c → c < c' → c' < nChannels →
  r ∈ DrawChannel nBarXOffset nBarYOffset nBarWidth nBarMaxY pChannelLevels
        pPeakLevels bDrawBarBases c →
  r' ∈ DrawChannel nBarXOffset nBarYOffset nBarWidth nBarMaxY pChannelLevels
         pPeakLevels bDrawBarBases c' →
  nX1 r ≤ nX2 r ∧ nX2 r + BarSpacing < nX1 r' ∧ nX1 r' ≤ nX2 r'.
Proof.
  intros Hu8 Hw Hfit _ _ Hc Hcc' Hc' Hr Hr'.
  assert (Hxo : 0 ≤ nBarXOffset) by (rewrite !Forall_cons in Hu8; lia).
  clear Hu8. unfold BarSpacing in *.
  assert (Hx : ∀ k, 0 ≤ k < nChannels →
            u8 (nBarXOffset + k * (nBarWidth + 2)) = nBarXOffset + k * (nBarWidth + 2)
            ∧ u8 (nBarXOffset + k * (nBarWidth + 2) + nBarWidth - 1)
              = nBarXOffset + k * (nBarWidth + 2) + nBarWidth - 1).
  { intros k Hk. unfold u8. split; apply Z.mod_small; nia. }
  destruct (Hx c ltac:(lia)) as [Hc1 Hc2].
  destruct (Hx c' ltac:(lia)) as [Hc'1 Hc'2].
  assert (HX : nX1 r = nBarXOffset + c * (nBarWidth + 2)
               ∧ nX2 r = nBarXOffset + c * (nBarWidth + 2) + nBarWidth - 1).
  { apply elem_of_DrawChannel in Hr as [(? & _ & ->)|(? & ? & _ & _ & _ & ->)];
      cbn [nX1 nX2]; unfold BarSpacing; by rewrite Hc1, Hc2. }
  assert (HX' : nX1 r' = nBarXOffset + c' * (nBarWidth + 2)
                ∧ nX2 r' = nBarXOffset + c' * (nBarWidth + 2) + nBarWidth - 1).
  { apply elem_of_DrawChannel in Hr' as [(? & _ & ->)|(? & ? & _ & _ & _ & ->)];
      cbn [nX1 nX2]; unfold BarSpacing; by rewrite Hc'1, Hc'2. }
  destruct HX as [-> ->], HX' as [-> ->]. nia.
Qed.

(** X26.  The peak marker of a channel is one row high and never below the
    top of the bar of the channel.  For arguments in the range of [u8], a
    bar height of at least 1, a bar area that fits the 8-bit coordinates
    ([nBarYOffset + nBarHeight <= 256]), arrays that have a cell for the
    channel, bar bases drawn, and [0 <= level <= peak <= 1] in the cells of
    the channel: the channel gets its bar, whose bottom row is the last row
    of the bar area, [nBarYOffset + nBarHeight - 1], and after it at most
    one marker, which has the columns of the bar and lies in one row, at or
    above the first row of the bar and not above [nBarYOffset]. *)
Theorem Peak_marker_above_bar
    (nBarXOffset nBarYOffset nBarWidth nBarHeight nChannel : Z)
    (pChannelLevels pPeakLevels : list float) :
  Forall (λ z, 0 ≤ z ≤ 255)
    [nBarXOffset; nBarYOffset; nBarWidth; nBarHeight; nChannel] →
  1 ≤ nBarHeight → nBarYOffset + nBarHeight ≤ 256 →
  (Z.to_nat nChannel < length pChannelLevels)%nat →
  (Z.to_nat nChannel < length pPeakLevels)%nat →
  (0 <= pChannelLevels !!! Z.to_nat nChannel)%Q →
  (pChannelLevels !!! Z.to_nat nChannel <= pPeakLevels !!! Z.to_nat nChannel)%Q →
  (pPeakLevels !!! Z.to_nat nChannel <= 1)%Q →
  ∃ bar : TRect,
    nY2 bar = nBarYOffset + nBarHeight - 1
    ∧ nBarYOffset ≤ nY1 bar ≤ nY2 bar
    ∧ (DrawChannel nBarXOffset nBarYOffset nBarWidth (nBarHeight - 1)
         pChannelLevels (Some pPeakLevels) true nChannel = [bar]
       ∨ ∃ marker : TRect,
           DrawChannel nBarXOffset nBarYOffset nBarWidth (nBarHeight - 1)
             pChannelLevels (Some pPeakLevels) true nChannel = [bar; marker]
           ∧ nY1 marker = nY2 marker
           ∧ nBarYOffset ≤ nY1 marker ≤ nY1 bar
           ∧ nX1 marker = nX1 bar ∧ nX2 marker = nX2 bar).
Proof.
  intros Hu8 Hh Hfit _ _ H0 Hle H1.
  assert (Hyo : 0 ≤ nBarYOffset) by (rewrite !Forall_cons in Hu8; lia).
  clear Hu8. pose proof (Qle_trans _ _ _ Hle H1) as Hl1.
  pose proof (Qle_trans _ _ _ H0 Hle) as Hp0.
  destruct (pixels_range _ (nBarHeight - 1) H0 Hl1 ltac:(lia)) as [_ Hlp].
  destruct (pixels_range _ (nBarHeight - 1) Hp0 H1 ltac:(lia)) as [_ Hpp].
  pose proof (pixels_monotone _ _ (nBarHeight - 1) H0 Hle H1 ltac:(lia)) as Hmono.
  unfold DrawChannel. cbv zeta. rewrite orb_true_r.
  set (lp := float_to_u8 (pChannelLevels !!! Z.to_nat nChannel * inject_Z (nBarHeight - 1))) in *.
  set (pp := float_to_u8 (pPeakLevels !!! Z.to_nat nChannel * inject_Z (nBarHeight - 1))) in *.
  assert (HY1 : u8 (nBarYOffset + (nBarHeight - 1 - lp)) = nBarYOffset + (nBarHeight - 1 - lp))
    by (unfold u8; apply Z.mod_small; lia).
  assert (HY2 : u8 (nBarYOffset + (nBarHeight - 1 - lp) + lp) = nBarYOffset + nBarHeight - 1)
    by (unfold u8; rewrite Z.mod_small by lia; lia).
  assert (HYp : u8 (nBarYOffset + (nBarHeight - 1 - pp)) = nBarYOffset + (nBarHeight - 1 - pp))
    by (unfold u8; apply Z.mod_small; lia).
  rewrite HY1, HY2, HYp.
  eexists. split; [|split]; [| |destruct (pp =? 0) eqn:E; cbn [negb app]].
  3: { left. reflexivity. }
  3: { right. eexists. split; [reflexivity|]. cbn [nX1 nY1 nX2 nY2].
       apply Z.eqb_neq in E. repeat split; lia. }
  - reflexivity.
  - cbn [nY1 nY2]. lia.
Qed.

(** A property of every cell of an array is a property of the array. *)
Lemma Forall_of_cells (P : float → Prop) (l : list float) (n : nat) :
  length l = n → (∀ i : nat, (i < n)%nat → P (l !!! i)) → Forall P l.
Proof.
  intros Hlen HP. apply Forall_lookup. intros i x Hi.
  pose proof (lookup_lt_Some _ _ _ Hi) as Hlt. rewrite Hlen in Hlt.
  specialize (HP i Hlt). by rewrite (list_lookup_total_correct _ _ _ Hi) in HP.
Qed.

Section Meter.

Variable DecayReleaseTimeMillis : float.
Variable PeakHoldTimeMillis : float.
Variable PeakFalloffTimeMillis : float.
Variable TicksToMillis : Z → float.

Local Abbreviation GetChannelLevels :=
  (MIDIMonitor.GetChannelLevels DecayReleaseTimeMillis PeakHoldTimeMillis
     PeakFalloffTimeMillis TicksToMillis).
Local Abbreviation Reachable :=
  (MIDIMonitor.Reachable DecayReleaseTimeMillis PeakHoldTimeMillis
     PeakFalloffTimeMillis TicksToMillis).
Local Abbreviation DrawChannelLevels :=
  (LevelMeter.DrawChannelLevels DecayReleaseTimeMillis PeakHoldTimeMillis
     PeakFalloffTimeMillis TicksToMillis).

(** Each cell of the output arrays of a query holds a level. *)
Lemma GetChannelLevels_channel_range (s : CMIDIMonitor) (nTicks : Z) (c : nat) :
  Reachable s → (c < ChannelCount)%nat →
  ((0 <= Level (GetChannelLevels nTicks s) c)%Q
   ∧ (Level (GetChannelLevels nTicks s) c <= 1)%Q)
  ∧ ((0 <= Peak (GetChannelLevels nTicks s) c)%Q
     ∧ (Peak (GetChannelLevels nTicks s) c <= 1)%Q).
Proof.
  intros Hreach Hc.
  destruct (MonitorLevels.Reachable_inv _ _ _ _ s Hreach) as [Hwf Hpk].
  destruct (MonitorLevels.GetChannelLevels_values DecayReleaseTimeMillis
              PeakHoldTimeMillis PeakFalloffTimeMillis TicksToMillis nTicks s c
              Hwf Hc) as (-> & -> & _).
  pose proof (MonitorLevels.ChannelVolume_range DecayReleaseTimeMillis
                TicksToMillis nTicks c (m_State s !!! c)) as Hv.
  destruct (MonitorLevels.peaks_ok_lookup s c Hwf Hpk Hc) as [HP0 HP1].
  pose proof (MonitorLevels.DecayedPeak_range PeakHoldTimeMillis
                PeakFalloffTimeMillis TicksToMillis nTicks _
                (m_PeakTimes s !!! c) HP0 HP1) as Hd.
  split; [exact Hv|]. destruct (Qle_bool _ _); [exact Hv|exact Hd].
Qed.

(** Both output arrays of a query hold levels. *)
Lemma GetChannelLevels_unit_interval (s : CMIDIMonitor) (nTicks : Z) :
  Reachable s →
  Forall (λ x : float, (0 <= x)%Q ∧ (x <= 1)%Q) (pOutLevels (GetChannelLevels nTicks s))
  ∧ Forall (λ x : float, (0 <= x)%Q ∧ (x <= 1)%Q) (pOutPeaks (GetChannelLevels nTicks s)).
Proof.
  intros Hreach.
  destruct (MonitorLevels.Reachable_inv _ _ _ _ s Hreach) as [Hwf Hpk].
  destruct (MonitorLevels.GetChannelLevels_frame DecayReleaseTimeMillis
              PeakHoldTimeMillis PeakFalloffTimeMillis TicksToMillis nTicks s Hwf)
    as ((_ & _ & Hl & Hp) & _).
  split.
  - apply (Forall_of_cells _ _ ChannelCount Hl). intros i Hi.
    pose proof (GetChannelLevels_channel_range s nTicks i Hreach Hi) as H.
    unfold Level in H. cbv beta. destruct H as [[H0 H1] _].
    split; [exact H0|exact H1].
  - apply (Forall_of_cells _ _ ChannelCount Hp). intros i Hi.
    pose proof (GetChannelLevels_channel_range s nTicks i Hreach Hi) as H.
    unfold Peak in H. cbv beta. destruct H as [_ [H0 H1]].
    split; [exact H0|exact H1].
Qed.

(** X27.  The level meter stays on the display: on a graphical display at
    least three columns wide for each channel and at most 255 columns wide,
    [DrawChannelLevels] for 1 to 16 channels, a bar height from 1 to 255 and
    a monitor in a state reached from its construction by messages (whose
    first data byte is below 128, so that a note message addresses one of
    the 128 notes) and by queries, draws rectangles that all lie within the
    width of the display and within the bar height,
    [2 <= nX1 <= nX2 < nWidth] and [0 <= nY1 <= nY2 < nBarHeight], and it
    leaves the monitor as the level query does. *)
Theorem Meter_within_display (lcd : CLCD) (s : CMIDIMonitor)
    (nBarHeight nTicks nChannels : Z) (r : TRect) :
  Reachable s →
  GetType lcd = Graphical →
  1 ≤ nChannels ≤ 16 →
  3 * nChannels ≤ nWidth lcd → nWidth lcd ≤ 255 →
  1 ≤ nBarHeight ≤ 255 →
  r ∈ (DrawChannelLevels lcd s nBarHeight nTicks nChannels).2 →
  (2 ≤ nX1 r ∧ nX1 r ≤ nX2 r ∧ nX2 r < nWidth lcd)
  ∧ (0 ≤ nY1 r ∧ nY1 r ≤ nY2 r ∧ nY2 r < nBarHeight)
  ∧ (DrawChannelLevels lcd s nBarHeight nTicks nChannels).1
    = Monitor (GetChannelLevels nTicks s).
Proof.
  intros Hreach Hg Hn HW HW' Hh Hr.
  unfold LevelMeter.DrawChannelLevels in *. cbv zeta in *.
  rewrite (bool_decide_eq_true_2 _ Hg) in *. cbn [fst snd] in *.
  destruct (GetChannelLevels_unit_interval s nTicks Hreach) as [Hlev Hpk].
  split; [|split; [|reflexivity]].
  - unfold BarSpacing in Hr.
    assert (Hquot : Z.quot (nWidth lcd - nChannels * 2) nChannels
                    = (nWidth lcd - nChannels * 2) / nChannels)
      by (apply Z.quot_div_nonneg; lia).
    rewrite Hquot in Hr.
    set (w := (nWidth lcd - nChannels * 2) / nChannels) in *.
    assert (Hw1 : 1 ≤ w).
    { unfold w. apply Z.div_le_lower_bound; lia. }
    assert (Hwn : nChannels * w ≤ nWidth lcd - nChannels * 2).
    { unfold w. apply Z.mul_div_le. lia. }
    assert (Hu : u8 w = w) by (unfold u8; apply Z.mod_small; nia).
    rewrite Hu in Hr.
    unfold DrawChannelLevelsGraphical in Hr. cbv zeta in Hr.
    apply list_elem_of_bind in Hr as (c & Hr & Hc).
    apply elem_of_channels in Hc.
    assert (Hx1 : u8 (2 + c * (w + BarSpacing)) = 2 + c * (w + 2))
      by (unfold u8, BarSpacing; apply Z.mod_small; nia).
    assert (Hx2 : u8 (2 + c * (w + 2) + w - 1) = 2 + c * (w + 2) + w - 1)
      by (unfold u8; apply Z.mod_small; nia).
    apply elem_of_DrawChannel in Hr as [(? & _ & ->)|(? & ? & _ & _ & _ & ->)];
      cbn [nX1 nX2]; rewrite Hx1, Hx2; nia.
  - destruct (Bars_rows 2 0 _ nBarHeight nChannels _ (Some _) true r
                ltac:(lia) ltac:(lia) ltac:(lia) Hlev Hpk Hr) as (H1 & H2 & H3).
    lia.
Qed.

End Meter.

(** ** The statements at sample values *)

Lemma Bars_within_bar_area_witness :
  let r := mkRect 2 8 7 15 in
  0 ≤ nY1 r ∧ nY1 r ≤ nY2 r ∧ nY2 r ≤ 0 + 16 - 1.
Proof.
  cbv zeta.
  apply (Bars_within_bar_area 2 0 6 16 2 [1 # 2; 1]%Q (Some [3 # 4; 1]%Q) true
           (mkRect 2 8 7 15)).
  - apply (bool_decide_unpack _). vm_compute. reflexivity.
  - lia.
  - lia.
  - vm_compute. lia.
  - repeat constructor; vm_compute; discriminate.
  - split; [vm_compute; lia|repeat constructor; vm_compute; discriminate].
  - vm_compute. apply list_elem_of_here.
Defined.

Lemma Bars_do_not_overlap_witness :
  let r := mkRect 2 8 7 15 in
  let r' := mkRect 10 0 15 15 in
  nX1 r ≤ nX2 r ∧ nX2 r + BarSpacing < nX1 r' ∧ nX1 r' ≤ nX2 r'.
Proof.
  cbv zeta.
  apply (Bars_do_not_overlap 2 0 6 15 2 [1 # 2; 1]%Q (Some [3 # 4; 1]%Q) true 0 1
           (mkRect 2 8 7 15) (mkRect 10 0 15 15)).
  - apply (bool_decide_unpack _). vm_compute. reflexivity.
  - lia.
  - vm_compute. discriminate.
  - vm_compute. lia.
  - vm_compute. lia.
  - lia.
  - lia.
  - lia.
  - vm_compute. apply list_elem_of_here.
  - vm_compute. apply list_elem_of_here.
Defined.

Lemma Peak_marker_above_bar_witness :
  ∃ bar : TRect,
    nY2 bar = 0 + 16 - 1
    ∧ 0 ≤ nY1 bar ≤ nY2 bar
    ∧ (DrawChannel 2 0 6 (16 - 1) [1 # 2]%Q (Some [3 # 4]%Q) true 0 = [bar]
       ∨ ∃ marker : TRect,
           DrawChannel 2 0 6 (16 - 1) [1 # 2]%Q (Some [3 # 4]%Q) true 0
           = [bar; marker]
           ∧ nY1 marker = nY2 marker
           ∧ 0 ≤ nY1 marker ≤ nY1 bar
           ∧ nX1 marker = nX1 bar ∧ nX2 marker = nX2 bar).
Proof.
  apply (Peak_marker_above_bar 2 0 6 16 0 [1 # 2]%Q [3 # 4]%Q).
  - apply (bool_decide_unpack _). vm_compute. reflexivity.
  - lia.
  - lia.
  - vm_compute. lia.
  - vm_compute. lia.
  - vm_compute. discriminate.
  - vm_compute. discriminate.
  - vm_compute. discriminate.
Defined.

Lemma Meter_within_display_witness :
  let s := OnShortMessage (ShortMessage 0x90 60 100) 5 CMIDIMonitor_new in
  let r := mkRect 2 6 7 15 in
  (2 ≤ nX1 r ∧ nX1 r ≤ nX2 r ∧ nX2 r < nWidth Sample.SampleLCD)
  ∧ (0 ≤ nY1 r ∧ nY1 r ≤ nY2 r ∧ nY2 r < 16)
  ∧ (DrawChannelLevels Sample.DecayReleaseTimeMillis Sample.PeakHoldTimeMillis
       Sample.PeakFalloffTimeMillis Sample.TicksToMillis Sample.SampleLCD s 16 7
       16).1
    = Monitor
        (GetChannelLevels Sample.DecayReleaseTimeMillis
           Sample.PeakHoldTimeMillis Sample.PeakFalloffTimeMillis
           Sample.TicksToMillis 7 s).
Proof.
  cbv zeta.
  apply (Meter_within_display Sample.DecayReleaseTimeMillis
           Sample.PeakHoldTimeMillis Sample.PeakFalloffTimeMillis
           Sample.TicksToMillis Sample.SampleLCD
           (OnShortMessage (ShortMessage 0x90 60 100) 5 CMIDIMonitor_new)
           16 7 16 (mkRect 2 6 7 15)).
  - apply Reachable_OnShortMessage; [reflexivity|apply Reachable_new].
  - reflexivity.
  - lia.
  - vm_compute. discriminate.
  - vm_compute. discriminate.
  - lia.
  - vm_compute. apply list_elem_of_here.
Defined.

End LevelMeterGeometry.

(** * The monitor as the constructor leaves it *)

Module FreshMonitor.

Import MIDIMonitor MonitorMessages MonitorLevels.

Section Fresh.

Variable DecayReleaseTimeMillis : float.
Variable PeakHoldTimeMillis : float.
Variable PeakFalloffTimeMillis : float.
Variable TicksToMillis : Z → float.

Local Abbreviation NoteVolume :=
  (MIDIMonitor.NoteVolume DecayReleaseTimeMillis TicksToMillis).
Local Abbreviation ChannelVolume :=
  (MIDIMonitor.ChannelVolume DecayReleaseTimeMillis TicksToMillis).
Local Abbreviation DecayedPeak :=
  (MIDIMonitor.DecayedPeak PeakHoldTimeMillis PeakFalloffTimeMillis TicksToMillis).
Local Abbreviation GetChannelLevels :=
  (MIDIMonitor.GetChannelLevels DecayReleaseTimeMillis PeakHoldTimeMillis
     PeakFalloffTimeMillis TicksToMillis).

(** A stored peak of 0 stays 0 through the hold/fall-off step. *)
Lemma DecayedPeak_zero (nTicks nPeakTime : Z) :
  (0 < PeakFalloffTimeMillis)%Q → (DecayedPeak nTicks 0 nPeakTime == 0)%Q.
Proof.
  intros HF. unfold MIDIMonitor.DecayedPeak. cbv zeta.
  destruct (Qle_bool _ _); [|reflexivity].
  set (fall := Utility.Max _ 0).
  assert (Hfall : (0 <= fall)%Q) by apply Max_le_r.
  pose proof (Qdiv_nonneg fall PeakFalloffTimeMillis Hfall HF) as Hq.
  unfold Utility.Clamp. repeat destruct (Qlt_le_dec _ _); lra.
Qed.

(** X28.  A newly constructed monitor is silent: for a positive fall-off
    time, a query at any tick writes the level 0 and the peak 0 for each of
    the 16 channels; the level having reached the peak, the query stores its
    tick as the peak tick of the channel. *)
Theorem New_monitor_is_silent (nTicks : Z) (nChannel : nat) :
  (0 < PeakFalloffTimeMillis)%Q → (nChannel < ChannelCount)%nat →
  let r := GetChannelLevels nTicks CMIDIMonitor_new in
  (Level r nChannel == 0)%Q
  ∧ (Peak r nChannel == 0)%Q
  ∧ m_PeakTimes (Monitor r) !!! nChannel = nTicks.
Proof.
  intros HF Hc r.
  destruct (GetChannelLevels_values DecayReleaseTimeMillis PeakHoldTimeMillis
              PeakFalloffTimeMillis TicksToMillis nTicks CMIDIMonitor_new nChannel
              wf_new Hc) as (HL & HP & _ & HT).
  fold r in HL, HP, HT.
  assert (Hv : (ChannelVolume nTicks nChannel (m_State CMIDIMonitor_new !!! nChannel)
                == 0)%Q).
  { apply LevelQuery.ChannelVolume_zero. intros i Hi.
    fold (Note CMIDIMonitor_new nChannel i). rewrite new_Note by done.
    rewrite NoteVolume_silent by done. lra. }
  assert (Hpk : m_PeakLevels CMIDIMonitor_new !!! nChannel = 0%Q)
    by (by apply lookup_total_replicate_2).
  unfold float in *. rewrite Hpk in HP, HT.
  pose proof (DecayedPeak_zero nTicks (m_PeakTimes CMIDIMonitor_new !!! nChannel) HF)
    as Hd.
  assert (Hle : Qle_bool
                  (DecayedPeak nTicks 0 (m_PeakTimes CMIDIMonitor_new !!! nChannel))
                  (ChannelVolume nTicks nChannel
                     (m_State CMIDIMonitor_new !!! nChannel)) = true).
  { apply Qle_bool_iff. rewrite Hd, Hv. lra. }
  rewrite Hle in HP, HT. rewrite HL, HP. done.
Qed.

End Fresh.

Lemma New_monitor_is_silent_witness :
  let r :=
    GetChannelLevels Sample.DecayReleaseTimeMillis Sample.PeakHoldTimeMillis
      Sample.PeakFalloffTimeMillis Sample.TicksToMillis 7 CMIDIMonitor_new in
  (Level r 9 == 0)%Q ∧ (Peak r 9 == 0)%Q ∧ m_PeakTimes (Monitor r) !!! 9%nat = 7.
Proof.
  cbv zeta.
  apply (New_monitor_is_silent Sample.DecayReleaseTimeMillis
           Sample.PeakHoldTimeMillis Sample.PeakFalloffTimeMillis
           Sample.TicksToMillis 7 9).
  - reflexivity.
  - vm_compute. lia.
Defined.

End FreshMonitor.
